(* ===== verification/_CoqProject ===== *)
-Q . S2P
Prelude.v
PyValue.v
UrlArgs.v
Navigation.v
ProcessSearch.v
SearchQuery.v
Sre.v
StripPlace.v
Handlers.v
Pagination.v
Mongo.v
Json.v
JsonDecode.v
MongoHandlers.v
Routing.v
