(* ===== verification/Prelude.v ===== *)
(** * AgileDS: a verification development of the report_flask controllers

    ** The program

    The repository (mattOBham/AgileDS) is a set of Flask controllers.
    src/ch06/web/report_flask.py is the application: route handlers that
    look documents up in MongoDB and render them, and two search handlers,
    [search_flights] and [search_airplanes], which build an Elasticsearch
    query from the request parameters, paginate it, turn the hits into
    records and render them with "Previous"/"Next" navigation links.  Its
    pure helpers are [process_search] (hits to records), 
    [get_navigation_offsets] (the offsets of the two links) and
    [strip_place] (the request URL without its [start]/[end] parameters,
    by a regular expression).  src/ch02/web/*.py are three toy Flask apps.
    The search handlers also call a [search_helpers] module and read a
    [config] module, neither of which is in the repository.

    ** The library (the files in _CoqProject order)

    - Prelude.v (this file): Python exceptions [exc] and the exception
      monad [pyres] ([x <- m ;; k] in [py_scope]), [try/except] as
      [pycatch], [for]-loops that may raise as [pymapM], string helpers,
      the hint databases [agile] / [agile_rw] and the tactics [pysimp]
      and [vm_decide].
    - PyValue.v: the Python values the handlers manipulate ([pyval]: None,
      bool, int, str, list, insertion-ordered dict) with the Python
      semantics the code relies on: truthiness ([if v:], [a or b]),
      [d[k]] with [KeyError]/[TypeError], [d[k] = v], [for x in v],
      [lst.append], werkzeug's [request.args.get] (first value of a
      multi-dict), [int()] on strings (CPython's base-10 grammar) and
      [str()] on ints ([str_of_Z]), with the round trip
      [int(str(z)) == z] ([int_of_str_str_of_Z]).
    - UrlArgs.v ([Module UrlArgs]): how werkzeug fills [request.args]
      from a URL: the query string after ['?'], split at ['&'] and ['='],
      unquoted ([urllib.parse.parse_qsl] with [keep_blank_values]).
    - Navigation.v ([Module Navigation]): [get_navigation_offsets]
      (report_flask.py 33-43); its dicts with fixed keys are records.
    - ProcessSearch.v ([Module ProcessSearch]): [process_search] (21-29).
    - SearchQuery.v ([Module SearchQuery]): the query construction of
      [search_flights] (287-306) and [search_airplanes] (122-159), with
      the abstract specification [query_dict (match_clauses ...)].
    - Sre.v ([Module Sre]): the part of CPython's [re] that [strip_place]
      uses: compilation of the pattern string to sre opcodes ([MARK],
      literal/any, [REPEAT_ONE]) and the backtracking matcher, with a
      declarative semantics [Matches].
    - StripPlace.v ([Module StripPlace]): [strip_place] (47-52).
    - Handlers.v ([Module Handlers]): the controllers [search_flights]
      (262-325) and [search_airplanes] (118-174).  Their collaborators are
      typeclasses: [Config] (the page sizes of config.py), [Elastic]
      ([elastic.search], which may raise) and [SearchHelpers] (the
      [search_helpers] module, instantiated by [report_flask_helpers] with
      the report_flask.py functions of the same names).  A controller
      returns [Render template context], a [Text] body, or the exception
      Flask turns into an HTTP 500.
    - Pagination.v ([Module Pagination]): the pagination cycle.  A page
      rendered by a search controller carries "Previous"/"Next" links
      [nav_path&start=bottom&end=top] (the format of the Jinja macros,
      which are not in the repository); following one is a new request
      whose [request.args] UrlArgs.v parses.  [browse] follows a sequence
      of links; [spec_start] is the abstract page machine it refines.
    - Mongo.v ([Module Mongo]): the database the other controllers read
      (collections in natural order, every document with an ObjectId
      [_id]), pymongo's [find_one] and [find(..., sort=...)] with Mongo's
      equality-filter rules and its BSON comparison order ([bson_compare]:
      type, then value, embedded documents and arrays lexicographically;
      an array sort key reads as its least or greatest element).
    - Json.v ([Module Json]): CPython's [json.dumps] (escapes, separators,
      [TypeError] on an ObjectId) and [bson.json_util.dumps].
    - JsonDecode.v ([Module JsonDecode]): [json.loads] on the JSON the
      encoder writes (whitespace, literals, integers, escaped strings,
      arrays, objects built as [dict(pairs)]): the reader of the answer
      of [total_flights_json].
    - MongoHandlers.v ([Module MongoHandlers]): the eleven MongoDB-only
      controllers of report_flask.py (56-115, 177-259), with the database
      as a section variable, and the ch02 apps ([hello], [executive],
      [executive_dumps] for test_flask_pymongo's [executive]).
    - Routing.v ([Module Routing]): the [@app.route] decorators of every
      app as url maps ([route_*] per view, [url_map]), werkzeug's rule
      syntax and matching of the percent-decoded request path, the call
      of the view with the rule's keyword arguments, and the apps
      [report_flask_app], [test_flask_app], [bootstrap_app] and
      [pymongo_app], which answer a request with its view's result or
      404.  This is the composition of every controller above.

    ** What is proved (claims C1-C39 of the manifest)

    - Navigation: the "Previous" offsets are never negative (C1); "Next"
      then "Previous" is the identity on pages with non-negative offsets,
      also for k steps (C2, C4); "Previous" then "Next" is the identity
      exactly when no offset was clamped (C3).
    - process_search: on a response with hits it returns the sources in
      order with the total (C5) and one record per hit (C7); on every
      response it raises [UnboundLocalError] exactly when the hits or the
      hit list are falsy, e.g. a search with no hits (C6, a bug).
    - Queries: both builders equal the specification: one match clause per
      truthy parameter, in field order, over the fixed base query (C8,
      C9; C9 also gives [arg_dict]).
    - The regex engine (Sre.v, lemmas): every match it returns is a match
      of the pattern ([sre_match_sound]); it finds a match whenever one
      exists ([sre_match_complete]); [REPEAT_ONE] settles on the largest
      feasible count ([sre_match_repeat_greedy]).
    - strip_place: never raises and returns a prefix of the URL (C10);
      strips a pagination suffix [&start=a&end=b] back to the path (C11);
      also drops every parameter that follows [end] (C12); leaves a URL
      without ["&start="] unchanged (C13); and equals a direct scan for
      the last cut, without regular expressions (C32,
      [strip_place_spec]).
    - Controllers: [search_flights] renders the hits with the specified
      query, offsets and path (C14), crashes on a search with no hits
      (C15) and on a non-integer [start] (C16); [search_airplanes] renders
      its results likewise (C17).
    - MongoDB controllers: [on_time_performance] renders only a flight
      whose Carrier, FlightDate and FlightNum match the request's
      parameters (C18) and [None] exactly when none does (C19);
      [list_flights] renders the matching flights, sorted by departure
      then arrival, with their count (C20); [airplane_manufacturers_chart]
      raises [TypeError] on every non-empty collection because
      [json.dumps] meets the ObjectId [_id] (C21, a bug), while
      [total_flights_json], which uses [json_util], never raises (C22).
    - Pagination (composition of [strip_place], [get_navigation_offsets],
      the controllers, [str]/[int] and werkzeug's parsing): from a start
      URL without [start]/[end] parameters, following any sequence of
      links never fails and requests the offsets of the abstract page
      machine, for both search controllers (C23, C24); the offset stays a
      non-negative multiple of the page size (C25); every page is reached
      and "Previous" walks back (C26).  From a URL that begins its query
      with [start=...&end=...], the links never leave the first page
      (C27, a bug: [strip_place] only strips ["&start="]).
      [airplane_manufacturers_chart] raises exactly when the first
      document holds an ObjectId (C28); the carrier and airport pages
      render the first document of each collection whose key field is
      the code in the URL (C30); [total_flights] and its chart render
      every document of flights_by_month once, strongly sorted by year
      then month (C33); the answer of [total_flights_json] reads back with
      [json.loads] as those documents with [{"$oid": ...}] ids (C31).
    - ch02 apps: test_flask_bootstrap's [executive] renders the
      executives of the requested name (C34), and test_flask_pymongo's
      answers a JSON text that reads back as them (C29).
    - Library lemmas behind these: [json.dumps] raises exactly on values
      holding an ObjectId ([json_dumps_raises_iff]); [json.loads] reads
      back what [json.dumps] writes ([json_dumps_roundtrip]);
      [bson_compare] is a strict total order and [sort_compare] a total
      preorder, so [find] returns a strongly sorted list ([find_sorted]);
      an array sort key sorts by its least or greatest element
      ([sort_compare_array_key]).
    - Routing: the url map of report_flask.py is unambiguous, so the
      priority werkzeug gives matching rules never matters (C35); a
      request matching a rule is answered by that rule's view with the
      arguments the rule extracts (C36), e.g. [/flights/o/d/f] runs
      [list_flights(o, d, f)] (C37); both rules of
      [flights_per_airplane] serve every tail number, so
      [/airplane/flights] is the tail number "flights", not a 404 (C38); the ch02
      echo app returns its one segment and 404s on the root (C39).

    ** Bounds, fuel and modelling choices

    Python integers are unbounded: offsets and counts are [Z] without
    wrap-around.  Every loop is structural (the matcher recurses on the
    opcode list and, inside [REPEAT_ONE], on the number of counts left to
    try, at most the length of the input plus one), so every function is
    total and the theorems about results are unconditional; the
    controllers' own loops are [for]-loops over finite lists, so no
    theorem of termination beyond structural recursion is needed.  Two
    functions run on fuel.  [digits_fuel] ([str_of_Z]) peels one decimal
    digit per step and is given the number of bits of the value, which
    is at least its number of digits ([dec_fuel_enough]), so the digits
    are never cut short ([str_digits_parse] reads the whole value back).
    The JSON reader ([decode_value] and its mutual [decode_elems],
    [decode_members]) consumes at least one character per call and
    [json_loads] gives it one more than the length of its input; the
    round trip ([decode_encode]) is proved for any fuel above the length
    of the encoding, so that fuel is enough.  Strings are [String.string], reasoned about as lists
    of ASCII characters: a non-ASCII character of a URL behaves in the
    pattern like any character that is not a newline.  The Elasticsearch
    client and the Jinja templates are external: the client enters through
    a typeclass parameter, the templates receive the context the model
    returns.  MongoDB is modelled as data (Mongo.v): its reads are
    functions of the database, so its network failures are not modelled,
    and ties of a sort keep natural order (MongoDB leaves them
    unspecified; the sortedness theorems hold for any order of ties).

    ** Not modelled (yet)

    App startup ([app.run]), HTTP methods (every rule is GET-only),
    werkzeug's merging of repeated slashes, the templates (except the
    link format Pagination.v states), and [print(flights)] in
    [flights_per_airplane] (server stdout).  Percent-escapes above 127
    are read as single characters, not decoded as UTF-8.  BSON doubles,
    dates and the other BSON types are outside the value type.  JSON floats
    and [\uXXXX] escapes above 255 are outside the value type and the
    reader rejects them. *)

From Stdlib Require Import ZArith Ascii String Lia.
From stdpp Require Import base list strings.

(** ** Python exceptions

    The controllers are Python code; an uncaught exception aborts the
    request (Flask answers HTTP 500).  Exceptions are values of [exc],
    carrying the message Python would print where it matters. *)
Inductive exc : Type :=
| KeyError (key : string)
| TypeError (msg : string)
| ValueError (msg : string)
| AttributeError (msg : string)
| UnboundLocalError (name : string)
| IndexError (msg : string)
| ReError (msg : string).

#[export] Instance exc_eq_dec : EqDecision exc.
Proof. solve_decision. Defined.

(** A Python computation either returns a value or raises. *)
Inductive pyres (A : Type) : Type :=
| Ok (a : A)
| Raise (e : exc).
Arguments Ok {A} a.
Arguments Raise {A} e.

Definition pybind {A B} (m : pyres A) (k : A -> pyres B) : pyres B :=
  match m with
  | Ok a => k a
  | Raise e => Raise e
  end.

Definition pymap {A B} (f : A -> B) (m : pyres A) : pyres B :=
  pybind m (fun a => Ok (f a)).

(** [try: m except <class>: handler]: [catches e] says whether the
    [except] clause names the class of [e]. *)
Definition pycatch {A} (catches : exc -> bool) (m : pyres A)
    (handler : exc -> pyres A) : pyres A :=
  match m with
  | Ok a => Ok a
  | Raise e => if catches e then handler e else Raise e
  end.

Definition is_AttributeError (e : exc) : bool :=
  match e with AttributeError _ => true | _ => false end.

Declare Scope py_scope.
Delimit Scope py_scope with py.
Notation "x <- m ;; k" := (pybind m (fun x => k))
  (at level 100, m at next level, right associativity) : py_scope.
Open Scope py_scope.

(** [for x in xs: f(x)] collecting the results, stopping at the first
    exception, in list order. *)
Fixpoint pymapM {A B} (f : A -> pyres B) (xs : list A) : pyres (list B) :=
  match xs with
  | [] => Ok []
  | x :: xs' => y <- f x ;; ys <- pymapM f xs' ;; Ok (y :: ys)
  end.

(** [c in s] for a Python string [s] and a character [c]. *)
Definition str_has (c : ascii) (s : string) : bool :=
  bool_decide (c ∈ list_ascii_of_string s).

(** [w in l] for sequences: [w] occurs as a contiguous block of [l]. *)
Fixpoint list_contains {A} `{EqDecision A} (w l : list A) : bool :=
  bool_decide (take (length w) l = w) ||
  match l with [] => false | _ :: l' => list_contains w l' end.

(** ** Generic lemmas on the exception monad *)

Lemma pybind_Ok {A B} (a : A) (k : A -> pyres B) : pybind (Ok a) k = k a.
Proof. reflexivity. Qed.

Lemma pybind_Raise {A B} (e : exc) (k : A -> pyres B) : pybind (Raise e) k = Raise e.
Proof. reflexivity. Qed.

Lemma pybind_eq_Ok {A B} (m : pyres A) (k : A -> pyres B) (b : B) :
  pybind m k = Ok b <-> exists a, m = Ok a /\ k a = Ok b.
Proof.
  destruct m as [a|e]; simpl; split.
  - eauto.
  - by intros (? & [= ->] & ?).
  - done.
  - by intros (? & ? & _).
Qed.

Lemma pybind_assoc {A B C} (m : pyres A) (k : A -> pyres B) (h : B -> pyres C) :
  pybind (pybind m k) h = pybind m (fun a => pybind (k a) h).
Proof. by destruct m. Qed.

Lemma pymapM_Ok_iff {A B} (f : A -> pyres B) (xs : list A) (ys : list B) :
  pymapM f xs = Ok ys <-> Forall2 (fun x y => f x = Ok y) xs ys.
Proof.
  revert ys; induction xs as [|x xs IH]; intros ys; simpl.
  - split; [intros [= <-]; constructor | intros H; by inversion H].
  - rewrite pybind_eq_Ok. split.
    + intros (y & Hy & Hrest). apply pybind_eq_Ok in Hrest as (ys' & Hys & [= <-]).
      constructor; [done | by apply IH].
    + intros H; inversion H as [|? y ? ys' Hy Hys]; subst.
      exists y; split; [done|]. apply IH in Hys. by rewrite Hys.
Qed.

Lemma pymapM_map_Ok {A B} (f : A -> B) (xs : list A) :
  pymapM (fun x => Ok (f x)) xs = Ok (map f xs).
Proof. induction xs as [|x xs IH]; simpl; [done | by rewrite IH]. Qed.

Lemma pymapM_exists_iff {A B} (f : A -> pyres B) (l : list A) :
  (exists ys, pymapM f l = Ok ys) <-> Forall (fun x => exists y, f x = Ok y) l.
Proof.
  induction l as [|x l IH]; simpl.
  - split; [constructor | eauto].
  - split.
    + intros [ys Hys]. destruct (f x) as [y|] eqn:Hx; [|done]. simpl in Hys.
      destruct (pymapM f l) eqn:Hl; [|done]. constructor; [eauto|]. apply IH; eauto.
    + intros [[y Hy] Hl]%Forall_cons. destruct (proj2 IH Hl) as [ys Hys].
      rewrite Hy, pybind_Ok, Hys, pybind_Ok. eauto.
Qed.

Lemma pybind_Ok_exists {A B} (m : pyres A) (g : A -> B) :
  (exists s, pybind m (fun x => Ok (g x)) = Ok s) <-> exists x, m = Ok x.
Proof. destruct m; simpl; split; intros [? ?]; simplify_eq; eauto. Qed.

Lemma pymapM_Raise {A B} (f : A -> pyres B) (l : list A) e :
  pymapM f l = Raise e -> exists x, x ∈ l /\ f x = Raise e.
Proof.
  induction l as [|x l IH]; simpl; [done|].
  destruct (f x) eqn:Hx; simpl; [|intros [= ->]; exists x; split; [apply list_elem_of_here | done]].
  destruct (pymapM f l) eqn:Hl; simpl; [done|]. intros [= ->].
  destruct (IH eq_refl) as (y & Hy & Hfy). exists y. split; [by apply list_elem_of_further | done].
Qed.

Lemma pymapM_length {A B} (f : A -> pyres B) xs ys :
  pymapM f xs = Ok ys -> length ys = length xs.
Proof. intros H. apply pymapM_Ok_iff, Forall2_length in H. done. Qed.

Lemma Forall2_Forall_and {A B} (P : A -> Prop) (R : A -> B -> Prop) xs ys :
  Forall P xs -> Forall2 R xs ys -> Forall2 (fun x y => P x /\ R x y) xs ys.
Proof. intros HP HR. induction HR; inversion HP; constructor; auto. Qed.

Lemma forallb_Forall {A} (f : A -> bool) l : forallb f l = true -> Forall (fun x => f x = true) l.
Proof. induction l as [|x l IH]; simpl; [constructor|]. intros [? ?]%andb_prop. constructor; auto. Qed.

Lemma Forall_iff_Forall {A} (P Q : A -> Prop) l :
  Forall (fun x => P x <-> Q x) l -> (Forall P l <-> Forall Q l).
Proof. induction 1 as [|x l Hx _ IH]; [done|]. rewrite !Forall_cons. tauto. Qed.

Lemma existsb_false_Forall {A} (f : A -> bool) l : existsb f l = false <-> Forall (fun x => f x = false) l.
Proof.
  induction l as [|x l IH]; simpl; [split; [constructor | done]|].
  rewrite Forall_cons, orb_false_iff. tauto.
Qed.

(** ** Strings as lists of characters *)

Lemma list_ascii_of_string_append (s1 s2 : string) :
  list_ascii_of_string (s1 +:+ s2) = list_ascii_of_string s1 ++ list_ascii_of_string s2.
Proof. induction s1 as [|c s1 IH]; simpl; [done | by rewrite IH]. Qed.

Lemma list_ascii_of_string_neq_nil (s : string) :
  s <> ""%string -> list_ascii_of_string s <> [].
Proof. by destruct s. Qed.

Lemma str_has_false c s : str_has c s = false <-> c ∉ list_ascii_of_string s.
Proof. unfold str_has. by rewrite bool_decide_eq_false. Qed.

Lemma list_contains_drop {A} `{EqDecision A} (w l : list A) j k :
  j <= k -> take (length w) (drop k l) = w -> list_contains w (drop j l) = true.
Proof.
  revert j k. induction l as [|x l IH]; intros j k Hjk Hw.
  - rewrite drop_nil in *. simpl. by rewrite bool_decide_eq_true_2.
  - destruct j as [|j].
    + destruct k as [|k]; simpl.
      * by rewrite bool_decide_eq_true_2.
      * apply orb_true_intro. right. apply (IH 0 k); [lia | done].
    + destruct k as [|k]; [lia|]. simpl. apply (IH j k); [lia | done].
Qed.

(** ** Automation *)

Create HintDb agile discriminated.
Create Rewrite HintDb agile_rw.
#[export] Hint Rewrite @pybind_Ok @pybind_Raise list_ascii_of_string_append : agile_rw.
#[export] Hint Resolve pymapM_map_Ok : agile.

(** Unfold the monad on concrete constructors and split on the
    results of the calls the goal still mentions. *)
Ltac pysimp :=
  repeat (progress (simpl in *; autorewrite with agile_rw in *) || case_match);
  simplify_eq/=.

(** Prove a closed decidable proposition (a character in or out of a
    literal list, say) by evaluating its decision procedure. *)
Ltac vm_decide := apply (bool_decide_unpack _); vm_compute; exact I.
