(* ===== verification/PyValue.v ===== *)
(** * PyValue: the Python values the controllers handle

    JSON-like Python values (what the Elasticsearch client returns and the
    query dicts the controllers build), with the Python operations the
    controllers apply to them: truthiness ([if value:], [x or y]),
    subscription [d[k]] with its [KeyError]/[TypeError], [for x in v]
    iteration, [dict] assignment [d[k] = v] (insertion-ordered, as Python
    3.7+ dicts are), and werkzeug's [request.args.get].  These are Python
    and library semantics, not repository code: they are the vocabulary in
    which the repository's functions are translated. *)

From Stdlib Require Import ZArith Ascii String Lia.
From stdpp Require Import base list strings sets.
From S2P Require Import Prelude.

#[warnings="-register-all"]
Inductive pyval : Type :=
| PNone
| PBool (b : bool)
| PInt (z : Z)
| PStr (s : string)
| PList (l : list pyval)
| PDict (d : list (string * pyval))
| PObjectId (oid : string).   (** BSON ObjectId, e.g. a MongoDB [_id] *)

(** A dict is the list of its items in insertion order. *)
Abbreviation pydict := (list (string * pyval)).

(** Structural equality ([==] on these values, and BSON equality). *)
Fixpoint pyval_eqb (x y : pyval) : bool :=
  match x, y with
  | PNone, PNone => true
  | PBool a, PBool b => Bool.eqb a b
  | PInt a, PInt b => Z.eqb a b
  | PStr a, PStr b => String.eqb a b
  | PObjectId a, PObjectId b => String.eqb a b
  | PList l1, PList l2 =>
      (fix go (l1 l2 : list pyval) : bool :=
         match l1, l2 with
         | [], [] => true
         | a :: r1, b :: r2 => pyval_eqb a b && go r1 r2
         | _, _ => false
         end) l1 l2
  | PDict d1, PDict d2 =>
      (fix go (d1 d2 : list (string * pyval)) : bool :=
         match d1, d2 with
         | [], [] => true
         | (k1, a) :: r1, (k2, b) :: r2 => String.eqb k1 k2 && pyval_eqb a b && go r1 r2
         | _, _ => false
         end) d1 d2
  | _, _ => false
  end.

(** Induction over values with the hypotheses on every element of a list
    or dict (the generated principle has none for nested lists). *)
Definition pyval_ind' (P : pyval -> Prop)
    (HN : P PNone) (HB : forall b, P (PBool b)) (HZ : forall z, P (PInt z))
    (HS : forall s, P (PStr s)) (HO : forall o, P (PObjectId o))
    (HL : forall l, Forall P l -> P (PList l))
    (HD : forall d, Forall (fun kv => P kv.2) d -> P (PDict d)) : forall v, P v :=
  fix go (v : pyval) : P v :=
    match v with
    | PNone => HN
    | PBool b => HB b
    | PInt z => HZ z
    | PStr s => HS s
    | PObjectId o => HO o
    | PList l =>
        HL l ((fix goL (l : list pyval) : Forall P l :=
                 match l with
                 | [] => Forall_nil_2 _
                 | x :: l' => Forall_cons_2 _ x l' (go x) (goL l')
                 end) l)
    | PDict d =>
        HD d ((fix goD (d : list (string * pyval)) : Forall (fun kv => P kv.2) d :=
                 match d with
                 | [] => Forall_nil_2 _
                 | (k, x) :: d' => Forall_cons_2 (fun kv => P kv.2) (k, x) d' (go x) (goD d')
                 end) d)
    end.

(** ** Truthiness: [bool(v)] *)
Definition truthy (v : pyval) : bool :=
  match v with
  | PNone => false
  | PBool b => b
  | PInt z => negb (Z.eqb z 0)
  | PStr s => negb (String.eqb s "")
  | PList l => negb (bool_decide (l = []))
  | PDict d => negb (bool_decide (d = []))
  | PObjectId _ => true
  end.

(** [a or b]: [a] when [a] is truthy, else [b]. *)
Definition py_or (a b : pyval) : pyval := if truthy a then a else b.

(** ** Dicts *)

Fixpoint dict_lookup (k : string) (d : pydict) : option pyval :=
  match d with
  | [] => None
  | (k', v) :: d' => if decide (k = k') then Some v else dict_lookup k d'
  end.

(** [d[k] = v]: overwrite in place when [k] is a key, append otherwise. *)
Fixpoint dict_setitem (k : string) (v : pyval) (d : pydict) : pydict :=
  match d with
  | [] => [(k, v)]
  | (k', v') :: d' =>
      if decide (k = k') then (k, v) :: d' else (k', v') :: dict_setitem k v d'
  end.

Definition dict_keys (d : pydict) : list string := map fst d.

(** A dict built by assignments has pairwise distinct keys. *)
Definition dict_wf (d : pydict) : Prop := NoDup (dict_keys d).

(** [v[k]] for a string key [k]. *)
Definition getitem (v : pyval) (k : string) : pyres pyval :=
  match v with
  | PDict d =>
      match dict_lookup k d with
      | Some x => Ok x
      | None => Raise (KeyError k)
      end
  | PList _ => Raise (TypeError "list indices must be integers or slices, not str")
  | PStr _ => Raise (TypeError "string indices must be integers")
  | PNone => Raise (TypeError "'NoneType' object is not subscriptable")
  | PInt _ => Raise (TypeError "'int' object is not subscriptable")
  | PBool _ => Raise (TypeError "'bool' object is not subscriptable")
  | PObjectId _ => Raise (TypeError "'ObjectId' object is not subscriptable")
  end.

(** [for x in v]: lists yield their items, dicts their keys, strings
    their characters; numbers, booleans and [None] are not iterable. *)
Definition py_iter (v : pyval) : pyres (list pyval) :=
  match v with
  | PList l => Ok l
  | PDict d => Ok (map (fun kv => PStr kv.1) d)
  | PStr s => Ok (map (fun c => PStr (String c EmptyString)) (list_ascii_of_string s))
  | PNone => Raise (TypeError "'NoneType' object is not iterable")
  | PInt _ => Raise (TypeError "'int' object is not iterable")
  | PBool _ => Raise (TypeError "'bool' object is not iterable")
  | PObjectId _ => Raise (TypeError "'ObjectId' object is not iterable")
  end.

(** ** Request arguments

    [request.args] is a werkzeug [MultiDict]: the query-string pairs in
    order, a key possibly repeated; [.get(k)] returns the first value for
    [k], or [None]. *)
Abbreviation multidict := (list (string * string)).

Fixpoint args_get (args : multidict) (k : string) : pyval :=
  match args with
  | [] => PNone
  | (k', v) :: args' => if decide (k = k') then PStr v else args_get args' k
  end.

(** ** Mutation through a path of keys

    [v[k1][k2]...[kn] = f(v[k1]...[kn])], as in
    [query["query"]["bool"]["must"].append(clause)]: each subscript may
    raise, the innermost value is replaced and the enclosing dicts are
    updated in place (the nested objects are owned by [v] alone, so
    rebuilding them is the same as mutating them). *)
Definition setitem (v : pyval) (k : string) (x : pyval) : pyres pyval :=
  match v with
  | PDict d => Ok (PDict (dict_setitem k x d))
  | PList _ => Raise (TypeError "list indices must be integers or slices, not str")
  | _ => Raise (TypeError "object does not support item assignment")
  end.

Fixpoint update_path (path : list string) (f : pyval -> pyres pyval) (v : pyval) : pyres pyval :=
  match path with
  | [] => f v
  | k :: ks =>
      x <- getitem v k ;;
      x' <- update_path ks f x ;;
      setitem v k x'
  end.

(** [lst.append(x)] *)
Definition py_append (x : pyval) (v : pyval) : pyres pyval :=
  match v with
  | PList l => Ok (PList (l ++ [x]))
  | _ => Raise (AttributeError "object has no attribute 'append'")
  end.

(** ** [int(x)]

    CPython's [int(str)] in base 10: surrounding whitespace is ignored,
    an optional sign, then decimal digits with single underscores allowed
    between digits; anything else raises [ValueError].  The ASCII
    characters CPython counts as whitespace here are space, \t, \n, \v,
    \f, \r and \x1c-\x1f. *)
Definition is_space (c : ascii) : bool :=
  bool_decide (c ∈ [" "; "009"; "010"; "011"; "012"; "013"; "028"; "029"; "030"; "031"]%char).

Fixpoint lstrip_spaces (l : list ascii) : list ascii :=
  match l with
  | c :: l' => if is_space c then lstrip_spaces l' else l
  | [] => []
  end.

Definition strip_spaces (l : list ascii) : list ascii :=
  rev (lstrip_spaces (rev (lstrip_spaces l))).

Definition digit_value (c : ascii) : option Z :=
  let n := nat_of_ascii c in
  if bool_decide (48 <= n <= 57)%nat then Some (Z.of_nat n - 48)%Z else None.

(** [after_digit]: the previous character was a digit, so an underscore
    or the end of the literal may come. *)
Fixpoint parse_digits (acc : Z) (after_digit : bool) (l : list ascii) : option Z :=
  match l with
  | [] => if after_digit then Some acc else None
  | c :: l' =>
      match digit_value c with
      | Some d => parse_digits (10 * acc + d)%Z true l'
      | None =>
          if after_digit && bool_decide (c = "_"%char) then parse_digits acc false l'
          else None
      end
  end.

Definition int_of_str (s : string) : option Z :=
  match strip_spaces (list_ascii_of_string s) with
  | "+"%char :: l => parse_digits 0 false l
  | "-"%char :: l => Z.opp <$> parse_digits 0 false l
  | l => parse_digits 0 false l
  end.

Definition py_int (v : pyval) : pyres Z :=
  match v with
  | PInt z => Ok z
  | PBool b => Ok (if b then 1 else 0)%Z
  | PStr s =>
      match int_of_str s with
      | Some z => Ok z
      | None => Raise (ValueError ("invalid literal for int() with base 10: '" +:+ s +:+ "'"))
      end
  | PNone => Raise (TypeError "int() argument must be a string, a bytes-like object or a real number, not 'NoneType'")
  | PList _ => Raise (TypeError "int() argument must be a string, a bytes-like object or a real number, not 'list'")
  | PDict _ => Raise (TypeError "int() argument must be a string, a bytes-like object or a real number, not 'dict'")
  | PObjectId _ => Raise (TypeError "int() argument must be a string, a bytes-like object or a real number, not 'ObjectId'")
  end.

(** ** [str(int)]

    CPython's decimal form of an int, as [str], [json.dumps] and a Jinja
    [{{ n }}] print it: a ['-'] for a negative value, then the digits of
    the absolute value, most significant first.  [digits_fuel] peels off
    the last digit with [mod 10] and [/ 10]; its fuel [dec_fuel n] is the
    number of bits of [n], at least the number of its decimal digits
    ([str_digits_fuel] below). *)
Definition digit_char (d : Z) : ascii := ascii_of_nat (48 + Z.to_nat d).

Fixpoint digits_fuel (fuel : nat) (n : Z) (acc : list ascii) : list ascii :=
  match fuel with
  | O => acc
  | S f =>
      let acc' := digit_char (n mod 10) :: acc in
      if (n <? 10)%Z then acc' else digits_fuel f (n / 10) acc'
  end.

Definition dec_fuel (n : Z) : nat := S (Z.to_nat (Z.log2 n)).

Definition str_digits (n : Z) : list ascii := digits_fuel (dec_fuel n) n [].

Definition str_of_Z (z : Z) : string :=
  string_of_list_ascii (if (z <? 0)%Z then "-"%char :: str_digits (- z) else str_digits z).

(** The characters [str_of_Z] prints. *)
Definition dec_chars : list ascii := ["-"; "0"; "1"; "2"; "3"; "4"; "5"; "6"; "7"; "8"; "9"]%char.

(** ** Lemmas *)

Lemma pyval_eqb_eq (x y : pyval) : pyval_eqb x y = true <-> x = y.
Proof.
  revert y. induction x as [| b | z | str | o | l IH | d IH] using pyval_ind'; intros [];
    simpl; try (split; [discriminate | congruence]); try done.
  - rewrite Bool.eqb_true_iff. naive_solver.
  - rewrite Z.eqb_eq. naive_solver.
  - rewrite String.eqb_eq. naive_solver.
  - rewrite String.eqb_eq. naive_solver.
  - revert l0. induction IH as [|x l Hx Hl IHl]; intros [|y l']; simpl; try naive_solver.
    specialize (Hx y). simpl in Hx. rewrite andb_true_iff, Hx, (IHl l'). naive_solver.
  - revert d0. induction IH as [|[k x] d Hx Hd IHd]; intros [|[k' y] d']; simpl; try naive_solver.
    specialize (Hx y). simpl in Hx. rewrite !andb_true_iff, String.eqb_eq, Hx, (IHd d').
    naive_solver.
Qed.

#[export] Instance pyval_eq_dec : EqDecision pyval.
Proof.
  intros x y. destruct (pyval_eqb x y) eqn:E.
  - left. by apply pyval_eqb_eq.
  - right. intros Heq%pyval_eqb_eq. congruence.
Defined.

Lemma py_iter_PList (l : list pyval) : py_iter (PList l) = Ok l.
Proof. reflexivity. Qed.


Lemma dict_lookup_setitem_eq k v d : dict_lookup k (dict_setitem k v d) = Some v.
Proof.
  induction d as [|[k' v'] d IH]; simpl; [by rewrite decide_True|].
  case_decide; simpl; [by rewrite decide_True|]. by rewrite decide_False.
Qed.

Lemma dict_lookup_setitem_ne k k' v d :
  k <> k' -> dict_lookup k' (dict_setitem k v d) = dict_lookup k' d.
Proof.
  intros Hne. induction d as [|[k'' v'] d IH]; simpl;
    repeat (case_decide; simplify_eq/=); auto.
Qed.

Lemma elem_of_dict_keys_setitem k k' v d :
  k' ∈ dict_keys (dict_setitem k v d) <-> k' = k \/ k' ∈ dict_keys d.
Proof.
  unfold dict_keys. induction d as [|[k'' v'] d IH]; simpl.
  - set_solver.
  - case_decide as Hk; [subst|]; simpl; rewrite ?elem_of_cons, ?IH; naive_solver.
Qed.

Lemma dict_setitem_wf k v d : dict_wf d -> dict_wf (dict_setitem k v d).
Proof.
  unfold dict_wf. induction d as [|[k' v'] d IH]; simpl; intros Hwf.
  - constructor; [set_solver | constructor].
  - inversion Hwf as [|? ? Hnotin Hwf']; subst.
    case_decide as Hk; [subst|]; simpl; constructor; auto.
    rewrite elem_of_dict_keys_setitem. naive_solver.
Qed.

Lemma dict_keys_setitem_new k v d :
  k ∉ dict_keys d -> dict_keys (dict_setitem k v d) = dict_keys d ++ [k].
Proof.
  unfold dict_keys. induction d as [|[k' v'] d IH]; simpl; intros Hk; [done|].
  rewrite elem_of_cons in Hk.
  rewrite decide_False by naive_solver. simpl. f_equal. apply IH. naive_solver.
Qed.

(** *** [str(int)] and [int(str)] *)

Lemma digit_char_cases d : (0 <= d < 10)%Z -> digit_char d ∈ tail dec_chars.
Proof.
  intros Hd. unfold digit_char. assert (Z.to_nat d < 10)%nat as Hn by lia.
  generalize (Z.to_nat d) Hn. clear. intros n Hn.
  do 10 (destruct n as [|n]; [vm_compute; set_solver|]). lia.
Qed.

Lemma digit_value_digit_char d : (0 <= d < 10)%Z -> digit_value (digit_char d) = Some d.
Proof.
  intros Hd. unfold digit_value, digit_char.
  rewrite nat_ascii_embedding by lia. rewrite bool_decide_eq_true_2 by lia. f_equal; lia.
Qed.

Lemma parse_digits_digit_char d acc b l :
  (0 <= d < 10)%Z -> parse_digits acc b (digit_char d :: l) = parse_digits (10 * acc + d) true l.
Proof. intros Hd. cbn [parse_digits]. by rewrite digit_value_digit_char. Qed.

Lemma digits_fuel_S f n acc :
  digits_fuel (S f) n acc =
  if (n <? 10)%Z then digit_char (n mod 10) :: acc
  else digits_fuel f (n / 10) (digit_char (n mod 10) :: acc).
Proof. reflexivity. Qed.

(** The digits are printed most significant first: reading them back
    with [parse_digits] gives the value. *)
Lemma digits_fuel_parse f n acc b :
  (0 <= n < 10 ^ Z.of_nat (S f))%Z ->
  parse_digits 0 b (digits_fuel (S f) n acc) = parse_digits n true acc.
Proof.
  revert n acc b. induction f as [|f IH]; intros n acc b Hn;
    rewrite digits_fuel_S; pose proof (Z.mod_pos_bound n 10 ltac:(lia));
    destruct (Z.ltb_spec n 10).
  - rewrite parse_digits_digit_char by lia. f_equal. rewrite Z.mod_small; lia.
  - rewrite Nat2Z.inj_succ, Z.pow_succ_r in Hn by lia. lia.
  - rewrite parse_digits_digit_char by lia. f_equal. rewrite Z.mod_small; lia.
  - rewrite (IH (n / 10)%Z).
    + rewrite parse_digits_digit_char by lia. f_equal. pose proof (Z.div_mod n 10). lia.
    + split; [apply Z.div_pos; lia|]. apply Z.div_lt_upper_bound; [lia|].
      rewrite <- Z.pow_succ_r, <- Nat2Z.inj_succ; lia.
Qed.

Lemma dec_fuel_enough n : (0 <= n)%Z -> (n < 10 ^ Z.of_nat (dec_fuel n))%Z.
Proof.
  intros Hn. unfold dec_fuel. rewrite Nat2Z.inj_succ, Z2Nat.id by apply Z.log2_nonneg.
  destruct (Z.eq_dec n 0%Z) as [->|Hn0]; [done|].
  pose proof (Z.log2_spec n ltac:(lia)) as [_ Hlt].
  eapply Z.lt_le_trans; [exact Hlt|]. apply Z.pow_le_mono_l. lia.
Qed.

Lemma str_digits_parse n : (0 <= n)%Z -> parse_digits 0 false (str_digits n) = Some n.
Proof.
  intros Hn. pose proof (dec_fuel_enough n Hn). unfold str_digits, dec_fuel in *.
  rewrite digits_fuel_parse; [done | lia].
Qed.

Lemma digits_fuel_chars f n acc :
  (0 <= n)%Z -> Forall (.∈ tail dec_chars) acc -> Forall (.∈ tail dec_chars) (digits_fuel f n acc).
Proof.
  revert n acc. induction f as [|f IH]; intros n acc Hn Hacc; simpl; [done|].
  pose proof (Z.mod_pos_bound n 10 ltac:(lia)).
  assert (Forall (.∈ tail dec_chars) (digit_char (n mod 10) :: acc)) by (constructor; auto using digit_char_cases).
  case_match; [done|]. apply IH; [apply Z.div_pos|]; auto with lia.
Qed.

Lemma str_digits_head n :
  (0 <= n)%Z -> exists d l, str_digits n = digit_char d :: l /\ (0 <= d < 10)%Z.
Proof.
  unfold str_digits, dec_fuel. generalize (Z.to_nat (Z.log2 n)) as f. intros f.
  revert n. generalize (@nil ascii) as acc.
  induction f as [|f IH]; intros acc n Hn; cbn [digits_fuel];
    pose proof (Z.mod_pos_bound n 10 ltac:(lia)); case_match; eauto.
  apply IH. apply Z.div_pos; lia.
Qed.

Lemma digits_fuel_head_pos f n acc :
  (0 < n < 10 ^ Z.of_nat (S f))%Z ->
  exists d l, digits_fuel (S f) n acc = digit_char d :: l /\ (1 <= d < 10)%Z.
Proof.
  revert n acc. induction f as [|f IH]; intros n acc Hn; rewrite digits_fuel_S;
    pose proof (Z.mod_pos_bound n 10 ltac:(lia)); destruct (Z.ltb_spec n 10).
  - exists (n mod 10)%Z, acc. rewrite Z.mod_small by lia. split; [done | lia].
  - simpl in Hn. lia.
  - exists (n mod 10)%Z, acc. rewrite Z.mod_small by lia. split; [done | lia].
  - apply IH. split; [apply Z.div_str_pos; lia|]. apply Z.div_lt_upper_bound; [lia|].
    rewrite <- Z.pow_succ_r, <- Nat2Z.inj_succ; lia.
Qed.

(** A positive number is printed without a leading zero. *)
Lemma str_digits_head_pos n :
  (0 < n)%Z -> exists d l, str_digits n = digit_char d :: l /\ (1 <= d < 10)%Z.
Proof.
  intros Hn. pose proof (dec_fuel_enough n ltac:(lia)). unfold str_digits, dec_fuel in *.
  apply digits_fuel_head_pos. lia.
Qed.

Lemma str_digits_0 : str_digits 0 = ["0"%char].
Proof. reflexivity. Qed.

Lemma digit_char_code d : (0 <= d < 10)%Z -> nat_of_ascii (digit_char d) = (48 + Z.to_nat d)%nat.
Proof. intros Hd. unfold digit_char. apply nat_ascii_embedding. lia. Qed.

Lemma digits_are_digits : Forall (fun c => digit_value c <> None) (tail dec_chars).
Proof. cbv [tail dec_chars]. repeat (constructor; [vm_compute; discriminate|]). constructor. Qed.

Lemma dec_chars_not_space : Forall (fun c => is_space c = false) dec_chars.
Proof. repeat constructor. Qed.

Lemma str_of_Z_chars z : Forall (.∈ dec_chars) (list_ascii_of_string (str_of_Z z)).
Proof.
  unfold str_of_Z. rewrite list_ascii_of_string_of_list_ascii.
  assert (forall n, (0 <= n)%Z -> Forall (.∈ dec_chars) (str_digits n)) as Hd.
  { intros n Hn. eapply Forall_impl; [apply digits_fuel_chars; auto|].
    intros c Hc. by apply list_elem_of_further. }
  destruct (Z.ltb_spec z 0); [constructor; [apply list_elem_of_here | apply Hd]|apply Hd]; lia.
Qed.

Lemma lstrip_spaces_id l : Forall (fun c => is_space c = false) l -> lstrip_spaces l = l.
Proof. destruct l as [|c l]; [done|]. intros Hf%Forall_cons_1. simpl. by rewrite (proj1 Hf). Qed.

Lemma strip_spaces_id l : Forall (fun c => is_space c = false) l -> strip_spaces l = l.
Proof.
  intros Hf. unfold strip_spaces.
  rewrite (lstrip_spaces_id l Hf), (lstrip_spaces_id (rev l)) by by apply Forall_rev.
  apply rev_involutive.
Qed.

Lemma str_of_Z_no_space z : strip_spaces (list_ascii_of_string (str_of_Z z)) = list_ascii_of_string (str_of_Z z).
Proof.
  apply strip_spaces_id. eapply Forall_impl; [apply str_of_Z_chars|].
  intros c Hc. exact (proj1 (Forall_forall _ _) dec_chars_not_space c Hc).
Qed.

(** [int(str(z)) == z]. *)
Lemma int_of_str_str_of_Z z : int_of_str (str_of_Z z) = Some z.
Proof.
  unfold int_of_str. rewrite str_of_Z_no_space. unfold str_of_Z.
  rewrite list_ascii_of_string_of_list_ascii. destruct (Z.ltb_spec z 0).
  - rewrite str_digits_parse by lia. simpl. f_equal. lia.
  - pose proof (str_digits_parse z ltac:(lia)) as Hp.
    destruct (str_digits_head z ltac:(lia)) as (d & l & Hs & Hd). rewrite Hs in Hp |- *.
    pose proof (digit_char_cases d Hd) as Hc. revert Hp Hc. generalize (digit_char d). intros c Hp Hc.
    cbv [tail dec_chars] in Hc. rewrite !elem_of_cons, elem_of_nil in Hc.
    destruct_or! Hc; subst; exact Hp.
Qed.

Lemma py_int_str_of_Z z : py_int (PStr (str_of_Z z)) = Ok z.
Proof. simpl. by rewrite int_of_str_str_of_Z. Qed.

Lemma str_has_str_of_Z c z : c ∉ dec_chars -> str_has c (str_of_Z z) = false.
Proof.
  intros Hc. apply str_has_false. intros Hin.
  apply Hc. exact (proj1 (Forall_forall _ _) (str_of_Z_chars z) c Hin).
Qed.

Lemma str_of_Z_neq_empty z : str_of_Z z <> ""%string.
Proof.
  unfold str_of_Z. destruct (Z.ltb_spec z 0); [done|].
  by destruct (str_digits_head z) as (d & l & -> & _).
Qed.

(** *** [request.args.get] on concatenated query strings *)

Lemma args_get_cases a k : args_get a k = PNone \/ exists v, args_get a k = PStr v.
Proof. induction a as [|[k' v] a IH]; simpl; [by left|]. case_decide; eauto. Qed.

Lemma args_get_app_PNone a1 a2 k : args_get a1 k = PNone -> args_get (a1 ++ a2) k = args_get a2 k.
Proof. induction a1 as [|[k' v] a1 IH]; simpl; [done|]. by case_decide. Qed.

Lemma args_get_app_PStr a1 a2 k v : args_get a1 k = PStr v -> args_get (a1 ++ a2) k = PStr v.
Proof. induction a1 as [|[k' v'] a1 IH]; simpl; [done|]. by case_decide. Qed.

Lemma dict_setitem_new k v d : k ∉ dict_keys d -> dict_setitem k v d = d ++ [(k, v)].
Proof.
  unfold dict_keys. induction d as [|[k' v'] d IH]; simpl; intros Hk; [done|].
  rewrite elem_of_cons in Hk. rewrite decide_False by naive_solver. f_equal. apply IH. naive_solver.
Qed.

#[export] Hint Resolve dict_setitem_wf : agile.
#[export] Hint Rewrite dict_lookup_setitem_eq : agile_rw.
