(* ===== verification/UrlArgs.v ===== *)
(** * UrlArgs: the query string of a URL and [request.args]

    Flask fills [request.args] from the query string of the request URL,
    the part after the first ['?'] and before a ['#'] fragment.  Werkzeug
    parses it as [urllib.parse.parse_qsl(qs, keep_blank_values=True)]:
    split at ['&'], skip empty fields, split each field at its first
    ['='] (a field without one gets the value [""]), and unquote names
    and values: ['+'] reads as a space and [%XX] as the character of
    code [XX] (a ['%'] not followed by two hex digits stays).  The result
    is a multidict whose [get(k)] is the first value of [k]
    ([PyValue.args_get]).  Bytes above 127 are kept as single characters,
    not decoded as UTF-8: the theorems only read ASCII parameters.

    This is library behaviour, not repository code: Pagination.v uses it
    to read back the parameters of the links the result pages carry. *)

From Stdlib Require Import ZArith Ascii String Lia.
From stdpp Require Import base list strings sets.
From S2P Require Import Prelude PyValue.

Module UrlArgs.

(** [s.split(c)]: the fields between the separators, at least one. *)
Fixpoint split_on (c : ascii) (l : list ascii) : list (list ascii) :=
  match l with
  | [] => [[]]
  | x :: l' =>
      let fs := split_on c l' in
      if decide (x = c) then [] :: fs
      else match fs with f :: fs' => (x :: f) :: fs' | [] => [[x]] end
  end.

(** [s.partition(c)]: before the first [c], and after it if there is one. *)
Fixpoint split_first (c : ascii) (l : list ascii) : list ascii * option (list ascii) :=
  match l with
  | [] => ([], None)
  | x :: l' =>
      if decide (x = c) then ([], Some l')
      else let '(a, b) := split_first c l' in (x :: a, b)
  end.

Definition hex_value (c : ascii) : option nat :=
  let n := nat_of_ascii c in
  if bool_decide (48 <= n <= 57) then Some (n - 48)
  else if bool_decide (65 <= n <= 70) then Some (n - 55)
  else if bool_decide (97 <= n <= 102) then Some (n - 87)
  else None.

(** [unquote_plus]. *)
Fixpoint unquote (l : list ascii) : list ascii :=
  match l with
  | [] => []
  | x :: l' =>
      if decide (x = "%"%char) then
        match l' with
        | h1 :: h2 :: l'' =>
            match hex_value h1, hex_value h2 with
            | Some a, Some b => ascii_of_nat (16 * a + b) :: unquote l''
            | _, _ => x :: unquote l'
            end
        | _ => x :: unquote l'
        end
      else if decide (x = "+"%char) then " "%char :: unquote l'
      else x :: unquote l'
  end.

Definition parse_field (f : list ascii) : string * string :=
  let '(k, v) := split_first "=" f in
  (string_of_list_ascii (unquote k), string_of_list_ascii (unquote (default [] v))).

Definition parse_qsl (qs : list ascii) : multidict :=
  map parse_field (filter (fun f => f <> []) (split_on "&" qs)).

Definition query_string (url : string) : list ascii :=
  match split_first "?" (list_ascii_of_string url) with
  | (_, Some q) => (split_first "#" q).1
  | (_, None) => []
  end.

(** [request.args] of a request for [url]. *)
Definition url_args (url : string) : multidict := parse_qsl (query_string url).

(** ** Lemmas *)

Lemma split_on_nonempty c l : split_on c l <> [].
Proof. destruct l as [|x l]; simpl; [done|]. case_decide; [done|]. by destruct (split_on c l). Qed.

Lemma split_on_app c q r : split_on c (q ++ c :: r) = split_on c q ++ split_on c r.
Proof.
  induction q as [|x q IH]; simpl; [by rewrite decide_True|].
  rewrite IH. case_decide; [done|].
  destruct (split_on c q) eqn:Hq; [by apply split_on_nonempty in Hq | done].
Qed.

Lemma split_on_none c l : c ∉ l -> split_on c l = [l].
Proof.
  induction l as [|x l IH]; intros Hc; simpl; [done|].
  rewrite elem_of_cons in Hc. rewrite decide_False, IH by naive_solver. done.
Qed.

Lemma split_first_none c l : c ∉ l -> split_first c l = (l, None).
Proof.
  induction l as [|x l IH]; intros Hc; simpl; [done|].
  rewrite elem_of_cons in Hc. rewrite decide_False, IH by naive_solver. done.
Qed.

Lemma split_first_app c a b : c ∉ a -> split_first c (a ++ c :: b) = (a, Some b).
Proof.
  induction a as [|x a IH]; intros Hc; simpl; [by rewrite decide_True|].
  rewrite elem_of_cons in Hc. rewrite decide_False, IH by naive_solver. done.
Qed.

Lemma split_first_Some c l a b : split_first c l = (a, Some b) -> l = a ++ c :: b /\ c ∉ a.
Proof.
  revert a. induction l as [|x l IH]; intros a; simpl; [done|].
  case_decide; [intros [= <- <-]; subst; split; [done | set_solver]|].
  destruct (split_first c l) as [a' b'] eqn:Hs. intros [= <- ->].
  destruct (IH a' eq_refl) as [-> Ha]. split; [done|]. set_solver.
Qed.

Lemma split_first_None c l a : split_first c l = (a, None) -> c ∉ l.
Proof.
  revert a. induction l as [|x l IH]; intros a; simpl; [set_solver|].
  case_decide; [done|]. destruct (split_first c l) as [a' b'] eqn:Hs. intros [= <- ->].
  specialize (IH a' eq_refl). set_solver.
Qed.

Lemma parse_qsl_app q r : parse_qsl (q ++ "&"%char :: r) = parse_qsl q ++ parse_qsl r.
Proof. unfold parse_qsl. by rewrite split_on_app, filter_app, map_app. Qed.

Lemma parse_qsl_field f : "&"%char ∉ f -> f <> [] -> parse_qsl f = [parse_field f].
Proof.
  intros Ha Hf. unfold parse_qsl. rewrite split_on_none by done.
  rewrite filter_cons_True by done. done.
Qed.

Lemma unquote_id l : "%"%char ∉ l -> "+"%char ∉ l -> unquote l = l.
Proof.
  induction l as [|x l IH]; intros Hp Hq; [done|].
  rewrite elem_of_cons in Hp, Hq.
  simpl. rewrite !decide_False by naive_solver. f_equal. naive_solver.
Qed.

Lemma query_string_app url t :
  "?"%char ∈ list_ascii_of_string url -> "#"%char ∉ list_ascii_of_string url ++ t ->
  query_string (string_of_list_ascii (list_ascii_of_string url ++ t)) = query_string url ++ t.
Proof.
  intros Hq Hh. unfold query_string. rewrite list_ascii_of_string_of_list_ascii.
  destruct (split_first "?" (list_ascii_of_string url)) as [a [q|]] eqn:Hu;
    [|by apply split_first_None in Hu].
  apply split_first_Some in Hu as [Hu Ha]. rewrite Hu in Hh |- *.
  rewrite <- app_assoc. simpl. rewrite split_first_app by done.
  rewrite !split_first_none; [done | set_solver..].
Qed.

End UrlArgs.
