(* ===== verification/Navigation.v ===== *)
(** * Navigation: the pagination offset helper

    Models [get_navigation_offsets] of src/ch06/web/report_flask.py
    (lines 33-43).  The Python function builds a dict with the two fixed
    keys ["Previous"] and ["Next"], each a dict with the two fixed keys
    ["top_offset"] and ["bottom_offset"]; with fixed keys a dict is a
    record, so both are records here.  Python integers are unbounded, so
    offsets are [Z] with no wrap-around. *)

From Stdlib Require Import ZArith String Lia.
From stdpp Require Import base decidable tactics.
From S2P Require Import Prelude PyValue.

Open Scope Z_scope.
Open Scope string_scope.

Module Navigation.

(** [{"top_offset": .., "bottom_offset": ..}] *)
Record place : Type := mk_place {
  top_offset : Z;
  bottom_offset : Z
}.

(** [{"Previous": .., "Next": ..}] *)
Record nav_offsets : Type := mk_nav_offsets {
  Previous : place;
  Next : place
}.

#[export] Instance place_eq_dec : EqDecision place.
Proof. solve_decision. Defined.

(** [get_navigation_offsets(offset1, offset2, increment)]: the previous
    page is clamped at zero ("Don't go < 0"), the next one is not. *)
Definition get_navigation_offsets (offset1 offset2 increment : Z) : nav_offsets :=
  {| Previous := {| top_offset := Z.max (offset2 - increment) 0;
                    bottom_offset := Z.max (offset1 - increment) 0 |};
     Next := {| top_offset := offset2 + increment;
                bottom_offset := offset1 + increment |} |}.

(** The dicts themselves, keys in insertion order, as the controllers hand
    them to the templates. *)
Definition place_to_py (p : place) : pyval :=
  PDict [("top_offset", PInt (top_offset p)); ("bottom_offset", PInt (bottom_offset p))].

Definition nav_offsets_to_py (o : nav_offsets) : pyval :=
  PDict [("Previous", place_to_py (Previous o)); ("Next", place_to_py (Next o))].

(** Following a link: the handlers call
    [get_navigation_offsets(start, end, increment)], so a page is the
    pair (start, end) = (bottom_offset, top_offset) and a link leads to
    the page its place names. *)
Definition next_page (increment : Z) (p : place) : place :=
  Next (get_navigation_offsets (bottom_offset p) (top_offset p) increment).

Definition prev_page (increment : Z) (p : place) : place :=
  Previous (get_navigation_offsets (bottom_offset p) (top_offset p) increment).

Definition place_nonneg (p : place) : Prop :=
  0 <= top_offset p /\ 0 <= bottom_offset p.

(** ** Lemmas *)

Lemma next_page_nonneg increment p :
  0 <= increment -> place_nonneg p -> place_nonneg (next_page increment p).
Proof. destruct p; unfold place_nonneg, next_page; simpl; lia. Qed.

Lemma iter_next_page_nonneg increment k p :
  0 <= increment -> place_nonneg p ->
  place_nonneg (Nat.iter k (next_page increment) p).
Proof.
  intros Hi Hp. induction k as [|k IH]; simpl; [done|].
  by apply next_page_nonneg.
Qed.

Lemma prev_next_page increment p :
  place_nonneg p -> prev_page increment (next_page increment p) = p.
Proof.
  destruct p as [t b]; unfold place_nonneg, prev_page, next_page; simpl; intros [Ht Hb].
  f_equal; lia.
Qed.

#[export] Hint Resolve next_page_nonneg iter_next_page_nonneg : agile.

(** ** Properties *)

(** C1. The "Previous" offsets are never negative, whatever the current
    offsets and the increment (the clamping of lines 36-37). *)
Theorem previous_offsets_nonneg (offset1 offset2 increment : Z) :
  place_nonneg (Previous (get_navigation_offsets offset1 offset2 increment)).
Proof. unfold place_nonneg; simpl; lia. Qed.

(** C2. Following "Previous" from the page reached by "Next" comes back
    to the page one started from, for a page with non-negative offsets. *)
Theorem next_then_previous (increment : Z) (p : place) :
  place_nonneg p -> prev_page increment (next_page increment p) = p.
Proof. apply prev_next_page. Qed.

Theorem next_then_previous_witness :
  prev_page 15 (next_page 15 {| top_offset := 30; bottom_offset := 15 |}) =
  {| top_offset := 30; bottom_offset := 15 |}.
Proof. apply next_then_previous. unfold place_nonneg; simpl; lia. Defined.

(** C3. Following "Next" from the page reached by "Previous" comes back
    exactly when neither offset was clamped: both offsets are at least
    one increment. *)
Theorem previous_then_next (increment : Z) (p : place) :
  next_page increment (prev_page increment p) = p <->
  increment <= bottom_offset p /\ increment <= top_offset p.
Proof.
  destruct p as [t b]; unfold prev_page, next_page; simpl. split.
  - intros [= Ht Hb]. lia.
  - intros [Hb Ht]. f_equal; lia.
Qed.

(** C4. Going k pages forward and k pages back returns to the start page,
    for a non-negative increment and a page with non-negative offsets. *)
Theorem iter_next_then_previous (increment : Z) (k : nat) (p : place) :
  0 <= increment -> place_nonneg p ->
  Nat.iter k (prev_page increment) (Nat.iter k (next_page increment) p) = p.
Proof.
  intros Hi Hp. induction k as [|k IH]; [done|].
  rewrite Nat.iter_succ_r. simpl (Nat.iter (S k) (next_page increment) p).
  rewrite prev_next_page; auto with agile.
Qed.

Theorem iter_next_then_previous_witness :
  Nat.iter 3 (prev_page 20) (Nat.iter 3 (next_page 20) {| top_offset := 20; bottom_offset := 0 |}) =
  {| top_offset := 20; bottom_offset := 0 |}.
Proof. apply iter_next_then_previous; [lia | unfold place_nonneg; simpl; lia]. Defined.

(** The k-th "Next" page starts k increments further. *)
Lemma iter_next_page_offsets (increment : Z) (k : nat) (p : place) :
  Nat.iter k (next_page increment) p =
  {| top_offset := top_offset p + Z.of_nat k * increment;
     bottom_offset := bottom_offset p + Z.of_nat k * increment |}.
Proof.
  induction k as [|k IH]; simpl.
  - destruct p; simpl; f_equal; lia.
  - rewrite IH. unfold next_page; simpl. f_equal; lia.
Qed.

End Navigation.
