(* ===== verification/ProcessSearch.v ===== *)
(** * ProcessSearch: turning an Elasticsearch response into records

    Models [process_search] of src/ch06/web/report_flask.py (lines 21-29):
    it reads [results["hits"]], and when both that dict and its ["hits"]
    list are truthy it binds [total] and collects the ["_source"] of every
    hit, in order.  The local [total] is bound only inside the [if]: when
    the response has no hits the final [return records, total] raises
    [UnboundLocalError].  The controller [search_airplanes] calls a
    [search_helpers.process_search] whose source is not in the repository;
    Handlers.v treats it through an interface. *)

From Stdlib Require Import ZArith Ascii String Lia.
From stdpp Require Import base list strings.
From S2P Require Import Prelude PyValue.

Module ProcessSearch.

(** [if results["hits"] and results["hits"]["hits"]:] with Python's
    short-circuit [and]: the second operand is evaluated only when the
    first is truthy. *)
Definition hits_condition (results : pyval) : pyres bool :=
  h <- getitem results "hits" ;;
  if truthy h then
    hh <- getitem h "hits" ;;
    Ok (truthy hh)
  else Ok false.

(** [for hit in hits: record = hit["_source"]; records.append(record)] *)
Definition collect_sources (hits : pyval) : pyres (list pyval) :=
  items <- py_iter hits ;;
  pymapM (fun hit => getitem hit "_source") items.

Definition process_search (results : pyval) : pyres (list pyval * pyval) :=
  cond <- hits_condition results ;;
  if cond then
    h1 <- getitem results "hits" ;;
    total <- getitem h1 "total" ;;
    h2 <- getitem results "hits" ;;
    hits <- getitem h2 "hits" ;;
    records <- collect_sources hits ;;
    Ok (records, total)
  else Raise (UnboundLocalError "total").

(** A response of the shape Elasticsearch 7 returns: [total] and one hit
    per source document, each hit carrying index metadata. *)
Definition es_hit (source : pyval) : pyval :=
  PDict [("_index", PStr "agile_data_science"); ("_score", PNone); ("_source", source)].

Definition es_response (total : pyval) (sources : list pyval) : pyval :=
  PDict [("took", PInt 1); ("timed_out", PBool false);
         ("hits", PDict [("total", total); ("max_score", PNone);
                         ("hits", PList (map es_hit sources))])].

(** ** Lemmas *)

Lemma getitem_Ok_truthy v k x : getitem v k = Ok x -> truthy v = true.
Proof. destruct v as [| | | | |[|[??]?]|]; simpl; try discriminate; done. Qed.

Lemma hits_condition_true results h hs :
  getitem results "hits" = Ok h -> getitem h "hits" = Ok (PList hs) -> hs <> [] ->
  hits_condition results = Ok true.
Proof.
  intros Hh Hhs Hne. unfold hits_condition. rewrite Hh; simpl.
  rewrite (getitem_Ok_truthy _ _ _ Hhs), Hhs; simpl.
  by rewrite bool_decide_eq_false_2.
Qed.

Lemma collect_sources_list hs ss :
  Forall2 (fun hit s => getitem hit "_source" = Ok s) hs ss ->
  collect_sources (PList hs) = Ok ss.
Proof. intros H. by apply pymapM_Ok_iff. Qed.

Lemma getitem_es_hit s : getitem (es_hit s) "_source" = Ok s.
Proof. reflexivity. Qed.

Lemma es_hits_sources ss :
  Forall2 (fun hit s => getitem hit "_source" = Ok s) (map es_hit ss) ss.
Proof. induction ss; simpl; constructor; auto using getitem_es_hit. Qed.

(** Iterating anything but a list yields strings (dict keys, characters),
    and a string has no ["_source"]: a truthy non-list aborts the loop. *)
Lemma collect_sources_Ok hits rs :
  truthy hits = true -> collect_sources hits = Ok rs ->
  exists l, hits = PList l /\ length rs = length l.
Proof.
  unfold collect_sources.
  destruct hits as [| | | s | l | [|[k v] d] |]; simpl; try discriminate.
  - destruct s as [|c s]; simpl; [discriminate|]. discriminate.
  - intros _ H. exists l. split; [done|]. by apply pymapM_length in H.
Qed.

(** A well-formed response with at least one hit. *)
Lemma process_search_es_response total sources :
  sources <> [] -> process_search (es_response total sources) = Ok (sources, total).
Proof.
  intros Hne. unfold process_search.
  rewrite (hits_condition_true _ (PDict [("total", total); ("max_score", PNone);
                                         ("hits", PList (map es_hit sources))])
                                (map es_hit sources)); [| done | done | by destruct sources].
  simpl. by rewrite (collect_sources_list (map es_hit sources) sources) by apply es_hits_sources.
Qed.

#[export] Hint Resolve getitem_es_hit es_hits_sources : agile.

(** ** Properties *)

Lemma getitem_no_unbound v k x : getitem v k <> Raise (UnboundLocalError x).
Proof. destruct v; simpl; try case_match; discriminate. Qed.

Lemma collect_sources_no_unbound hits x : collect_sources hits <> Raise (UnboundLocalError x).
Proof.
  unfold collect_sources. destruct (py_iter hits) eqn:E; simpl.
  - intros (y & _ & Hy)%pymapM_Raise. by eapply getitem_no_unbound.
  - destruct hits; simpl in E; simplify_eq; discriminate.
Qed.

(** C5. On a response whose ["hits"]["hits"] is a non-empty list of hits
    that all carry a ["_source"], [process_search] returns the sources in
    hit order, together with ["hits"]["total"]. *)
Theorem process_search_ok (results h total : pyval) (hs ss : list pyval) :
  getitem results "hits" = Ok h ->
  getitem h "hits" = Ok (PList hs) -> hs <> [] ->
  getitem h "total" = Ok total ->
  Forall2 (fun hit s => getitem hit "_source" = Ok s) hs ss ->
  process_search results = Ok (ss, total).
Proof.
  intros Hh Hhs Hne Ht Hsrc. unfold process_search.
  rewrite (hits_condition_true results h hs) by done; simpl.
  rewrite Hh; simpl. rewrite Ht; simpl. rewrite Hhs; simpl.
  by rewrite (collect_sources_list hs ss Hsrc).
Qed.

Theorem process_search_ok_witness :
  process_search (es_response (PInt 2) [PStr "N123"; PStr "N456"]) =
  Ok ([PStr "N123"; PStr "N456"], PInt 2).
Proof.
  eapply process_search_ok; [reflexivity | reflexivity | discriminate | reflexivity |].
  apply es_hits_sources.
Defined.

(** C6. A search with no hits crashes: for every response whose
    [results["hits"]] and [results["hits"]["hits"]] can be read,
    [process_search] raises [UnboundLocalError] on [total] exactly when
    one of them is falsy (an empty hit list, an empty dict, [None], ...),
    instead of returning no records and a zero count; when both are
    truthy it never raises that error. *)
Theorem process_search_no_hits (results h hh : pyval) :
  getitem results "hits" = Ok h -> getitem h "hits" = Ok hh ->
  process_search results = Raise (UnboundLocalError "total") <->
  truthy h = false \/ truthy hh = false.
Proof.
  intros Hh Hhh. unfold process_search, hits_condition. rewrite Hh. simpl.
  destruct (truthy h); simpl; [rewrite Hhh; simpl; destruct (truthy hh); simpl|]; [|naive_solver..].
  split; [|intros [?|?]; discriminate]. intros Hr. exfalso.
  destruct (getitem h "total") eqn:E1; simpl in Hr; [|injection Hr as ->; by eapply getitem_no_unbound].
  destruct (collect_sources hh) eqn:E2; simpl in Hr; [done|].
  injection Hr as ->. by eapply collect_sources_no_unbound.
Qed.

Theorem process_search_no_hits_witness :
  process_search (es_response (PInt 0) []) = Raise (UnboundLocalError "total") <->
  truthy (PDict [("total", PInt 0); ("max_score", PNone); ("hits", PList [])]) = false \/
  truthy (PList []) = false.
Proof. apply process_search_no_hits; reflexivity. Defined.

(** The crash is exactly the falsy case of the guard: whenever
    [results["hits"]] can be read and the guard is false, the call raises
    [UnboundLocalError]. *)
Lemma process_search_unbound results :
  hits_condition results = Ok false ->
  process_search results = Raise (UnboundLocalError "total").
Proof. intros H. unfold process_search. by rewrite H. Qed.

(** C7. The number of records is the number of hits. *)
Theorem process_search_length (results : pyval) (records : list pyval) (total : pyval) :
  process_search results = Ok (records, total) ->
  exists hits, getitem results "hits" = Ok hits /\
    exists l, getitem hits "hits" = Ok (PList l) /\ length records = length l.
Proof.
  unfold process_search, hits_condition.
  destruct (getitem results "hits") as [h|e] eqn:Hh; simpl; [|discriminate].
  destruct (truthy h); simpl; [|discriminate].
  destruct (getitem h "hits") as [hh|e] eqn:Hhh; simpl; [|discriminate].
  destruct (truthy hh) eqn:Ht; simpl; [|discriminate].
  destruct (getitem h "total"); simpl; [|discriminate].
  destruct (collect_sources hh) as [rs|e] eqn:Hc; simpl; [|discriminate].
  intros [= -> ->]. apply collect_sources_Ok in Hc as (l & -> & Hl); [|done].
  eauto.
Qed.

Theorem process_search_length_witness :
  process_search (es_response (PInt 1) [PStr "N123"]) = Ok ([PStr "N123"], PInt 1) /\
  exists hits, getitem (es_response (PInt 1) [PStr "N123"]) "hits" = Ok hits /\
    exists l, getitem hits "hits" = Ok (PList l) /\ length [PStr "N123"] = length l.
Proof.
  split; [reflexivity|].
  apply (process_search_length _ _ (PInt 1)). reflexivity.
Defined.

End ProcessSearch.
