(* ===== verification/SearchQuery.v ===== *)
(** * SearchQuery: the Elasticsearch queries of the two search controllers

    Models the query construction of [search_flights] (lines 287-306 of
    src/ch06/web/report_flask.py) and of [search_airplanes] (lines 122-132
    and 147-159): a base query dict with an empty ["query"]["bool"]["must"]
    list, to which one [{"match": {field: value}}] clause is appended per
    request parameter that is present and non-empty, in a fixed field
    order.  [search_airplanes] drives the appends from its [search_config]
    list and also records every parameter, present or not, in [arg_dict].

    The abstract specification is [query_dict (match_clauses fvs) rest]:
    the clauses of the truthy (field, value) pairs, in order. *)

From Stdlib Require Import ZArith Ascii String Lia.
From stdpp Require Import base list strings.
From S2P Require Import Prelude PyValue.

Module SearchQuery.

(** [{"match": {field: value}}] *)
Definition match_clause (field : string) (value : pyval) : pyval :=
  PDict [("match", PDict [(field, value)])].

(** [if value: query["query"]["bool"]["must"].append({"match": {field: value}})] *)
Definition add_match (field : string) (value : pyval) (query : pyval) : pyres pyval :=
  if truthy value then
    update_path ["query"; "bool"; "must"] (py_append (match_clause field value)) query
  else Ok query.

(** ** search_flights *)

Definition flights_base_query (start records_per_page : Z) : pyval :=
  PDict [("query", PDict [("bool", PDict [("must", PList [])])]);
         ("sort", PList [PDict [("FlightDate", PStr "asc")]; PStr "_score"]);
         ("from", PInt start);
         ("size", PInt records_per_page)].

Definition build_flights_query (carrier flight_date origin dest tail_number flight_number : pyval)
    (start records_per_page : Z) : pyres pyval :=
  let query := flights_base_query start records_per_page in
  query <- add_match "Carrier" carrier query ;;
  query <- add_match "FlightDate" flight_date query ;;
  query <- add_match "Origin" origin query ;;
  query <- add_match "Dest" dest query ;;
  query <- add_match "TailNum" tail_number query ;;
  query <- add_match "FlightNum" flight_number query ;;
  Ok query.

(** ** search_airplanes *)

Definition search_config : pyval :=
  PList [PDict [("field", PStr "TailNum"); ("label", PStr "Tail Number")];
         PDict [("field", PStr "Owner"); ("sort_order", PInt 0)];
         PDict [("field", PStr "OwnerState"); ("label", PStr "Owner State")];
         PDict [("field", PStr "Manufacturer"); ("sort_order", PInt 1)];
         PDict [("field", PStr "Model"); ("sort_order", PInt 2)];
         PDict [("field", PStr "ManufacturerYear"); ("label", PStr "MFR Year")];
         PDict [("field", PStr "SerialNumber"); ("label", PStr "Serial Number")];
         PDict [("field", PStr "EngineManufacturer"); ("label", PStr "Engine MFR");
                ("sort_order", PInt 3)];
         PDict [("field", PStr "EngineModel"); ("label", PStr "Engine Model");
                ("sort_order", PInt 4)]].

Definition airplanes_base_query (start records_per_page : Z) : pyval :=
  PDict [("query", PDict [("bool", PDict [("must", PList [])])]);
         ("from", PInt start);
         ("size", PInt records_per_page)].

(** One iteration of [for item in search_config:].  A field that is not a
    string cannot occur ([search_config] is a literal); it is reported as a
    [TypeError] to keep the function total. *)
Fixpoint airplanes_loop (args : multidict) (items : list pyval)
    (arg_dict : pydict) (query : pyval) : pyres (pydict * pyval) :=
  match items with
  | [] => Ok (arg_dict, query)
  | item :: items' =>
      f <- getitem item "field" ;;
      match f with
      | PStr field =>
          let value := args_get args field in
          let arg_dict := dict_setitem field value arg_dict in
          query <- add_match field value query ;;
          airplanes_loop args items' arg_dict query
      | _ => Raise (TypeError "search_config field is not a string")
      end
  end.

(** Returns [(arg_dict, query)]. *)
Definition build_airplanes_query (args : multidict) (start records_per_page : Z)
    : pyres (pydict * pyval) :=
  items <- py_iter search_config ;;
  airplanes_loop args items [] (airplanes_base_query start records_per_page).

(** ** Abstract specification *)

(** A query dict whose ["query"]["bool"]["must"] is [must], followed by the
    other top-level keys [rest]. *)
Definition query_dict (must : list pyval) (rest : pydict) : pyval :=
  PDict (("query", PDict [("bool", PDict [("must", PList must)])]) :: rest).

Definition match_clauses (fvs : list (string * pyval)) : list pyval :=
  map (fun fv => match_clause fv.1 fv.2) (filter (fun fv => truthy fv.2 = true) fvs).

Definition flights_rest (start records_per_page : Z) : pydict :=
  [("sort", PList [PDict [("FlightDate", PStr "asc")]; PStr "_score"]);
   ("from", PInt start); ("size", PInt records_per_page)].

Definition airplanes_rest (start records_per_page : Z) : pydict :=
  [("from", PInt start); ("size", PInt records_per_page)].

Definition flight_fields : list string :=
  ["Carrier"; "FlightDate"; "Origin"; "Dest"; "TailNum"; "FlightNum"].

Definition airplane_fields : list string :=
  ["TailNum"; "Owner"; "OwnerState"; "Manufacturer"; "Model";
   "ManufacturerYear"; "SerialNumber"; "EngineManufacturer"; "EngineModel"].

(** [add_match] for a list of (field, value) pairs, in order. *)
Fixpoint add_matches (fvs : list (string * pyval)) (query : pyval) : pyres pyval :=
  match fvs with
  | [] => Ok query
  | (f, v) :: fvs' => query <- add_match f v query ;; add_matches fvs' query
  end.

Definition request_pairs (args : multidict) (fields : list string) : list (string * pyval) :=
  map (fun f => (f, args_get args f)) fields.

(** ** Lemmas *)

Lemma add_match_query_dict f v must rest :
  add_match f v (query_dict must rest) =
  Ok (query_dict (must ++ match_clauses [(f, v)]) rest).
Proof.
  unfold add_match, match_clauses, query_dict.
  destruct (truthy v) eqn:Hv; simpl.
  - by rewrite filter_cons_True.
  - rewrite filter_cons_False by (simpl; congruence). by rewrite app_nil_r.
Qed.

Lemma match_clauses_app fvs1 fvs2 :
  match_clauses (fvs1 ++ fvs2) = match_clauses fvs1 ++ match_clauses fvs2.
Proof. unfold match_clauses. by rewrite filter_app, map_app. Qed.

Lemma add_matches_query_dict fvs must rest :
  add_matches fvs (query_dict must rest) =
  Ok (query_dict (must ++ match_clauses fvs) rest).
Proof.
  revert must. induction fvs as [|[f v] fvs IH]; intros must; simpl.
  - by rewrite app_nil_r.
  - rewrite add_match_query_dict; simpl. rewrite IH, <- app_assoc.
    by rewrite <- match_clauses_app.
Qed.

Lemma dict_setitem_fresh k v d :
  k ∉ dict_keys d -> dict_setitem k v d = d ++ [(k, v)].
Proof.
  unfold dict_keys. induction d as [|[k' v'] d IH]; simpl; intros Hk; [done|].
  rewrite elem_of_cons in Hk.
  rewrite decide_False by naive_solver. f_equal. apply IH. naive_solver.
Qed.

Lemma airplanes_loop_spec args items fields arg_dict must rest :
  Forall2 (fun item f => getitem item "field" = Ok (PStr f)) items fields ->
  NoDup (dict_keys arg_dict ++ fields) ->
  airplanes_loop args items arg_dict (query_dict must rest) =
  Ok (arg_dict ++ request_pairs args fields,
      query_dict (must ++ match_clauses (request_pairs args fields)) rest).
Proof.
  intros Hf. revert arg_dict must.
  induction Hf as [|item f items fields Hitem Hf IH]; intros arg_dict must Hnd; simpl.
  - by rewrite !app_nil_r.
  - rewrite Hitem; simpl. rewrite add_match_query_dict; simpl.
    pose proof Hnd as (_ & Hdisj & _)%NoDup_app.
    rewrite dict_setitem_fresh by (intros Hin; apply (Hdisj f); [done | by left]).
    rewrite IH.
    { rewrite <- !app_assoc, <- match_clauses_app. done. }
    unfold dict_keys in *. rewrite map_app, <- app_assoc. done.
Qed.

Lemma flights_query_eq (a : multidict) start records_per_page :
  build_flights_query (args_get a "Carrier") (args_get a "FlightDate") (args_get a "Origin")
    (args_get a "Dest") (args_get a "TailNum") (args_get a "FlightNum") start records_per_page =
  Ok (query_dict (match_clauses (request_pairs a flight_fields)) (flights_rest start records_per_page)).
Proof. exact (add_matches_query_dict (request_pairs a flight_fields) [] _). Qed.

Lemma airplanes_query_eq (a : multidict) start records_per_page :
  build_airplanes_query a start records_per_page =
  Ok (request_pairs a airplane_fields,
      query_dict (match_clauses (request_pairs a airplane_fields))
                 (airplanes_rest start records_per_page)).
Proof.
  unfold build_airplanes_query, search_config. rewrite py_iter_PList, pybind_Ok.
  apply (airplanes_loop_spec a _ airplane_fields [] [] (airplanes_rest start records_per_page)).
  - repeat constructor.
  - simpl. apply NoDup_ListNoDup. vm_compute. repeat constructor; simpl; intuition discriminate.
Qed.

(** ** Properties *)

(** C8. The flights query has one match clause per truthy search parameter,
    in the order Carrier, FlightDate, Origin, Dest, TailNum, FlightNum, and
    otherwise the base query: sort by FlightDate then score, from [start],
    size [records_per_page]. *)
Theorem build_flights_query_spec (carrier flight_date origin dest tail_number flight_number : pyval)
    (start records_per_page : Z) :
  build_flights_query carrier flight_date origin dest tail_number flight_number start records_per_page =
  Ok (query_dict (match_clauses [("Carrier", carrier); ("FlightDate", flight_date);
                                 ("Origin", origin); ("Dest", dest);
                                 ("TailNum", tail_number); ("FlightNum", flight_number)])
                 (flights_rest start records_per_page)).
Proof.
  exact (add_matches_query_dict
           [("Carrier", carrier); ("FlightDate", flight_date); ("Origin", origin);
            ("Dest", dest); ("TailNum", tail_number); ("FlightNum", flight_number)]
           [] (flights_rest start records_per_page)).
Qed.

(** C9. [search_airplanes] records every configured field in [arg_dict], in
    [search_config] order, with the request's value or [None], and its
    query has one match clause per field whose request value is truthy, in
    the same order, over the base query from [start] of size
    [records_per_page]. *)
Theorem build_airplanes_query_spec (args : multidict) (start records_per_page : Z) :
  build_airplanes_query args start records_per_page =
  Ok (request_pairs args airplane_fields,
      query_dict (match_clauses (request_pairs args airplane_fields))
                 (airplanes_rest start records_per_page)).
Proof. apply airplanes_query_eq. Qed.

End SearchQuery.
