(* ===== verification/Sre.v ===== *)
(** * Sre: the part of Python's [re] engine that [strip_place] relies on

    [strip_place] (src/ch06/web/report_flask.py, lines 47-52) calls
    [re.match("(.+)&start=.+&end=.+", url)].  This file models CPython's
    [re] for the pattern syntax that line uses: literal characters, [.]
    (any character but a newline), [+] on a single-character item, and
    capturing groups.  As CPython's [sre_compile] does, the pattern is
    compiled to a flat opcode list ([MARK], [LITERAL]/[ANY], [REPEAT_ONE]);
    the matcher backtracks as CPython's [_sre] does: a [REPEAT_ONE] first
    counts the longest run of matching characters and then tries the rest
    of the pattern with that count, then one less, down to the minimum.

    Strings are lists of [ascii]: the URL's characters beyond ASCII play no
    role in the pattern other than "not a newline", exactly as an ASCII
    letter does.  Pattern syntax outside this subset compiles to [None]
    and [re.match] then raises [ReError]; the repository's one pattern is
    inside the subset ([compile_strip_pattern]). *)

From Stdlib Require Import ZArith Ascii String Lia.
From stdpp Require Import base list strings.
From S2P Require Import Prelude PyValue.

Module Sre.

Inductive char_pat : Type :=
| CAny                  (** [.] *)
| CLit (c : ascii).     (** a literal character *)

Inductive sre_op : Type :=
| MARK (n : nat)
| ONE (p : char_pat)
| REPEAT_ONE (lo : nat) (hi : option nat) (p : char_pat).

Definition newline : ascii := "010"%char.

(** [.] matches everything but ['\n'] (no [re.DOTALL]). *)
Definition pat_matches (p : char_pat) (c : ascii) : bool :=
  match p with
  | CAny => bool_decide (c <> newline)
  | CLit c' => bool_decide (c = c')
  end.

(** ** Compilation of the pattern string *)

Definition unsupported_meta (c : ascii) : bool :=
  bool_decide (c ∈ ["*"; "?"; "["; "]"; "{"; "}"; "|"; "^"; "$"; "\"]%char).

(** [acc] holds the opcodes emitted so far, last first; [open_groups] the
    numbers of the groups not yet closed; group [g] (0-based) is delimited
    by [MARK (2g)] and [MARK (2g+1)], as in [sre_compile]. *)
Fixpoint compile_go (pat : list ascii) (ngroups : nat) (open_groups : list nat)
    (acc : list sre_op) : option (list sre_op * nat) :=
  match pat with
  | [] => match open_groups with [] => Some (rev acc, ngroups) | _ => None end
  | c :: pat' =>
      if bool_decide (c = "(")%char then
        compile_go pat' (S ngroups) (ngroups :: open_groups) (MARK (2 * ngroups) :: acc)
      else if bool_decide (c = ")")%char then
        match open_groups with
        | g :: open' => compile_go pat' ngroups open' (MARK (2 * g + 1) :: acc)
        | [] => None
        end
      else if bool_decide (c = "+")%char then
        match acc with
        | ONE p :: acc' => compile_go pat' ngroups open_groups (REPEAT_ONE 1 None p :: acc')
        | _ => None          (** "nothing to repeat", or a repeat of a group *)
        end
      else if bool_decide (c = ".")%char then
        compile_go pat' ngroups open_groups (ONE CAny :: acc)
      else if unsupported_meta c then None
      else compile_go pat' ngroups open_groups (ONE (CLit c) :: acc)
  end.

(** The program and its number of capturing groups. *)
Definition sre_compile (pattern : string) : option (list sre_op * nat) :=
  compile_go (list_ascii_of_string pattern) 0 [] [].

(** ** The backtracking matcher *)

(** Captured positions: mark [n] is at position [p]; the latest setting
    of a mark comes first. *)
Abbreviation marks := (list (nat * nat)).

Fixpoint mark_get (n : nat) (m : marks) : option nat :=
  match m with
  | [] => None
  | (n', p) :: m' => if decide (n = n') then Some p else mark_get n m'
  end.

(** Length of the longest run of characters matching [p] at the head. *)
Fixpoint count_run (p : char_pat) (s : list ascii) : nat :=
  match s with
  | c :: s' => if pat_matches p c then S (count_run p s') else 0
  | [] => 0
  end.

Definition repeat_max (hi : option nat) (avail : nat) : nat :=
  match hi with Some h => Nat.min h avail | None => avail end.

(** [try_counts f lo n] tries [f (lo + n - 1)], then the [n - 1] smaller
    counts down to [f lo], and returns the first success. *)
Fixpoint try_counts {A} (f : nat -> option A) (lo n : nat) : option A :=
  match n with
  | 0 => None
  | S n' =>
      match f (lo + n') with
      | Some r => Some r
      | None => try_counts f lo n'
      end
  end.

(** [sre_match prog s pos m]: run [prog] on [s] from [pos]; on success the
    end position and the marks.  [REPEAT_ONE lo hi p] tries the counts
    [cnt], [cnt - 1], ..., [lo] in this order, where [cnt] is the longest
    run allowed. *)
Fixpoint sre_match (prog : list sre_op) (s : list ascii) (pos : nat) (m : marks)
    : option (nat * marks) :=
  match prog with
  | [] => Some (pos, m)
  | MARK n :: prog' => sre_match prog' s pos ((n, pos) :: m)
  | ONE p :: prog' =>
      match s !! pos with
      | Some c => if pat_matches p c then sre_match prog' s (S pos) m else None
      | None => None
      end
  | REPEAT_ONE lo hi p :: prog' =>
      let cnt := repeat_max hi (count_run p (drop pos s)) in
      if bool_decide (cnt < lo) then None
      else try_counts (fun k => sre_match prog' s (pos + k) m) lo (S (cnt - lo))
  end.

(** ** Match objects *)

Record match_obj : Type := mk_match {
  m_string : list ascii;
  m_end : nat;
  m_marks : marks;
  m_groups : nat
}.

(** [re.match(pattern, string)]: anchored at position 0. *)
Definition re_match (pattern string : string) : pyres (option match_obj) :=
  match sre_compile pattern with
  | None => Raise (ReError "unsupported pattern")
  | Some (prog, ngroups) =>
      let s := list_ascii_of_string string in
      Ok (match sre_match prog s 0 [] with
          | Some (e, m) => Some (mk_match s e m ngroups)
          | None => None
          end)
  end.

Definition slice (s : list ascii) (i j : nat) : list ascii := take (j - i) (drop i s).

(** [m.group(g)]: group 0 is the whole match; group [g >= 1] is [None]
    when it did not take part in the match. *)
Definition match_group (mo : match_obj) (g : nat) : pyres pyval :=
  if bool_decide (m_groups mo < g) then Raise (IndexError "no such group")
  else match g with
  | 0 => Ok (PStr (string_of_list_ascii (slice (m_string mo) 0 (m_end mo))))
  | S g' =>
      match mark_get (2 * g') (m_marks mo), mark_get (2 * g' + 1) (m_marks mo) with
      | Some i, Some j => Ok (PStr (string_of_list_ascii (slice (m_string mo) i j)))
      | _, _ => Ok PNone
      end
  end.

(** [re.match(...).group(g)]: when there is no match, [None.group] raises
    [AttributeError]. *)
Definition re_match_group (pattern string : string) (g : nat) : pyres pyval :=
  mo <- re_match pattern string ;;
  match mo with
  | Some mo => match_group mo g
  | None => Raise (AttributeError "'NoneType' object has no attribute 'group'")
  end.

(** ** Declarative semantics

    [Matches prog s pos e]: [prog] can match [s] from [pos] to [e], for
    some choice of repeat counts. *)
Definition run_ok (p : char_pat) (s : list ascii) (pos k : nat) : Prop :=
  forall i, i < k -> exists c, s !! (pos + i) = Some c /\ pat_matches p c = true.

Definition count_allowed (hi : option nat) (k : nat) : Prop :=
  match hi with Some h => k <= h | None => True end.

Inductive Matches : list sre_op -> list ascii -> nat -> nat -> Prop :=
| M_nil s pos : Matches [] s pos pos
| M_mark n prog s pos e :
    Matches prog s pos e -> Matches (MARK n :: prog) s pos e
| M_one p prog s pos c e :
    s !! pos = Some c -> pat_matches p c = true ->
    Matches prog s (S pos) e -> Matches (ONE p :: prog) s pos e
| M_repeat lo hi p prog s pos k e :
    lo <= k -> count_allowed hi k -> run_ok p s pos k ->
    Matches prog s (pos + k) e -> Matches (REPEAT_ONE lo hi p :: prog) s pos e.

(** The opcodes of a literal string. *)
Definition lits (w : list ascii) : list sre_op := map (fun c => ONE (CLit c)) w.

(** [at_pos s pos w]: [w] occurs in [s] at [pos]. *)
Definition at_pos (s : list ascii) (pos : nat) (w : list ascii) : Prop :=
  forall i c, w !! i = Some c -> s !! (pos + i) = Some c.

Definition is_mark (op : sre_op) : bool :=
  match op with MARK _ => true | _ => false end.

(** ** Lemmas on the matcher's loops *)

Lemma try_counts_Some {A} (f : nat -> option A) lo n r :
  try_counts f lo n = Some r <->
  exists k, lo <= k < lo + n /\ f k = Some r /\
    forall k', k < k' < lo + n -> f k' = None.
Proof.
  induction n as [|n IH]; simpl.
  - split; [discriminate | intros (k & ? & _); lia].
  - destruct (f (lo + n)) as [r'|] eqn:Hf.
    + split.
      * intros [= <-]. exists (lo + n). split; [lia|]. split; [done|]. intros; lia.
      * intros (k & Hk & Hfk & Hmax).
        destruct (decide (k = lo + n)) as [->|]; [congruence|].
        rewrite Hmax in Hf; [discriminate | lia].
    + rewrite IH. split.
      * intros (k & Hk & Hfk & Hmax). exists k. split; [lia|]. split; [done|].
        intros k' Hk'. destruct (decide (k' = lo + n)) as [->|]; [done|]. apply Hmax; lia.
      * intros (k & Hk & Hfk & Hmax). exists k.
        destruct (decide (k = lo + n)) as [->|]; [congruence|].
        split; [lia|]. split; [done|]. intros k' Hk'. apply Hmax; lia.
Qed.

Lemma try_counts_None {A} (f : nat -> option A) lo n :
  try_counts f lo n = None <-> forall k, lo <= k < lo + n -> f k = None.
Proof.
  induction n as [|n IH]; simpl.
  - split; [intros _ k ?; lia | done].
  - destruct (f (lo + n)) eqn:Hf.
    + split; [discriminate|]. intros H. rewrite H in Hf; [discriminate | lia].
    + rewrite IH. split; intros H k Hk; [|apply H; lia].
      destruct (decide (k = lo + n)) as [->|]; [done|]. apply H; lia.
Qed.

Lemma run_ok_count_run p s pos k :
  run_ok p s pos k <-> k <= count_run p (drop pos s).
Proof.
  unfold run_ok. setoid_rewrite <- (lookup_drop s pos).
  generalize (drop pos s); clear s pos. intros l. revert k.
  induction l as [|c l IH]; intros k; simpl.
  - split; [|intros ? i ?; lia].
    destruct k as [|k]; [lia|]. intros H. destruct (H 0) as (? & ? & _); [lia | done].
  - destruct (pat_matches p c) eqn:Hc.
    + destruct k as [|k]; [split; [lia | intros _ i ?; lia]|].
      rewrite <- Nat.succ_le_mono, <- IH. split.
      * intros H i Hi. apply (H (S i)). lia.
      * intros H [|i] Hi; [by exists c | apply H; lia].
    + split; [|intros Hk i ?; lia].
      destruct k as [|k]; [lia|]. intros H. destruct (H 0) as (c' & [= <-] & Hc'); [lia|].
      congruence.
Qed.

Lemma count_allowed_repeat_max hi avail k :
  count_allowed hi k /\ k <= avail <-> k <= repeat_max hi avail.
Proof. destruct hi; simpl; lia. Qed.

Lemma try_counts_ext {A} (f g : nat -> option A) lo n :
  (forall k, f k = g k) -> try_counts f lo n = try_counts g lo n.
Proof. intros H. induction n as [|n IH]; simpl; [done|]. by rewrite H, IH. Qed.

Arguments try_counts : simpl never.

Lemma try_counts_map {A B} (g : A -> B) (f : nat -> option A) lo n :
  try_counts (fun k => g <$> f k) lo n = g <$> try_counts f lo n.
Proof.
  induction n as [|n IH]; [done|]. cbv [try_counts]; fold (@try_counts A). fold (@try_counts B).
  rewrite IH. by destruct (f (lo + n)).
Qed.

Lemma repeat_bound lo hi p s pos k :
  lo <= k -> count_allowed hi k -> run_ok p s pos k ->
  k < lo + S (repeat_max hi (count_run p (drop pos s)) - lo) /\
  ~ repeat_max hi (count_run p (drop pos s)) < lo.
Proof.
  intros Hlo Hhi Hrun. apply run_ok_count_run in Hrun.
  pose proof (proj1 (count_allowed_repeat_max hi _ k) (conj Hhi Hrun)). lia.
Qed.

(** ** The matcher against the declarative semantics *)

(** Every match the engine returns is a match of the pattern. *)
Lemma sre_match_sound prog s pos m e m' :
  sre_match prog s pos m = Some (e, m') -> Matches prog s pos e.
Proof.
  revert pos m. induction prog as [|[n|p|lo hi p] prog IH]; intros pos m; simpl.
  - intros [= -> _]. constructor.
  - intros H. constructor. eauto.
  - destruct (s !! pos) as [c|] eqn:Hc; [|discriminate].
    destruct (pat_matches p c) eqn:Hp; [|discriminate].
    intros H. econstructor; eauto.
  - case_bool_decide; [discriminate|].
    intros (k & Hk & Hf & _)%try_counts_Some.
    assert (Hcnt : k <= repeat_max hi (count_run p (drop pos s))) by lia.
    apply count_allowed_repeat_max in Hcnt as [Hhi Hrun].
    apply run_ok_count_run in Hrun.
    apply (M_repeat lo hi p prog s pos k e); [lia | done | done | eauto].
Qed.

(** Backtracking is exhaustive: when the pattern can match, the engine
    finds a match, whatever the marks set so far. *)
Lemma sre_match_complete prog s pos e m :
  Matches prog s pos e -> is_Some (sre_match prog s pos m).
Proof.
  intros HM. revert m.
  induction HM as [s pos|n prog s pos e HM IH|p prog s pos c e Hc Hp HM IH
                  |lo hi p prog s pos k e Hlo Hhi Hrun HM IH]; intros m; simpl.
  - eauto.
  - apply IH.
  - rewrite Hc, Hp. apply IH.
  - destruct (repeat_bound lo hi p s pos k Hlo Hhi Hrun) as [Hk Hnlt].
    rewrite bool_decide_false by done.
    destruct (try_counts _ lo _) eqn:Ht; [eauto|].
    rewrite try_counts_None in Ht. destruct (IH m) as [r Hr].
    rewrite Ht in Hr; [discriminate | lia].
Qed.

Lemma sre_match_is_Some_iff prog s pos m :
  is_Some (sre_match prog s pos m) <-> exists e, Matches prog s pos e.
Proof.
  split.
  - intros [[e m'] H]. eauto using sre_match_sound.
  - intros [e HM]. eauto using sre_match_complete.
Qed.

(** The marks present when a program starts are kept, below the marks the
    program sets. *)
Lemma sre_match_frame prog s pos m :
  sre_match prog s pos m =
  (fun r => (r.1, r.2 ++ m)) <$> sre_match prog s pos [].
Proof.
  revert pos m. induction prog as [|[n|p|lo hi p] prog IH]; intros pos m; simpl.
  - done.
  - rewrite (IH pos ((n, pos) :: m)), (IH pos [(n, pos)]).
    destruct (sre_match prog s pos []) as [[e a]|]; simpl; [|done].
    by rewrite <- app_assoc.
  - destruct (s !! pos) as [c|]; [|done]. destruct (pat_matches p c); [apply IH | done].
  - case_bool_decide; [done|].
    rewrite <- try_counts_map. apply try_counts_ext. intros k. apply IH.
Qed.

(** [REPEAT_ONE] is greedy: the count the engine settles on is the
    largest one with which the rest of the pattern can match. *)
Lemma sre_match_repeat_greedy lo hi p prog s pos m r :
  sre_match (REPEAT_ONE lo hi p :: prog) s pos m = Some r ->
  exists k, lo <= k /\ count_allowed hi k /\ run_ok p s pos k /\
    sre_match prog s (pos + k) m = Some r /\
    forall k', k < k' -> count_allowed hi k' -> run_ok p s pos k' ->
      forall e, ~ Matches prog s (pos + k') e.
Proof.
  simpl. case_bool_decide; [discriminate|].
  intros (k & Hk & Hf & Hmax)%try_counts_Some.
  assert (Hcnt : k <= repeat_max hi (count_run p (drop pos s))) by lia.
  apply count_allowed_repeat_max in Hcnt as [Hhi Hrun].
  apply run_ok_count_run in Hrun.
  exists k. split; [lia|]. split; [done|]. split; [done|]. split; [done|].
  intros k' Hk' Hhi' Hrun' e HM.
  destruct (repeat_bound lo hi p s pos k') as [Hb _]; [lia | done | done |].
  destruct (sre_match_complete prog s (pos + k') e m HM) as [r' Hr'].
  rewrite Hmax in Hr'; [discriminate | lia].
Qed.

(** ** Inversion lemmas for the opcodes the repository's pattern uses *)

Lemma Matches_nil s pos e : Matches [] s pos e <-> e = pos.
Proof. split; [by inversion 1 | intros ->; constructor]. Qed.

Lemma Matches_mark n prog s pos e :
  Matches (MARK n :: prog) s pos e <-> Matches prog s pos e.
Proof. split; [by inversion 1 | constructor; done]. Qed.

Lemma Matches_lits w prog s pos e :
  Matches (lits w ++ prog) s pos e <-> at_pos s pos w /\ Matches prog s (pos + length w) e.
Proof.
  unfold at_pos. revert pos. induction w as [|c w IH]; intros pos; simpl.
  - rewrite Nat.add_0_r. split; [intros H; split; [intros ??; done | done] | tauto].
  - split.
    + inversion 1 as [| |? ? ? ? c' ? Hc Hp HM|]; subst.
      apply bool_decide_eq_true in Hp; subst c'.
      apply IH in HM as [Hw HM]. split.
      * intros [|i] c'; simpl; [rewrite Nat.add_0_r; congruence|].
        intros Hi. rewrite Nat.add_succ_r. by apply (Hw i).
      * by rewrite Nat.add_succ_r.
    + intros [Hw HM]. apply (M_one _ _ _ _ c).
      * specialize (Hw 0 c). rewrite Nat.add_0_r in Hw. by apply Hw.
      * by apply bool_decide_eq_true.
      * apply IH. split.
        -- intros i c' Hi. simpl. rewrite <- Nat.add_succ_r. by apply (Hw (S i)).
        -- simpl. by rewrite <- Nat.add_succ_r.
Qed.

Lemma Matches_plus_any prog s pos e :
  Matches (REPEAT_ONE 1 None CAny :: prog) s pos e <->
  exists k, 1 <= k /\ run_ok CAny s pos k /\ Matches prog s (pos + k) e.
Proof.
  split.
  - inversion 1; subst. eauto.
  - intros (k & Hk & Hrun & HM). by apply (M_repeat _ _ _ _ _ _ k).
Qed.

Lemma sre_match_MARK n prog s pos m :
  sre_match (MARK n :: prog) s pos m = sre_match prog s pos ((n, pos) :: m).
Proof. reflexivity. Qed.

(** A program without [MARK] leaves the marks as they were. *)
Lemma sre_match_nomark prog s pos m e m' :
  Forall (fun op => is_mark op = false) prog ->
  sre_match prog s pos m = Some (e, m') -> m' = m.
Proof.
  intros Hnm. revert pos. induction Hnm as [|op prog Hop Hnm IH]; intros pos; simpl.
  - by intros [= _ <-].
  - destruct op as [n|p|lo hi p]; simpl in Hop; [discriminate| |].
    + destruct (s !! pos) as [c|]; [|done]. destruct (pat_matches p c); [apply IH | done].
    + case_bool_decide; [done|]. intros (k & _ & Hf & _)%try_counts_Some. eauto.
Qed.

End Sre.
