(* ===== verification/StripPlace.v ===== *)
(** * StripPlace: removing the pagination parameters from a URL

    Models [strip_place] of src/ch06/web/report_flask.py (lines 47-52):

      try: p = re.match("(.+)&start=.+&end=.+", url).group(1)
      except AttributeError as e: return url
      return p

    on top of the [re] model of Sre.v.  Group 1 ends at a "cut": a
    position [k >= 1] such that the first [k] characters contain no newline
    and the rest of the URL from [k] matches [&start=.+&end=.+].  Because
    [(.+)] is greedy, the group ends at the last cut; with no cut the
    [re.match] is [None], [None.group] raises [AttributeError], and the URL
    is returned unchanged. *)

From Stdlib Require Import ZArith Ascii String Lia.
From stdpp Require Import base list strings.
From S2P Require Import Prelude PyValue Sre.

Module StripPlace.
Import Sre.

Definition strip_pattern : string := "(.+)&start=.+&end=.+".

Definition strip_place (url : string) : pyres pyval :=
  pycatch is_AttributeError (re_match_group strip_pattern url 1)
    (fun _ => Ok (PStr url)).

Definition kw_start : list ascii := list_ascii_of_string "&start=".
Definition kw_end : list ascii := list_ascii_of_string "&end=".

(** The compiled pattern: group 1 around a greedy [.+], then the tail. *)
Definition strip_tail : list sre_op :=
  lits kw_start ++ REPEAT_ONE 1 None CAny :: lits kw_end ++ [REPEAT_ONE 1 None CAny].

Definition strip_prog : list sre_op :=
  MARK 0 :: REPEAT_ONE 1 None CAny :: MARK 1 :: strip_tail.

(** [k] is a possible end of group 1 in [s]. *)
Definition is_cut (s : list ascii) (k : nat) : Prop :=
  1 <= k /\ run_ok CAny s 0 k /\ exists e, Matches strip_tail s k e.

(** ** What [strip_place] computes, without the regular expression

    [k] is a cut of [s] when its first [k >= 1] characters hold no
    newline and are followed by ["&start="], a non-empty run without
    newline, ["&end="] and one more character that is not a newline;
    [strip_place] keeps the characters before the last cut, or the whole
    URL when there is none ([strip_place_equiv]). *)
Definition no_newline (l : list ascii) : bool := bool_decide (newline ∉ l).

Definition end_after (t : list ascii) : bool :=
  existsb (fun a => no_newline (take a t) && bool_decide (take (length kw_end) (drop a t) = kw_end) &&
                    match drop (a + length kw_end) t with
                    | c :: _ => bool_decide (c <> newline)
                    | [] => false
                    end)
          (seq 1 (length t)).

Definition cut_at (s : list ascii) (k : nat) : bool :=
  bool_decide (1 <= k) && bool_decide (k <= length s) && no_newline (take k s) &&
  bool_decide (take (length kw_start) (drop k s) = kw_start) && end_after (drop (k + length kw_start) s).

Fixpoint last_cut (s : list ascii) (n : nat) : option nat :=
  match n with
  | 0 => None
  | S n' => if cut_at s (S n') then Some (S n') else last_cut s n'
  end.

Definition strip_place_spec (url : string) : string :=
  let s := list_ascii_of_string url in
  match last_cut s (length s) with
  | Some k => string_of_list_ascii (take k s)
  | None => url
  end.

(** ** Lemmas *)

Lemma compile_strip_pattern : sre_compile strip_pattern = Some (strip_prog, 1).
Proof. reflexivity. Qed.

Lemma strip_tail_nomark : Forall (fun op => is_mark op = false) strip_tail.
Proof. repeat constructor. Qed.

Lemma sre_match_strip_prog s :
  sre_match strip_prog s 0 [] =
  sre_match (REPEAT_ONE 1 None CAny :: MARK 1 :: strip_tail) s 0 [(0, 0)].
Proof. reflexivity. Qed.

Lemma Matches_strip_prog s e :
  Matches strip_prog s 0 e <-> exists k, is_cut s k /\ Matches strip_tail s k e.
Proof.
  unfold strip_prog, is_cut. rewrite Matches_mark, Matches_plus_any.
  setoid_rewrite Matches_mark. naive_solver.
Qed.

Lemma re_match_strip url :
  re_match strip_pattern url =
  Ok (match sre_match strip_prog (list_ascii_of_string url) 0 [] with
      | Some (e, m) => Some (mk_match (list_ascii_of_string url) e m 1)
      | None => None
      end).
Proof. unfold re_match. by rewrite compile_strip_pattern. Qed.

(** The engine on the repository's pattern: it ends group 1 at the last
    cut. *)
Lemma sre_match_strip_last_cut s e m :
  sre_match strip_prog s 0 [] = Some (e, m) ->
  exists k, is_cut s k /\ (forall k', k < k' -> ~ is_cut s k') /\
    m = [(1, k); (0, 0)].
Proof.
  rewrite sre_match_strip_prog. intros H.
  apply sre_match_repeat_greedy in H as (k & Hk & _ & Hrun & Hrest & Hmax).
  rewrite sre_match_MARK, Nat.add_0_l in Hrest. pose proof Hrest as Hm%sre_match_nomark; [|apply strip_tail_nomark].
  apply sre_match_sound in Hrest.
  exists k. split; [split; [lia|]; split; [done | eauto]|]. split; [|done].
  intros k' Hk' (Hk1' & Hrun' & e' & HM). apply (Hmax k' Hk' I Hrun' e').
  by apply Matches_mark.
Qed.

Lemma strip_place_engine url :
  strip_place url =
  match sre_match strip_prog (list_ascii_of_string url) 0 [] with
  | Some (e, m) =>
      pycatch is_AttributeError (match_group (mk_match (list_ascii_of_string url) e m 1) 1)
        (fun _ => Ok (PStr url))
  | None => Ok (PStr url)
  end.
Proof.
  unfold strip_place, re_match_group. rewrite re_match_strip, pybind_Ok.
  by destruct (sre_match strip_prog (list_ascii_of_string url) 0 []) as [[e m]|].
Qed.

Lemma cut_matches s k :
  is_cut s k -> exists r, sre_match strip_prog s 0 [] = Some r.
Proof.
  intros (Hk & Hrun & e & HM). apply sre_match_is_Some_iff.
  exists e. apply Matches_strip_prog. exists k. repeat split; eauto.
Qed.

(** The two outcomes of [strip_place]: group 1 up to the last cut, or the
    URL itself when there is no cut. *)
Lemma strip_place_cases url (s := list_ascii_of_string url) :
  (exists k, is_cut s k /\ (forall k', k < k' -> ~ is_cut s k') /\
     strip_place url = Ok (PStr (string_of_list_ascii (take k s)))) \/
  ((forall k, ~ is_cut s k) /\ strip_place url = Ok (PStr url)).
Proof.
  rewrite strip_place_engine. subst s.
  destruct (sre_match strip_prog (list_ascii_of_string url) 0 []) as [[e m]|] eqn:Hs.
  - left. apply sre_match_strip_last_cut in Hs as (k & Hcut & Hmax & ->).
    exists k. split; [done|]. split; [done|].
    simpl. unfold slice. by rewrite Nat.sub_0_r, drop_0.
  - right. split; [|done]. intros k Hcut. destruct (cut_matches _ k Hcut). congruence.
Qed.

Lemma at_pos_infix (u w v : list ascii) : at_pos (u ++ w ++ v) (length u) w.
Proof.
  intros i c Hc. rewrite lookup_app_r by lia.
  replace (length u + i - length u) with i by lia.
  rewrite lookup_app_l; [done|]. by eapply lookup_lt_Some.
Qed.

Lemma run_ok_any_infix (u a v : list ascii) :
  newline ∉ a -> run_ok CAny (u ++ a ++ v) (length u) (length a).
Proof.
  intros Hn i Hi. destruct (lookup_lt_is_Some_2 a i Hi) as [c Hc].
  exists c. split; [by apply at_pos_infix|].
  apply bool_decide_eq_true. intros ->. apply Hn. by eapply list_elem_of_lookup_2.
Qed.

Lemma at_pos_infix' (u w v : list ascii) n : n = length u -> at_pos (u ++ w ++ v) n w.
Proof. intros ->. apply at_pos_infix. Qed.

Lemma run_ok_any_infix' (u a v : list ascii) n k :
  newline ∉ a -> n = length u -> k = length a -> run_ok CAny (u ++ a ++ v) n k.
Proof. intros ? -> ->. by apply run_ok_any_infix. Qed.

(** The URL the pagination links are made of has a cut right after the
    prefix. *)
Lemma is_cut_place (p a b : list ascii) :
  p <> [] -> newline ∉ p -> a <> [] -> newline ∉ a -> b <> [] -> newline ∉ b ->
  is_cut (p ++ kw_start ++ a ++ kw_end ++ b) (length p).
Proof.
  intros Hp Hnp Ha Hna Hb Hnb.
  set (s := p ++ kw_start ++ a ++ kw_end ++ b).
  assert (E2 : s = (p ++ kw_start) ++ a ++ (kw_end ++ b)) by (subst s; by rewrite <- app_assoc).
  assert (E3 : s = (p ++ kw_start ++ a) ++ kw_end ++ b) by (subst s; by rewrite <- !app_assoc).
  assert (E4 : s = (p ++ kw_start ++ a ++ kw_end) ++ b ++ [])
    by (subst s; by rewrite app_nil_r, <- !app_assoc).
  assert (Hlen : length kw_start = 7) by reflexivity.
  assert (Hlen' : length kw_end = 5) by reflexivity.
  split; [destruct p; simpl; [done | lia]|].
  split; [apply (run_ok_any_infix [] p); done|].
  exists (length s).
  unfold strip_tail. apply Matches_lits. split; [by apply at_pos_infix'|].
  apply Matches_plus_any. exists (length a). split; [destruct a; simpl; [done | lia]|].
  split; [rewrite E2; apply run_ok_any_infix'; [done | rewrite length_app; lia | done]|].
  apply Matches_lits. split; [rewrite E3; apply at_pos_infix'; rewrite !length_app; lia|].
  apply Matches_plus_any. exists (length b). split; [destruct b; simpl; [done | lia]|].
  split; [rewrite E4; apply run_ok_any_infix'; [done | rewrite !length_app; lia | done]|].
  apply Matches_nil. subst s. rewrite !length_app. lia.
Qed.

(** A cut is a ['&'] followed by ['s']. *)
Lemma is_cut_amp_s s k :
  is_cut s k -> s !! k = Some "&"%char /\ s !! S k = Some "s"%char.
Proof.
  intros (_ & _ & e & HM). unfold strip_tail in HM.
  apply Matches_lits in HM as [Hat _]. split.
  - rewrite <- (Nat.add_0_r k). by apply Hat.
  - rewrite <- Nat.add_1_r. by apply Hat.
Qed.

Lemma amp_not_in_lookup (l : list ascii) i :
  "&"%char ∉ l -> l !! i <> Some "&"%char.
Proof. intros Hn Hi. apply Hn. by eapply list_elem_of_lookup_2. Qed.

(** After the prefix, the only ['&'] of a pagination suffix whose next
    character is ['s'] is the one of ["&start="]. *)
Lemma end_part_no_start b j :
  "&"%char ∉ b -> (kw_end ++ b) !! j = Some "&"%char ->
  (kw_end ++ b) !! S j = Some "s"%char -> False.
Proof.
  intros Hb. destruct j as [|[|[|[|[|j]]]]]; simpl; try congruence.
  intros H. by apply amp_not_in_lookup in H.
Qed.

Lemma suffix_no_start a b d :
  "&"%char ∉ a -> "&"%char ∉ b -> 1 <= d ->
  (kw_start ++ a ++ kw_end ++ b) !! d = Some "&"%char ->
  (kw_start ++ a ++ kw_end ++ b) !! S d = Some "s"%char -> False.
Proof.
  intros Ha Hb Hd H1 H2.
  destruct (decide (d < 7)).
  { destruct d as [|[|[|[|[|[|[|d]]]]]]]; simpl in *; try congruence; lia. }
  assert (Hlen : length kw_start = 7) by reflexivity.
  rewrite (lookup_app_r kw_start) in H1, H2 by lia. rewrite Hlen in H1, H2.
  replace (S d - 7) with (S (d - 7)) in H2 by lia.
  destruct (decide (d - 7 < length a)).
  - rewrite lookup_app_l in H1 by done. by apply amp_not_in_lookup in H1.
  - rewrite (lookup_app_r a) in H1, H2 by lia.
    replace (S (d - 7) - length a) with (S (d - 7 - length a)) in H2 by lia.
    by eapply end_part_no_start.
Qed.

Lemma no_cut_after_place (p a b : list ascii) k' :
  "&"%char ∉ a -> "&"%char ∉ b -> length p < k' ->
  ~ is_cut (p ++ kw_start ++ a ++ kw_end ++ b) k'.
Proof.
  intros Ha Hb Hk Hcut. apply is_cut_amp_s in Hcut as [H1 H2].
  rewrite lookup_app_r in H1, H2 by lia.
  replace (S k' - length p) with (S (k' - length p)) in H2 by lia.
  eapply (suffix_no_start a b (k' - length p)); eauto; lia.
Qed.

Lemma at_pos_take s k w : at_pos s k w -> take (length w) (drop k s) = w.
Proof.
  intros Hat. apply list_eq. intros i. destruct (decide (i < length w)).
  - rewrite lookup_take_lt, lookup_drop by done.
    destruct (lookup_lt_is_Some_2 w i) as [c Hc]; [done|]. rewrite Hc. by apply Hat.
  - rewrite lookup_take_ge by lia. symmetry. apply lookup_ge_None_2. lia.
Qed.

(** Every cut starts an occurrence of ["&start="]. *)
Lemma is_cut_contains s j k :
  j <= k -> is_cut s k -> list_contains kw_start (drop j s) = true.
Proof.
  intros Hjk (_ & _ & e & HM). unfold strip_tail in HM.
  apply Matches_lits in HM as [Hat _].
  by apply (list_contains_drop _ _ j k), at_pos_take.
Qed.

(** When group 1 can end at [k] and nowhere after, [strip_place] returns
    the first [k] characters. *)
Lemma strip_place_at_last_cut url k :
  is_cut (list_ascii_of_string url) k ->
  (forall k', k < k' -> ~ is_cut (list_ascii_of_string url) k') ->
  strip_place url = Ok (PStr (string_of_list_ascii (take k (list_ascii_of_string url)))).
Proof.
  intros Hcut Hmax.
  destruct (strip_place_cases url) as [(k0 & Hcut0 & Hmax0 & ->) | (Hno & _)];
    [|by destruct (Hno k)].
  destruct (lt_eq_lt_dec k0 k) as [[Hlt| ->]|Hgt]; [|done|].
  - by destruct (Hmax0 k Hlt).
  - by destruct (Hmax k0 Hgt).
Qed.

Lemma drop_place (p t : list ascii) n : drop (length p + n) (p ++ t) = drop n t.
Proof. induction p as [|x p IH]; simpl; [done | apply IH]. Qed.

Lemma take_place (p t : list ascii) :
  string_of_list_ascii (take (length p) (p ++ t)) = string_of_list_ascii p.
Proof. by rewrite take_app_length. Qed.

(** [strip_place] on a URL the pagination links build. *)
Lemma strip_place_link (p a b : string) :
  p <> ""%string -> str_has newline p = false ->
  a <> ""%string -> str_has newline a = false -> str_has "&" a = false ->
  b <> ""%string -> str_has newline b = false -> str_has "&" b = false ->
  strip_place (p +:+ "&start=" +:+ a +:+ "&end=" +:+ b) = Ok (PStr p).
Proof.
  intros Hp Hnp Ha Hna Haa Hb Hnb Hab. rewrite str_has_false in *.
  rewrite (strip_place_at_last_cut _ (length (list_ascii_of_string p))); rewrite !list_ascii_of_string_append.
  - by rewrite take_place, string_of_list_ascii_of_string.
  - apply is_cut_place; auto using list_ascii_of_string_neq_nil.
  - intros k'. by apply no_cut_after_place.
Qed.

(** *** The direct description *)

Lemma at_pos_iff s k w : at_pos s k w <-> take (length w) (drop k s) = w.
Proof.
  split; [apply at_pos_take|]. intros Hw i c Hi.
  assert (i < length w) by (by eapply lookup_lt_Some).
  by rewrite <- Hw, lookup_take_lt, lookup_drop in Hi.
Qed.

Lemma run_ok_any_iff s pos k :
  run_ok CAny s pos k <-> (k = 0 \/ pos + k <= length s) /\ newline ∉ take k (drop pos s).
Proof.
  unfold run_ok. split.
  - intros H. split.
    + destruct k as [|k]; [by left|]. right. destruct (H k) as (c & Hc & _); [lia|].
      apply lookup_lt_Some in Hc. lia.
    + intros (i & Hi)%list_elem_of_lookup.
      assert (i < k) by (apply lookup_lt_Some in Hi; rewrite length_take in Hi; lia).
      rewrite lookup_take_lt, lookup_drop in Hi by done.
      destruct (H i) as (c & Hc & Hm); [done|]. rewrite Hc in Hi. injection Hi as ->.
      by vm_compute in Hm.
  - intros [[->|Hlen] Hn] i Hi; [lia|]. destruct (lookup_lt_is_Some_2 s (pos + i)) as [c Hc]; [lia|].
    exists c. split; [done|]. simpl. apply bool_decide_eq_true. intros ->. apply Hn.
    apply list_elem_of_lookup. exists i. by rewrite lookup_take_lt, lookup_drop.
Qed.

Lemma plus_any_iff s q :
  (exists b, 1 <= b /\ run_ok CAny s q b) <->
  match drop q s with c :: _ => c <> newline | [] => False end.
Proof.
  split.
  - intros (b & Hb & Hrun). apply run_ok_any_iff in Hrun as [[->|Hlen] Hn]; [lia|].
    destruct (drop q s) as [|c t] eqn:Hd.
    + apply (f_equal length) in Hd. rewrite length_drop in Hd. simpl in Hd. lia.
    + intros ->. apply Hn. destruct b; [lia|]. simpl. apply list_elem_of_here.
  - destruct (drop q s) as [|c t] eqn:Hd; [done|]. intros Hc. exists 1. split; [done|].
    apply run_ok_any_iff. rewrite Hd. split.
    + right. apply (f_equal length) in Hd. rewrite length_drop in Hd. simpl in Hd. lia.
    + simpl. rewrite elem_of_cons, elem_of_nil. naive_solver.
Qed.

Lemma strip_tail_iff s k :
  (exists e, Matches strip_tail s k e) <->
  take (length kw_start) (drop k s) = kw_start /\ end_after (drop (k + length kw_start) s) = true.
Proof.
  unfold strip_tail, end_after. setoid_rewrite Matches_lits. setoid_rewrite Matches_plus_any.
  setoid_rewrite Matches_lits. setoid_rewrite Matches_plus_any. setoid_rewrite Matches_nil.
  rewrite existsb_exists. setoid_rewrite in_seq. split.
  - intros (e & Hs & a & Ha & Hrun & He & b & Hb & Hrun' & _). split; [by apply at_pos_iff|].
    apply run_ok_any_iff in Hrun as [[->|Hlen] Hn]; [lia|]. rewrite length_drop.
    exists a. split; [lia|]. rewrite !andb_true_iff. split; [split|].
    + by apply bool_decide_eq_true.
    + apply bool_decide_eq_true. rewrite drop_drop. by apply at_pos_iff.
    + pose proof (proj1 (plus_any_iff s _) (ex_intro _ b (conj Hb Hrun'))) as Hc.
      rewrite drop_drop, !Nat.add_assoc.
      destruct (drop (k + length kw_start + a + length kw_end) s); [done|]. by apply bool_decide_eq_true.
  - intros [Hs (a & Ha & Hok)]. rewrite !andb_true_iff in Hok. destruct Hok as [[Hn He] Hc].
    apply bool_decide_eq_true in Hn, He. rewrite drop_drop in He, Hc. rewrite !Nat.add_assoc in Hc.
    assert (match drop (k + length kw_start + a + length kw_end) s with
            | c :: _ => c <> newline | [] => False end) as Hc'
      by (destruct (drop (k + length kw_start + a + length kw_end) s); [done|];
          by apply bool_decide_eq_true in Hc).
    destruct (proj2 (plus_any_iff s _) Hc') as (b & Hb & Hrun').
    exists (k + length kw_start + a + length kw_end + b). split; [by apply at_pos_iff|].
    exists a. split; [lia|]. split.
    + apply run_ok_any_iff. split; [|done]. right. rewrite length_drop in Ha.
      apply run_ok_any_iff in Hrun' as [[->|Hlen] _]; lia.
    + split; [by apply at_pos_iff|]. exists b. by repeat split.
Qed.

Lemma cut_at_iff s k : cut_at s k = true <-> is_cut s k.
Proof.
  unfold cut_at, is_cut. rewrite !andb_true_iff, !bool_decide_eq_true, strip_tail_iff.
  unfold no_newline. rewrite bool_decide_eq_true, run_ok_any_iff, drop_0. split.
  - intros [[[[Hk Hlen] Hn] Hs] He]. repeat split; auto with lia.
  - intros (Hk & [[->|Hlen] Hn] & Hs & He); [lia|]. repeat split; auto with lia.
Qed.

Lemma is_cut_le s k : is_cut s k -> k <= length s.
Proof. intros (Hk & Hrun & _). apply run_ok_any_iff in Hrun as [[->|Hlen] _]; lia. Qed.

Lemma last_cut_Some s n k :
  last_cut s n = Some k -> k <= n /\ cut_at s k = true /\ forall k', k < k' <= n -> cut_at s k' = false.
Proof.
  induction n as [|n IH]; simpl; [done|]. destruct (cut_at s (S n)) eqn:Hc.
  - intros [= <-]. split; [lia|]. split; [done|]. lia.
  - intros (Hk & Hck & Hmax)%IH. split; [lia|]. split; [done|].
    intros k' Hk'. destruct (decide (k' = S n)) as [->|]; [done|]. apply Hmax. lia.
Qed.

Lemma last_cut_None s n : last_cut s n = None -> forall k, k <= n -> cut_at s k = false.
Proof.
  induction n as [|n IH]; simpl; intros Hl k Hk.
  - replace k with 0 by lia. done.
  - destruct (cut_at s (S n)) eqn:Hc; [done|].
    destruct (decide (k = S n)) as [->|]; [done|]. apply IH; [done | lia].
Qed.

(** ** Properties *)

(** C10. [strip_place] never raises and returns a prefix of the URL: the
    [except AttributeError] covers the one exception the [try] block can
    raise. *)
Theorem strip_place_prefix (url : string) :
  exists p, strip_place url = Ok (PStr p) /\
    list_ascii_of_string p `prefix_of` list_ascii_of_string url.
Proof.
  destruct (strip_place_cases url) as [(k & _ & _ & ->) | (_ & ->)].
  - eexists; split; [done|]. rewrite list_ascii_of_string_of_list_ascii. apply prefix_take.
  - eexists; split; [done | reflexivity].
Qed.

(** C11. A pagination URL [p&start=a&end=b] is stripped back to [p], when
    [p] is non-empty and the parameter values are non-empty, contain no
    ['&'], and none of the three contains a newline.  In particular the
    navigation path of a page whose URL the pagination links built is the
    same as the path of the page the links were built on. *)
Theorem strip_place_roundtrip (p a b : string) :
  p <> ""%string -> str_has newline p = false ->
  a <> ""%string -> str_has newline a = false -> str_has "&" a = false ->
  b <> ""%string -> str_has newline b = false -> str_has "&" b = false ->
  strip_place (p +:+ "&start=" +:+ a +:+ "&end=" +:+ b) = Ok (PStr p).
Proof. apply strip_place_link. Qed.

Theorem strip_place_roundtrip_witness :
  strip_place ("http://localhost:5000/flights/search?Carrier=AA" +:+ "&start=" +:+ "20"
                +:+ "&end=" +:+ "40") =
  Ok (PStr "http://localhost:5000/flights/search?Carrier=AA").
Proof. apply strip_place_roundtrip; vm_compute; congruence. Defined.

(** C12. [strip_place] cuts at the start parameter and drops everything
    after it: on [p&start=a&end=b] where no other ["&start="] follows, it
    returns [p], also when [b] carries further query parameters such as
    [20&Dest=SFO], which the navigation path then loses. *)
Theorem strip_place_drops_trailing (p a b : string) :
  p <> ""%string -> str_has newline p = false ->
  a <> ""%string -> str_has newline a = false ->
  b <> ""%string -> str_has newline b = false ->
  list_contains kw_start (drop 1 (list_ascii_of_string ("&start=" +:+ a +:+ "&end=" +:+ b))) = false ->
  strip_place (p +:+ "&start=" +:+ a +:+ "&end=" +:+ b) = Ok (PStr p).
Proof.
  intros Hp Hnp Ha Hna Hb Hnb Hno. rewrite str_has_false in *.
  rewrite !list_ascii_of_string_append in Hno.
  rewrite (strip_place_at_last_cut _ (length (list_ascii_of_string p))); rewrite !list_ascii_of_string_append.
  - by rewrite take_place, string_of_list_ascii_of_string.
  - apply is_cut_place; auto using list_ascii_of_string_neq_nil.
  - intros k' Hk' Hcut.
    apply (is_cut_contains _ (length (list_ascii_of_string p) + 1)) in Hcut; [|lia].
    rewrite drop_place in Hcut. unfold kw_start, kw_end in *. congruence.
Qed.

Theorem strip_place_drops_trailing_witness :
  strip_place ("http://localhost:5000/flights/search?Origin=ATL" +:+ "&start=" +:+ "0"
                +:+ "&end=" +:+ "20&Dest=SFO") =
  Ok (PStr "http://localhost:5000/flights/search?Origin=ATL").
Proof. apply strip_place_drops_trailing; vm_compute; congruence. Defined.

(** C13. A URL in which ["&start="] does not occur is returned unchanged,
    in particular one whose [start] parameter comes first in the query
    string ([...?start=20&end=40]): its pagination parameters stay in the
    navigation path. *)
Theorem strip_place_unchanged (url : string) :
  list_contains kw_start (list_ascii_of_string url) = false ->
  strip_place url = Ok (PStr url).
Proof.
  intros Hno. destruct (strip_place_cases url) as [(k & Hcut & _) | (_ & ->)]; [|done].
  apply (is_cut_contains _ 0) in Hcut; [|lia]. rewrite drop_0 in Hcut. congruence.
Qed.

Theorem strip_place_unchanged_witness :
  strip_place "http://localhost:5000/airplanes?start=20&end=40" =
  Ok (PStr "http://localhost:5000/airplanes?start=20&end=40").
Proof. apply strip_place_unchanged. vm_compute. reflexivity. Defined.

(** C32. Equivalence with a definition without regular expressions:
    [strip_place] returns the URL up to its last cut (a non-empty prefix
    without newline, followed by ["&start="], a non-empty run without
    newline, ["&end="] and a character that is not a newline), or the
    URL itself when it has no cut.  The backtracking of CPython's [re]
    engine computes exactly this scan. *)
Theorem strip_place_equiv (url : string) : strip_place url = Ok (PStr (strip_place_spec url)).
Proof.
  unfold strip_place_spec. destruct (last_cut _ _) as [k|] eqn:Hl.
  - apply last_cut_Some in Hl as (Hk & Hc & Hmax). apply strip_place_at_last_cut; [by apply cut_at_iff|].
    intros k' Hk' Hc'. pose proof (is_cut_le _ _ Hc') as Hle. apply cut_at_iff in Hc'.
    by rewrite Hmax in Hc' by lia.
  - destruct (strip_place_cases url) as [(k & Hcut & _ & _) | (_ & ->)]; [|done]. exfalso.
    pose proof (is_cut_le _ _ Hcut) as Hle. apply cut_at_iff in Hcut.
    by rewrite (last_cut_None _ _ Hl k) in Hcut by lia.
Qed.

End StripPlace.
