(* ===== verification/Handlers.v ===== *)
(** * Handlers: the two search controllers

    Models the Flask controllers [search_flights] (lines 262-325) and
    [search_airplanes] (lines 118-174) of src/ch06/web/report_flask.py:
    read the request arguments, parse the pagination parameters with
    [int], compute the navigation path and offsets, build the query, call
    Elasticsearch, post-process the hits and render a template.

    The collaborators are interfaces:
    - [Config]: the [config] module (not in the repository), the two page
      sizes;
    - [Elastic]: [elastic.search(query, index=...)], which may raise;
    - [SearchHelpers]: the [search_helpers] module (not in the
      repository), whose [strip_place], [get_navigation_offsets] and
      [process_search] both controllers call ([search_flights] uses its
      own [process_search]).  [report_flask_helpers] instantiates it with
      the functions of report_flask.py of the same names.

    A controller returns the rendered template with its context, or the
    exception that Flask turns into an HTTP 500. *)

From Stdlib Require Import ZArith Ascii String Lia.
From stdpp Require Import base list strings.
From S2P Require Import Prelude PyValue Navigation ProcessSearch SearchQuery Sre StripPlace.

Module Handlers.
Import Navigation ProcessSearch SearchQuery StripPlace.

(** [flask.request]: the parsed query string and the full URL. *)
Record request : Type := mk_request {
  args : multidict;
  url : string
}.

Inductive response : Type :=
| Render (template : string) (context : list (string * pyval))
| Text (body : string).          (** a controller that returns a [str] *)

Class Config : Type := {
  RECORDS_PER_PAGE : Z;
  AIRPLANE_RECORDS_PER_PAGE : Z
}.

Class Elastic : Type := {
  es_search : pyval -> string -> pyres pyval
}.

Class SearchHelpers : Type := {
  sh_strip_place : string -> pyres pyval;
  sh_get_navigation_offsets : Z -> Z -> Z -> nav_offsets;
  sh_process_search : pyval -> pyres (list pyval * pyval)
}.

#[export] Instance report_flask_helpers : SearchHelpers := {|
  sh_strip_place := strip_place;
  sh_get_navigation_offsets := get_navigation_offsets;
  sh_process_search := process_search
|}.

(** [x = request.args.get(k) or default; x = int(x)] *)
Definition int_arg (a : multidict) (k : string) (default : Z) : pyres Z :=
  py_int (py_or (args_get a k) (PInt default)).

Section Controllers.
Context `{Config} `{Elastic} `{SearchHelpers}.

Definition search_flights (req : request) : pyres response :=
  let carrier := args_get (args req) "Carrier" in
  let flight_date := args_get (args req) "FlightDate" in
  let origin := args_get (args req) "Origin" in
  let dest := args_get (args req) "Dest" in
  let tail_number := args_get (args req) "TailNum" in
  let flight_number := args_get (args req) "FlightNum" in
  start <- int_arg (args req) "start" 0 ;;
  end_ <- int_arg (args req) "end" RECORDS_PER_PAGE ;;
  nav_path <- sh_strip_place (url req) ;;
  let nav_offsets := sh_get_navigation_offsets start end_ RECORDS_PER_PAGE in
  query <- build_flights_query carrier flight_date origin dest tail_number flight_number
             start RECORDS_PER_PAGE ;;
  results <- es_search query "agile_data_science" ;;
  fc <- process_search results ;;
  Ok (Render "search.html"
        [("flights", PList fc.1); ("flight_date", flight_date); ("flight_count", fc.2);
         ("nav_path", nav_path); ("nav_offsets", nav_offsets_to_py nav_offsets);
         ("carrier", carrier); ("origin", origin); ("dest", dest);
         ("tail_number", tail_number); ("flight_number", flight_number)]).

Definition search_airplanes (req : request) : pyres response :=
  start <- int_arg (args req) "start" 0 ;;
  end_ <- int_arg (args req) "end" AIRPLANE_RECORDS_PER_PAGE ;;
  nav_path <- sh_strip_place (url req) ;;
  let nav_offsets := sh_get_navigation_offsets start end_ AIRPLANE_RECORDS_PER_PAGE in
  aq <- build_airplanes_query (args req) start AIRPLANE_RECORDS_PER_PAGE ;;
  results <- es_search aq.2 "agile_data_science" ;;
  ac <- sh_process_search results ;;
  Ok (Render "all_airplanes.html"
        [("search_config", search_config); ("args", PDict aq.1);
         ("airplanes", PList ac.1); ("airplane_count", ac.2);
         ("nav_path", nav_path); ("nav_offsets", nav_offsets_to_py nav_offsets)]).

(** The queries the controllers send, as SearchQuery.v specifies them. *)
Definition flights_query_spec (a : multidict) (start : Z) : pyval :=
  query_dict (match_clauses (request_pairs a flight_fields)) (flights_rest start RECORDS_PER_PAGE).

Definition airplanes_query_spec (a : multidict) (start : Z) : pyval :=
  query_dict (match_clauses (request_pairs a airplane_fields))
             (airplanes_rest start AIRPLANE_RECORDS_PER_PAGE).

End Controllers.

(** Concrete collaborators for the witnesses: page sizes, and a search
    backend that answers every query with the same response. *)
Definition example_config : Config := {| RECORDS_PER_PAGE := 15; AIRPLANE_RECORDS_PER_PAGE := 20 |}.

Definition es_returning (resp : pyval) : Elastic := {| es_search _ _ := Ok resp |}.

(** ** Lemmas *)

Lemma truthy_PStr (s : string) : s <> ""%string -> truthy (PStr s) = true.
Proof. intros Hs. simpl. by rewrite (proj2 (String.eqb_neq s "") Hs). Qed.

Lemma int_arg_invalid a k d s :
  args_get a k = PStr s -> s <> ""%string -> int_of_str s = None ->
  int_arg a k d = Raise (ValueError ("invalid literal for int() with base 10: '" +:+ s +:+ "'")).
Proof. intros Ha Hs Hi. unfold int_arg, py_or. rewrite Ha, truthy_PStr by done. simpl. by rewrite Hi. Qed.

Section ControllerProperties.
Context `{Config} `{Elastic} `{SearchHelpers}.

(** The run of [search_flights] up to the Elasticsearch call. *)
Lemma search_flights_unfold req start end_ nav_path :
  int_arg (args req) "start" 0 = Ok start ->
  int_arg (args req) "end" RECORDS_PER_PAGE = Ok end_ ->
  sh_strip_place (url req) = Ok nav_path ->
  search_flights req =
  (results <- es_search (flights_query_spec (args req) start) "agile_data_science" ;;
   fc <- process_search results ;;
   Ok (Render "search.html"
        [("flights", PList fc.1); ("flight_date", args_get (args req) "FlightDate");
         ("flight_count", fc.2); ("nav_path", nav_path);
         ("nav_offsets", nav_offsets_to_py (sh_get_navigation_offsets start end_ RECORDS_PER_PAGE));
         ("carrier", args_get (args req) "Carrier"); ("origin", args_get (args req) "Origin");
         ("dest", args_get (args req) "Dest"); ("tail_number", args_get (args req) "TailNum");
         ("flight_number", args_get (args req) "FlightNum")])).
Proof.
  intros Hs He Hn. unfold search_flights. cbv zeta.
  rewrite Hs, pybind_Ok, He, pybind_Ok, Hn, pybind_Ok, flights_query_eq, pybind_Ok.
  reflexivity.
Qed.

(** ** Properties *)

(** C14. When the pagination parameters parse and Elasticsearch answers
    the query SearchQuery.v specifies with at least one hit,
    [search_flights] renders search.html with the hits' sources, the
    total, the navigation path and the navigation offsets of [start],
    [end] and the page size, and echoes the search parameters. *)
Theorem search_flights_renders (req : request) (start end_ : Z) (nav_path total : pyval)
    (sources : list pyval) :
  int_arg (args req) "start" 0 = Ok start ->
  int_arg (args req) "end" RECORDS_PER_PAGE = Ok end_ ->
  sh_strip_place (url req) = Ok nav_path ->
  es_search (flights_query_spec (args req) start) "agile_data_science" =
    Ok (es_response total sources) ->
  sources <> [] ->
  search_flights req =
  Ok (Render "search.html"
        [("flights", PList sources); ("flight_date", args_get (args req) "FlightDate");
         ("flight_count", total); ("nav_path", nav_path);
         ("nav_offsets", nav_offsets_to_py (sh_get_navigation_offsets start end_ RECORDS_PER_PAGE));
         ("carrier", args_get (args req) "Carrier"); ("origin", args_get (args req) "Origin");
         ("dest", args_get (args req) "Dest"); ("tail_number", args_get (args req) "TailNum");
         ("flight_number", args_get (args req) "FlightNum")]).
Proof.
  intros Hs He Hn Hq Hne. rewrite (search_flights_unfold req start end_ nav_path) by done.
  rewrite Hq, pybind_Ok, process_search_es_response by done. reflexivity.
Qed.

(** C15. A flight search that Elasticsearch answers with no hits fails
    with [UnboundLocalError] (an HTTP 500) instead of rendering an empty
    result page. *)
Theorem search_flights_no_hits (req : request) (start end_ : Z) (nav_path total : pyval) :
  int_arg (args req) "start" 0 = Ok start ->
  int_arg (args req) "end" RECORDS_PER_PAGE = Ok end_ ->
  sh_strip_place (url req) = Ok nav_path ->
  es_search (flights_query_spec (args req) start) "agile_data_science" =
    Ok (es_response total []) ->
  search_flights req = Raise (UnboundLocalError "total").
Proof.
  intros Hs He Hn Hq. rewrite (search_flights_unfold req start end_ nav_path) by done.
  by rewrite Hq.
Qed.

(** C16. A non-empty [start] parameter that is not an integer literal
    makes [search_flights] raise [ValueError] before any lookup. *)
Theorem search_flights_bad_start (req : request) (s : string) :
  args_get (args req) "start" = PStr s -> s <> ""%string -> int_of_str s = None ->
  search_flights req =
  Raise (ValueError ("invalid literal for int() with base 10: '" +:+ s +:+ "'")).
Proof.
  intros Ha Hs Hi. unfold search_flights. cbv zeta.
  by rewrite (int_arg_invalid _ _ _ s).
Qed.

(** The run of [search_airplanes] up to the Elasticsearch call. *)
Lemma search_airplanes_unfold req start end_ nav_path :
  int_arg (args req) "start" 0 = Ok start ->
  int_arg (args req) "end" AIRPLANE_RECORDS_PER_PAGE = Ok end_ ->
  sh_strip_place (url req) = Ok nav_path ->
  search_airplanes req =
  (results <- es_search (airplanes_query_spec (args req) start) "agile_data_science" ;;
   ac <- sh_process_search results ;;
   Ok (Render "all_airplanes.html"
        [("search_config", search_config);
         ("args", PDict (request_pairs (args req) airplane_fields));
         ("airplanes", PList ac.1); ("airplane_count", ac.2); ("nav_path", nav_path);
         ("nav_offsets", nav_offsets_to_py
                           (sh_get_navigation_offsets start end_ AIRPLANE_RECORDS_PER_PAGE))])).
Proof.
  intros Hs He Hn. unfold search_airplanes. cbv zeta.
  rewrite Hs, pybind_Ok, He, pybind_Ok, Hn, pybind_Ok, airplanes_query_eq, pybind_Ok.
  reflexivity.
Qed.

End ControllerProperties.

Section AirplaneProperties.
Context `{Config} `{Elastic}.

(** C17. With the helpers of report_flask.py, when the pagination
    parameters parse and Elasticsearch answers the specified airplane
    query with at least one hit, [search_airplanes] renders
    all_airplanes.html with the configuration, every configured field
    with its request value (or [None]), the hits' sources and total, and
    the navigation path and offsets. *)
Theorem search_airplanes_renders (req : request) (start end_ : Z) (nav_path total : pyval)
    (sources : list pyval) :
  int_arg (args req) "start" 0 = Ok start ->
  int_arg (args req) "end" AIRPLANE_RECORDS_PER_PAGE = Ok end_ ->
  strip_place (url req) = Ok nav_path ->
  es_search (airplanes_query_spec (args req) start) "agile_data_science" =
    Ok (es_response total sources) ->
  sources <> [] ->
  @search_airplanes _ _ report_flask_helpers req =
  Ok (Render "all_airplanes.html"
        [("search_config", search_config);
         ("args", PDict (request_pairs (args req) airplane_fields));
         ("airplanes", PList sources); ("airplane_count", total); ("nav_path", nav_path);
         ("nav_offsets", nav_offsets_to_py
                           (get_navigation_offsets start end_ AIRPLANE_RECORDS_PER_PAGE))]).
Proof.
  intros Hs He Hn Hq Hne. rewrite (search_airplanes_unfold req start end_ nav_path) by done.
  rewrite Hq, pybind_Ok. simpl sh_process_search.
  rewrite process_search_es_response by done. reflexivity.
Qed.

End AirplaneProperties.

(** ** Witnesses *)

Theorem search_flights_renders_witness :
  exists ctx,
    @search_flights example_config (es_returning (es_response (PInt 2) [PStr "r1"; PStr "r2"]))
      report_flask_helpers
      (mk_request [("Carrier", "AA"); ("start", "-40")]
                  "http://localhost:5000/flights/search?Carrier=AA&start=-40") =
    Ok (Render "search.html" ctx).
Proof.
  eexists. apply (search_flights_renders _ (-40) 15
    (PStr "http://localhost:5000/flights/search?Carrier=AA&start=-40") (PInt 2) [PStr "r1"; PStr "r2"]);
    try reflexivity; try discriminate.
Defined.

Theorem search_flights_no_hits_witness :
  @search_flights example_config (es_returning (es_response (PInt 0) [])) report_flask_helpers
    (mk_request [("Origin", "ATL")] "http://localhost:5000/flights/search?Origin=ATL") =
  Raise (UnboundLocalError "total").
Proof.
  apply (search_flights_no_hits _ 0 15
    (PStr "http://localhost:5000/flights/search?Origin=ATL") (PInt 0)); reflexivity.
Defined.

Theorem search_flights_bad_start_witness :
  @search_flights example_config (es_returning (es_response (PInt 0) [])) report_flask_helpers
    (mk_request [("start", "ten")] "http://localhost:5000/flights/search?start=ten") =
  Raise (ValueError "invalid literal for int() with base 10: 'ten'").
Proof. apply (search_flights_bad_start _ "ten"); [reflexivity | discriminate | reflexivity]. Defined.

Theorem search_airplanes_renders_witness :
  exists ctx,
    @search_airplanes example_config (es_returning (es_response (PInt 1) [PStr "N123"]))
      report_flask_helpers
      (mk_request [("Manufacturer", "BOEING"); ("start", "20"); ("end", "40")]
                  "http://localhost:5000/airplanes?Manufacturer=BOEING&start=20&end=40") =
    Ok (Render "all_airplanes.html" ctx).
Proof.
  eexists. apply (search_airplanes_renders _ 20 40
    (PStr "http://localhost:5000/airplanes?Manufacturer=BOEING") (PInt 1) [PStr "N123"]);
    try reflexivity; try discriminate.
Defined.

End Handlers.
