(* ===== verification/Pagination.v ===== *)
(** * Pagination: following the links of the result pages

    The search pages are paginated by links: [search_flights] and
    [search_airplanes] (src/ch06/web/report_flask.py, lines 118-174 and
    262-325) pass to their templates [nav_path = strip_place(request.url)]
    and [nav_offsets = get_navigation_offsets(start, end, page_size)], and
    the templates (Jinja macros that are not in the repository) print, for
    each of "Previous" and "Next", the link
    [{{nav_path}}&start={{bottom_offset}}&end={{top_offset}}]
    ([nav_link]).  Following a link is a new request for that URL, whose
    [request.args] werkzeug parses from its query string (UrlArgs.v).

    [browse ctrl ls req] follows the links named by [ls], one page after
    the other.  The theorems compare it with an abstract page machine
    ([spec_start]): "Next" moves the offset one page on, "Previous" one
    page back but not below 0.  Following links does not raise, and
    every page is reached, for a start URL with a query string that names
    neither [start] nor [end].  When the start URL names [start] before
    any other parameter, [strip_place] leaves it in place and the links
    never leave the first page. *)

From Stdlib Require Import ZArith Ascii String Lia.
From stdpp Require Import base list strings sets.
From S2P Require Import Prelude PyValue UrlArgs Navigation ProcessSearch SearchQuery Sre StripPlace Handlers.

Module Pagination.
Import UrlArgs Navigation ProcessSearch SearchQuery Sre StripPlace Handlers.

(** The link the templates print for a place. *)
Definition nav_link (path : string) (p : place) : string :=
  path +:+ "&start=" +:+ str_of_Z (bottom_offset p) +:+ "&end=" +:+ str_of_Z (top_offset p).

Definition request_of_url (u : string) : request := mk_request (url_args u) u.

Definition place_of_py (v : pyval) : option place :=
  match v with
  | PDict d =>
      match dict_lookup "top_offset" d, dict_lookup "bottom_offset" d with
      | Some (PInt t), Some (PInt b) => Some (mk_place t b)
      | _, _ => None
      end
  | _ => None
  end.

Inductive link : Type := NextLink | PrevLink.

Definition link_key (l : link) : string :=
  match l with NextLink => "Next" | PrevLink => "Previous" end.

(** The request a click on link [l] of a rendered page sends. *)
Definition follow_link (l : link) (r : response) : option request :=
  match r with
  | Render _ ctx =>
      match dict_lookup "nav_path" ctx, dict_lookup "nav_offsets" ctx with
      | Some (PStr path), Some (PDict offs) =>
          match dict_lookup (link_key l) offs with
          | Some v => (fun p => request_of_url (nav_link path p)) <$> place_of_py v
          | None => None
          end
      | _, _ => None
      end
  | Text _ => None
  end.

(** Render the page of [req] with controller [ctrl], follow the first
    link of [ls] from it, and so on. *)
Fixpoint browse (ctrl : request -> pyres response) (ls : list link) (req : request)
    : option request :=
  match ls with
  | [] => Some req
  | l :: ls' =>
      match ctrl req with
      | Ok resp => follow_link l resp ≫= browse ctrl ls'
      | Raise _ => None
      end
  end.

(** The abstract page machine: the offset of the first record shown. *)
Definition link_step (inc : Z) (s : Z) (l : link) : Z :=
  match l with NextLink => s + inc | PrevLink => Z.max (s - inc) 0 end.

Definition spec_start (inc : Z) (ls : list link) (s0 : Z) : Z := foldl (link_step inc) s0 ls.

(** A start URL the links can extend: it has a query string, no
    fragment, no newline, and neither a [start] nor an [end] argument. *)
Definition fresh_url (u : string) : bool :=
  bool_decide (u <> ""%string) && negb (str_has newline u) && str_has "?" u &&
  negb (str_has "#" u) && bool_decide (args_get (url_args u) "start" = PNone) &&
  bool_decide (args_get (url_args u) "end" = PNone).

(** What a paginating controller renders: the navigation path and the
    offsets of the requested page. *)
Definition paginates (ctrl : request -> pyres response) (inc : Z) : Prop :=
  forall req start end_ path,
    int_arg (args req) "start" 0 = Ok start -> int_arg (args req) "end" inc = Ok end_ ->
    strip_place (url req) = Ok (PStr path) ->
    exists tmpl ctx, ctrl req = Ok (Render tmpl ctx) /\
      dict_lookup "nav_path" ctx = Some (PStr path) /\
      dict_lookup "nav_offsets" ctx = Some (nav_offsets_to_py (get_navigation_offsets start end_ inc)).

(** An Elasticsearch that finds something for every query. *)
Definition es_always_hits `{Elastic} : Prop :=
  forall q idx, exists total sources,
    es_search q idx = Ok (es_response total sources) /\ sources <> [].

(** The place of the offsets a link carries. *)
Definition link_place (l : link) (o : nav_offsets) : place :=
  match l with NextLink => Next o | PrevLink => Previous o end.

(** A request for a page of [path] at offset [start], whose [end]
    parses. *)
Definition page_req (inc : Z) (path : string) (start : Z) (req : request) : Prop :=
  int_arg (args req) "start" 0 = Ok start /\
  (exists end_, int_arg (args req) "end" inc = Ok end_) /\
  strip_place (url req) = Ok (PStr path).

(** ** Lemmas *)

Lemma not_in_str_of_Z c z : c ∉ dec_chars -> c ∉ list_ascii_of_string (str_of_Z z).
Proof. intros Hc. apply str_has_false, str_has_str_of_Z, Hc. Qed.

Lemma str_of_Z_field (key : string) z :
  "="%char ∉ list_ascii_of_string key -> "%"%char ∉ list_ascii_of_string key ->
  "+"%char ∉ list_ascii_of_string key -> "&"%char ∉ list_ascii_of_string key ->
  parse_qsl (list_ascii_of_string key ++ "="%char :: list_ascii_of_string (str_of_Z z)) =
  [(key, str_of_Z z)].
Proof.
  intros He Hp Hq Ha.
  assert ("&"%char ∉ list_ascii_of_string (str_of_Z z)) by (apply not_in_str_of_Z; vm_decide).
  assert ("%"%char ∉ list_ascii_of_string (str_of_Z z)) by (apply not_in_str_of_Z; vm_decide).
  assert ("+"%char ∉ list_ascii_of_string (str_of_Z z)) by (apply not_in_str_of_Z; vm_decide).
  rewrite parse_qsl_field.
  - unfold parse_field. simpl. rewrite split_first_app by done. simpl.
    by rewrite !unquote_id, !string_of_list_ascii_of_string.
  - rewrite elem_of_app, elem_of_cons. intros [?|[?|?]]; done.
  - by destruct (list_ascii_of_string key).
Qed.

Lemma url_args_link u p :
  "?"%char ∈ list_ascii_of_string u -> "#"%char ∉ list_ascii_of_string u ->
  url_args (nav_link u p) =
  (url_args u ++ [("start", str_of_Z (bottom_offset p)); ("end", str_of_Z (top_offset p))])%list.
Proof.
  intros Hq Hh. unfold url_args, nav_link.
  rewrite <- (string_of_list_ascii_of_string (u +:+ _)), !list_ascii_of_string_append.
  change (list_ascii_of_string "&start=") with ("&"%char :: list_ascii_of_string "start" ++ ["="%char]).
  change (list_ascii_of_string "&end=") with ("&"%char :: list_ascii_of_string "end" ++ ["="%char]).
  rewrite query_string_app; [|done|].
  - cbn [app]. rewrite parse_qsl_app, app_assoc, parse_qsl_app, <- !app_assoc. cbn [app].
    rewrite !str_of_Z_field; [done | vm_decide..].
  - assert ("#"%char ∉ list_ascii_of_string (str_of_Z (bottom_offset p))) by (apply not_in_str_of_Z; vm_decide).
    assert ("#"%char ∉ list_ascii_of_string (str_of_Z (top_offset p))) by (apply not_in_str_of_Z; vm_decide).
    assert ("#"%char ∉ (list_ascii_of_string "start" ++ ["="%char])%list) by vm_decide.
    assert ("#"%char ∉ (list_ascii_of_string "end" ++ ["="%char])%list) by vm_decide.
    assert ("#"%char <> "&"%char) by discriminate. set_solver.
Qed.

Lemma int_arg_str_of_Z a k d z : args_get a k = PStr (str_of_Z z) -> int_arg a k d = Ok z.
Proof.
  intros Ha. unfold int_arg, py_or. rewrite Ha, truthy_PStr by apply str_of_Z_neq_empty.
  apply py_int_str_of_Z.
Qed.

Lemma int_arg_absent a k d : args_get a k = PNone -> int_arg a k d = Ok d.
Proof. intros Ha. unfold int_arg, py_or. by rewrite Ha. Qed.

Lemma int_arg_app_present a1 a2 k d :
  args_get a1 k <> PNone -> int_arg (a1 ++ a2) k d = int_arg a1 k d.
Proof.
  intros Ha. destruct (args_get_cases a1 k) as [?|[v Hv]]; [done|].
  unfold int_arg. by rewrite (args_get_app_PStr _ _ _ v), Hv.
Qed.

Lemma strip_place_nav_link u p :
  u <> ""%string -> str_has newline u = false -> strip_place (nav_link u p) = Ok (PStr u).
Proof.
  intros Hu Hn. unfold nav_link.
  apply strip_place_link; auto using str_of_Z_neq_empty; apply str_has_str_of_Z; vm_decide.
Qed.

Lemma follow_link_render l tmpl ctx path o :
  dict_lookup "nav_path" ctx = Some (PStr path) ->
  dict_lookup "nav_offsets" ctx = Some (nav_offsets_to_py o) ->
  follow_link l (Render tmpl ctx) = Some (request_of_url (nav_link path (link_place l o))).
Proof. intros Hp Ho. simpl. rewrite Hp, Ho. by destruct l, o as [[] []]. Qed.

Lemma link_place_bottom l s e inc :
  bottom_offset (link_place l (get_navigation_offsets s e inc)) = link_step inc s l.
Proof. by destruct l. Qed.

Lemma spec_start_cons inc l ls s : spec_start inc (l :: ls) s = spec_start inc ls (link_step inc s l).
Proof. reflexivity. Qed.

(** One click: render the page, follow link [l]. *)
Lemma browse_cons ctrl inc l ls req start end_ path :
  paginates ctrl inc ->
  int_arg (args req) "start" 0 = Ok start -> int_arg (args req) "end" inc = Ok end_ ->
  strip_place (url req) = Ok (PStr path) ->
  browse ctrl (l :: ls) req =
  browse ctrl ls (request_of_url (nav_link path (link_place l (get_navigation_offsets start end_ inc)))).
Proof.
  intros Hpag Hs He Hn. destruct (Hpag req start end_ path Hs He Hn) as (tmpl & ctx & Hr & Hp & Ho).
  simpl. by rewrite Hr, (follow_link_render _ _ _ _ _ Hp Ho).
Qed.

Lemma fresh_url_spec u :
  fresh_url u = true ->
  u <> ""%string /\ str_has newline u = false /\ "?"%char ∈ list_ascii_of_string u /\
  "#"%char ∉ list_ascii_of_string u /\ args_get (url_args u) "start" = PNone /\
  args_get (url_args u) "end" = PNone.
Proof.
  unfold fresh_url. rewrite !andb_true_iff, !negb_true_iff, !bool_decide_eq_true.
  unfold str_has. rewrite bool_decide_eq_true, !bool_decide_eq_false. tauto.
Qed.

Lemma page_req_link_fresh inc u p :
  fresh_url u = true -> page_req inc u (bottom_offset p) (request_of_url (nav_link u p)).
Proof.
  intros (Hu & Hn & Hq & Hh & Hs & He)%fresh_url_spec. unfold page_req; simpl.
  rewrite url_args_link by done. split; [|split].
  - apply int_arg_str_of_Z. by rewrite args_get_app_PNone.
  - exists (top_offset p). apply int_arg_str_of_Z. by rewrite args_get_app_PNone.
  - by apply strip_place_nav_link.
Qed.

Lemma page_req_start_fresh inc u :
  fresh_url u = true -> strip_place u = Ok (PStr u) -> page_req inc u 0 (request_of_url u).
Proof.
  intros (_ & _ & _ & _ & Hs & He)%fresh_url_spec Hst.
  split; [|split]; simpl; [by apply int_arg_absent | eexists; by apply int_arg_absent | done].
Qed.

(** *** The abstract page machine *)

Lemma spec_start_app inc ls1 ls2 s :
  spec_start inc (ls1 ++ ls2) s = spec_start inc ls2 (spec_start inc ls1 s).
Proof. apply foldl_app. Qed.

Lemma spec_start_next inc n s : spec_start inc (replicate n NextLink) s = s + Z.of_nat n * inc.
Proof.
  revert s. induction n as [|n IH]; intros s; [cbn; lia|].
  cbn [replicate]. rewrite spec_start_cons, IH. simpl. lia.
Qed.

Lemma spec_start_prev inc m k :
  0 <= inc -> (m <= k)%nat -> spec_start inc (replicate m PrevLink) (Z.of_nat k * inc) =
  Z.of_nat (k - m) * inc.
Proof.
  intros Hinc. revert k. induction m as [|m IH]; intros k Hk; [cbn; by rewrite Nat.sub_0_r|].
  cbn [replicate]. rewrite spec_start_cons. simpl. destruct k as [|k]; [lia|].
  rewrite Z.max_l by nia. replace (Z.of_nat (S k) * inc - inc) with (Z.of_nat k * inc) by lia.
  apply IH. lia.
Qed.

(** With a non-negative page size the offset stays on a page boundary. *)
Lemma spec_start_page inc ls k :
  0 <= inc -> exists k', spec_start inc ls (Z.of_nat k * inc) = Z.of_nat k' * inc.
Proof.
  intros Hinc. revert k. induction ls as [|[] ls IH]; intros k; [by exists k| |];
    rewrite spec_start_cons; cbn [link_step].
  - replace (Z.of_nat k * inc + inc) with (Z.of_nat (S k) * inc) by lia. apply IH.
  - destruct k as [|k].
    + rewrite Z.max_r by lia. apply (IH 0%nat).
    + rewrite Z.max_l by nia. replace (Z.of_nat (S k) * inc - inc) with (Z.of_nat k * inc) by lia.
      apply IH.
Qed.

Section Browse.
Context (ctrl : request -> pyres response) (inc : Z) (u : string).
Hypothesis Hpag : paginates ctrl inc.

(** From a fresh start URL, the pages the links reach are the pages of
    the abstract machine. *)
Lemma browse_fresh ls :
  fresh_url u = true ->
  forall s req, page_req inc u s req ->
  exists r, browse ctrl ls req = Some r /\ page_req inc u (spec_start inc ls s) r.
Proof.
  intros Hf. induction ls as [|l ls IH]; intros s req Hreq; [by exists req|].
  destruct Hreq as (Hs & [e He] & Hn).
  rewrite (browse_cons _ _ _ _ _ _ _ _ Hpag Hs He Hn), spec_start_cons, <- (link_place_bottom l s e).
  apply IH, page_req_link_fresh, Hf.
Qed.

(** From a start URL that names [start] and [end] itself, every link
    leads back to the same offsets. *)
Lemma browse_stuck ls s0 e0 :
  u <> ""%string -> str_has newline u = false -> "?"%char ∈ list_ascii_of_string u ->
  "#"%char ∉ list_ascii_of_string u ->
  args_get (url_args u) "start" <> PNone -> int_arg (url_args u) "start" 0 = Ok s0 ->
  args_get (url_args u) "end" <> PNone -> int_arg (url_args u) "end" inc = Ok e0 ->
  forall req, page_req inc u s0 req -> exists r, browse ctrl ls req = Some r /\ page_req inc u s0 r.
Proof.
  intros Hu Hn Hq Hh Hs Hs0 He He0.
  induction ls as [|l ls IH]; intros req Hreq; [by exists req|].
  destruct Hreq as (Hrs & [e Hre] & Hrn).
  rewrite (browse_cons _ _ _ _ _ _ _ _ Hpag Hrs Hre Hrn). apply IH.
  unfold page_req; simpl. rewrite url_args_link, !int_arg_app_present by done.
  split; [done|]. split; [by exists e0|]. by apply strip_place_nav_link.
Qed.

End Browse.

Lemma es_returning_hits total sources :
  sources <> [] -> @es_always_hits (es_returning (es_response total sources)).
Proof. intros Hne q idx. by eexists _, _. Qed.

Section Controllers.
Context `{Config} `{Elastic}.

Lemma search_flights_paginates :
  es_always_hits -> paginates (@search_flights _ _ report_flask_helpers) RECORDS_PER_PAGE.
Proof.
  intros Hes req start end_ path Hs He Hn.
  destruct (Hes (flights_query_spec (args req) start) "agile_data_science") as (total & sources & Hq & Hne).
  rewrite (search_flights_unfold req start end_ (PStr path)) by done.
  rewrite Hq, pybind_Ok, process_search_es_response by done.
  by eexists _, _.
Qed.

Lemma search_airplanes_paginates :
  es_always_hits -> paginates (@search_airplanes _ _ report_flask_helpers) AIRPLANE_RECORDS_PER_PAGE.
Proof.
  intros Hes req start end_ path Hs He Hn.
  destruct (Hes (airplanes_query_spec (args req) start) "agile_data_science") as (total & sources & Hq & Hne).
  rewrite (search_airplanes_unfold req start end_ (PStr path)) by done.
  rewrite Hq, pybind_Ok. simpl sh_process_search. rewrite process_search_es_response by done.
  by eexists _, _.
Qed.

End Controllers.

(** ** Properties *)

Section Properties.
Context `{Config} `{Elastic}.

(** C23. Refinement: from a start URL whose query string names neither
    [start] nor [end] (and which [strip_place] leaves as it is), following
    any sequence of "Next" and "Previous" links of the [search_flights]
    pages never fails, every page keeps the start URL as its navigation
    path, and the offset each request asks for is the one the abstract
    page machine computes: one page on for "Next", one page back but not
    below 0 for "Previous". *)
Theorem search_flights_browse (u : string) (ls : list link) :
  es_always_hits -> fresh_url u = true -> strip_place u = Ok (PStr u) ->
  exists r, browse (@search_flights _ _ report_flask_helpers) ls (request_of_url u) = Some r /\
    int_arg (args r) "start" 0 = Ok (spec_start RECORDS_PER_PAGE ls 0) /\
    strip_place (url r) = Ok (PStr u).
Proof.
  intros Hes Hf Hst.
  destruct (browse_fresh _ _ u (search_flights_paginates Hes) ls Hf 0 _ (page_req_start_fresh _ _ Hf Hst))
    as (r & Hr & Hs & _ & Hn).
  eauto.
Qed.

(** C24. The same refinement for the airplane search pages, whose page
    size is [AIRPLANE_RECORDS_PER_PAGE]. *)
Theorem search_airplanes_browse (u : string) (ls : list link) :
  es_always_hits -> fresh_url u = true -> strip_place u = Ok (PStr u) ->
  exists r, browse (@search_airplanes _ _ report_flask_helpers) ls (request_of_url u) = Some r /\
    int_arg (args r) "start" 0 = Ok (spec_start AIRPLANE_RECORDS_PER_PAGE ls 0) /\
    strip_place (url r) = Ok (PStr u).
Proof.
  intros Hes Hf Hst.
  destruct (browse_fresh _ _ u (search_airplanes_paginates Hes) ls Hf 0 _ (page_req_start_fresh _ _ Hf Hst))
    as (r & Hr & Hs & _ & Hn).
  eauto.
Qed.

(** C25. Invariant: with a non-negative page size, along any sequence
    of links from a fresh start URL the offset [search_flights] reads is a
    page boundary: a non-negative multiple of the page size. *)
Theorem search_flights_browse_on_page (u : string) (ls : list link) :
  es_always_hits -> fresh_url u = true -> strip_place u = Ok (PStr u) -> 0 <= RECORDS_PER_PAGE ->
  exists r k, browse (@search_flights _ _ report_flask_helpers) ls (request_of_url u) = Some r /\
    int_arg (args r) "start" 0 = Ok (Z.of_nat k * RECORDS_PER_PAGE).
Proof.
  intros Hes Hf Hst Hinc.
  destruct (browse_fresh _ _ u (search_flights_paginates Hes) ls Hf 0 _ (page_req_start_fresh _ _ Hf Hst))
    as (r & Hr & Hs & _).
  destruct (spec_start_page RECORDS_PER_PAGE ls 0 Hinc) as [k Hk]. simpl in Hk.
  exists r, k. by rewrite <- Hk.
Qed.

(** C26. Liveness: every page is reached.  From a fresh start URL, [n]
    clicks on "Next" lead to the page at offset [n] times the page size,
    and [m <= n] clicks on "Previous" after them lead back to page
    [n - m]. *)
Theorem search_flights_reaches_page (u : string) (n m : nat) :
  es_always_hits -> fresh_url u = true -> strip_place u = Ok (PStr u) -> 0 <= RECORDS_PER_PAGE ->
  (m <= n)%nat ->
  exists r, browse (@search_flights _ _ report_flask_helpers)
              (replicate n NextLink ++ replicate m PrevLink) (request_of_url u) = Some r /\
    int_arg (args r) "start" 0 = Ok (Z.of_nat (n - m) * RECORDS_PER_PAGE).
Proof.
  intros Hes Hf Hst Hinc Hmn.
  destruct (browse_fresh _ _ u (search_flights_paginates Hes) (replicate n NextLink ++ replicate m PrevLink)
              Hf 0 _ (page_req_start_fresh _ _ Hf Hst)) as (r & Hr & Hs & _).
  exists r. split; [done|]. rewrite Hs, spec_start_app, spec_start_next, Z.add_0_l, spec_start_prev; done.
Qed.

(** C27. The links do not move off a page whose URL names [start] and
    [end] as its first parameters ([?start=30&end=45&...]): [strip_place]
    only removes a ["&start="] parameter, so the links keep the old
    parameters in front of the new ones, and [request.args.get] returns
    the first.  Every page reached by any sequence of links asks for the
    offset of the start URL. *)
Theorem search_flights_pagination_stuck (u : string) (s0 e0 : Z) (ls : list link) :
  es_always_hits -> u <> ""%string -> str_has newline u = false ->
  "?"%char ∈ list_ascii_of_string u -> "#"%char ∉ list_ascii_of_string u ->
  strip_place u = Ok (PStr u) ->
  args_get (url_args u) "start" <> PNone -> int_arg (url_args u) "start" 0 = Ok s0 ->
  args_get (url_args u) "end" <> PNone -> int_arg (url_args u) "end" RECORDS_PER_PAGE = Ok e0 ->
  exists r, browse (@search_flights _ _ report_flask_helpers) ls (request_of_url u) = Some r /\
    int_arg (args r) "start" 0 = Ok s0.
Proof.
  intros Hes Hu Hn Hq Hh Hst Hs Hs0 He He0.
  destruct (browse_stuck _ _ u (search_flights_paginates Hes) ls s0 e0 Hu Hn Hq Hh Hs Hs0 He He0
              (request_of_url u)) as (r & Hr & Hrs & _); [by split; [|split; [exists e0|]]|].
  eauto.
Qed.

End Properties.

(** ** Witnesses *)

Theorem search_flights_browse_witness :
  exists r, browse (@search_flights example_config (es_returning (es_response (PInt 2) [PStr "r1"]))
                      report_flask_helpers)
              [NextLink; NextLink; PrevLink]
              (request_of_url "http://localhost:5000/flights/search?Carrier=AA&Origin=ATL") = Some r /\
    int_arg (args r) "start" 0 = Ok 15 /\
    strip_place (url r) = Ok (PStr "http://localhost:5000/flights/search?Carrier=AA&Origin=ATL").
Proof.
  apply (@search_flights_browse example_config _ _ [NextLink; NextLink; PrevLink]).
  - apply es_returning_hits. discriminate.
  - vm_compute. reflexivity.
  - vm_compute. reflexivity.
Defined.

Theorem search_airplanes_browse_witness :
  exists r, browse (@search_airplanes example_config (es_returning (es_response (PInt 1) [PStr "N123"]))
                      report_flask_helpers)
              [NextLink; PrevLink; PrevLink]
              (request_of_url "http://localhost:5000/airplanes?Manufacturer=BOEING") = Some r /\
    int_arg (args r) "start" 0 = Ok 0 /\
    strip_place (url r) = Ok (PStr "http://localhost:5000/airplanes?Manufacturer=BOEING").
Proof.
  apply (@search_airplanes_browse example_config _ _ [NextLink; PrevLink; PrevLink]).
  - apply es_returning_hits. discriminate.
  - vm_compute. reflexivity.
  - vm_compute. reflexivity.
Defined.

Theorem search_flights_browse_on_page_witness :
  exists r k, browse (@search_flights example_config (es_returning (es_response (PInt 2) [PStr "r1"]))
                        report_flask_helpers)
                [PrevLink; NextLink; NextLink]
                (request_of_url "http://localhost:5000/flights/search?Dest=SFO") = Some r /\
    int_arg (args r) "start" 0 = Ok (Z.of_nat k * 15).
Proof.
  apply (@search_flights_browse_on_page example_config _ _ [PrevLink; NextLink; NextLink]).
  - apply es_returning_hits. discriminate.
  - vm_compute. reflexivity.
  - vm_compute. reflexivity.
  - simpl. lia.
Defined.

Theorem search_flights_reaches_page_witness :
  exists r, browse (@search_flights example_config (es_returning (es_response (PInt 2) [PStr "r1"]))
                      report_flask_helpers)
              (replicate 3 NextLink ++ replicate 1 PrevLink)
              (request_of_url "http://localhost:5000/flights/search?Carrier=AA") = Some r /\
    int_arg (args r) "start" 0 = Ok 30.
Proof.
  apply (@search_flights_reaches_page example_config _ _ 3 1).
  - apply es_returning_hits. discriminate.
  - vm_compute. reflexivity.
  - vm_compute. reflexivity.
  - simpl. lia.
  - lia.
Defined.

Theorem search_flights_pagination_stuck_witness :
  exists r, browse (@search_flights example_config (es_returning (es_response (PInt 2) [PStr "r1"]))
                      report_flask_helpers)
              [NextLink; NextLink]
              (request_of_url "http://localhost:5000/flights/search?start=30&end=45&Carrier=AA") = Some r /\
    int_arg (args r) "start" 0 = Ok 30.
Proof.
  apply (@search_flights_pagination_stuck example_config _ _ 30 45).
  - apply es_returning_hits. discriminate.
  - discriminate.
  - vm_compute. reflexivity.
  - vm_decide.
  - vm_decide.
  - vm_compute. reflexivity.
  - vm_compute. discriminate.
  - vm_compute. reflexivity.
  - vm_compute. discriminate.
  - vm_compute. reflexivity.
Defined.

End Pagination.
