(* ===== verification/Mongo.v ===== *)
(** * Mongo: the MongoDB lookups the controllers perform

    The controllers of src/ch06/web/report_flask.py and
    src/ch02/web/test_flask_*.py call pymongo's [find_one(filter)] and
    [find(filter, sort=[(field, 1), ...])] on collections of the
    [agile_data_science] database.  This file models the database those
    calls read: each collection is its list of documents in natural
    (insertion) order, and every stored document has an ObjectId [_id]
    (MongoDB adds one on insertion).

    Filters are the equality filters the code writes ([{field: value}]):
    a field matches a value when it equals it, when it is an array holding
    it, or, for the value [None], when the field is missing or null.
    [find] sorts by the listed keys in BSON order: by type (null, numbers,
    strings, embedded documents, arrays, ObjectId, booleans) and then by
    value; arrays element by element and embedded documents field by
    field (type of the value, name, value), a prefix first.  An array
    used as a sort key sorts by its least element in an ascending sort
    and by its greatest in a descending one, and an empty array sorts
    before null and a missing field.  [bson_compare] is proved a strict
    total order and [sort_compare] a total preorder, so the result of
    [find] is sorted in the strong sense (theorem [find_sorted]).
    MongoDB leaves the order of equal keys unspecified; the model keeps
    natural order, and the theorems proved about sorted results hold for
    any order of ties.  Connection
    failures of the client are not modelled. *)

From Stdlib Require Import ZArith Ascii String Lia Sorted Permutation.
From Stdlib Require OrderedTypeEx.
From stdpp Require Import base list strings sets.
From S2P Require Import Prelude PyValue.

Module Mongo.

(** The collections of [client.agile_data_science]. *)
Abbreviation database := (list (string * list pydict)).

(** A collection that was never created reads as empty. *)
Fixpoint collection (db : database) (name : string) : list pydict :=
  match db with
  | [] => []
  | (n, docs) :: db' => if decide (name = n) then docs else collection db' name
  end.

(** ** Equality filters *)

Definition value_matches (field : option pyval) (v : pyval) : bool :=
  match field with
  | None => bool_decide (v = PNone)
  | Some (PList l) => bool_decide (PList l = v) || bool_decide (v ∈ l)
  | Some x => bool_decide (x = v)
  end.

Definition doc_matches (filter : pydict) (d : pydict) : bool :=
  forallb (fun kv => value_matches (dict_lookup kv.1 d) kv.2) filter.

(** [coll.find_one(filter)]: the first match in natural order, or [None]. *)
Definition find_one (db : database) (coll : string) (filter : pydict) : pyval :=
  match List.find (doc_matches filter) (collection db coll) with
  | Some d => PDict d
  | None => PNone
  end.

(** ** Sorting *)

Definition bson_rank (v : pyval) : nat :=
  match v with
  | PNone => 1 | PInt _ => 2 | PStr _ => 3 | PDict _ => 4
  | PList _ => 5 | PObjectId _ => 7 | PBool _ => 8
  end.

(** Arrays element by element, a shorter array first. *)
Fixpoint lex_list (cmp : pyval -> pyval -> comparison) (l1 l2 : list pyval) : comparison :=
  match l1, l2 with
  | [], [] => Eq
  | [], _ :: _ => Lt
  | _ :: _, [] => Gt
  | x :: l1', y :: l2' => match cmp x y with Eq => lex_list cmp l1' l2' | c => c end
  end.

(** Embedded documents pair by pair: the type of the values, then the
    field names, then the values; a shorter document first. *)
Fixpoint lex_dict (cmp : pyval -> pyval -> comparison) (d1 d2 : list (string * pyval)) : comparison :=
  match d1, d2 with
  | [], [] => Eq
  | [], _ :: _ => Lt
  | _ :: _, [] => Gt
  | (k1, x) :: d1', (k2, y) :: d2' =>
      match Nat.compare (bson_rank x) (bson_rank y) with
      | Eq =>
          match String.compare k1 k2 with
          | Eq => match cmp x y with Eq => lex_dict cmp d1' d2' | c => c end
          | c => c
          end
      | c => c
      end
  end.

(** MongoDB's comparison of two BSON values: by type, then by value. *)
Fixpoint bson_compare (a b : pyval) {struct a} : comparison :=
  match a, b with
  | PInt x, PInt y => Z.compare x y
  | PStr x, PStr y => String.compare x y
  | PObjectId x, PObjectId y => String.compare x y
  | PBool x, PBool y => Bool.compare x y
  | PList l1, PList l2 => lex_list bson_compare l1 l2
  | PDict d1, PDict d2 => lex_dict bson_compare d1 d2
  | _, _ => Nat.compare (bson_rank a) (bson_rank b)
  end.

(** The value a sort key reads: a missing field sorts as null. *)
Definition sort_field (d : pydict) (k : string) : pyval :=
  match dict_lookup k d with Some v => v | None => PNone end.

(** The least element of [x :: l] ([desc = false]) or the greatest. *)
Fixpoint extreme (desc : bool) (x : pyval) (l : list pyval) : pyval :=
  match l with
  | [] => x
  | y :: l' =>
      extreme desc (if bool_decide (bson_compare y x = if desc then Gt else Lt) then y else x) l'
  end.

(** An array sort key sorts by its least element in an ascending sort and
    by its greatest in a descending one; an empty array sorts before
    null and before a missing field ([None]). *)
Definition sort_key (desc : bool) (v : pyval) : option pyval :=
  match v with
  | PList [] => None
  | PList (x :: l) => Some (extreme desc x l)
  | _ => Some v
  end.

Definition key_compare (k1 k2 : option pyval) : comparison :=
  match k1, k2 with
  | None, None => Eq
  | None, Some _ => Lt
  | Some _, None => Gt
  | Some a, Some b => bson_compare a b
  end.

(** [sort=[(k1, dir1), (k2, dir2), ...]]: compare on [k1], then [k2], ...;
    a negative direction is descending. *)
Fixpoint sort_compare (keys : list (string * Z)) (d1 d2 : pydict) : comparison :=
  match keys with
  | [] => Eq
  | (k, dir) :: keys' =>
      let desc := Z.ltb dir 0 in
      let c := key_compare (sort_key desc (sort_field d1 k)) (sort_key desc (sort_field d2 k)) in
      let c := if desc then CompOpp c else c in
      match c with
      | Eq => sort_compare keys' d1 d2
      | _ => c
      end
  end.

Fixpoint insert_by {A} (cmp : A -> A -> comparison) (x : A) (l : list A) : list A :=
  match l with
  | [] => [x]
  | y :: l' => match cmp x y with Gt => y :: insert_by cmp x l' | _ => x :: l end
  end.

Fixpoint sort_by {A} (cmp : A -> A -> comparison) (l : list A) : list A :=
  match l with
  | [] => []
  | x :: l' => insert_by cmp x (sort_by cmp l')
  end.

(** [coll.find(filter, sort=keys)], read to the end. *)
Definition find (db : database) (coll : string) (filter : pydict)
    (keys : list (string * Z)) : list pydict :=
  sort_by (sort_compare keys) (List.filter (doc_matches filter) (collection db coll)).

(** ** Well-formed databases *)

(** Every stored document starts with an ObjectId [_id]. *)
Definition doc_wf (d : pydict) : Prop := exists oid d', d = ("_id", PObjectId oid) :: d'.

Definition db_wf (db : database) : Prop :=
  forall name d, d ∈ collection db name -> doc_wf d.

(** ** Lemmas *)

Lemma string_compare_trans s1 s2 s3 :
  (s1 ?= s2)%string = Lt -> (s2 ?= s3)%string = Lt -> (s1 ?= s3)%string = Lt.
Proof.
  intros H1 H2. apply OrderedTypeEx.String_as_OT.cmp_lt.
  apply OrderedTypeEx.String_as_OT.cmp_lt in H1, H2.
  eapply OrderedTypeEx.String_as_OT.lt_trans; eassumption.
Qed.

Lemma string_compare_eq s1 s2 : (s1 ?= s2)%string = Eq <-> s1 = s2.
Proof. exact (OrderedTypeEx.String_as_OT.cmp_eq s1 s2). Qed.

(** A comparison chained lexicographically is [Lt] when its first
    component is, or when that is [Eq] and the rest is [Lt]. *)
Lemma chain_Lt (c r : comparison) :
  match c with Eq => r | Lt => Lt | Gt => Gt end = Lt <-> c = Lt \/ (c = Eq /\ r = Lt).
Proof. destruct c; naive_solver. Qed.

Lemma chain_Lt_self (c r : comparison) :
  match c with Eq => r | Lt => c | Gt => c end = Lt <-> c = Lt \/ (c = Eq /\ r = Lt).
Proof. destruct c; naive_solver. Qed.

(** One lexicographic level: conclude [Lt] or, when both levels are
    equal, descend to the next. *)
Ltac lex_step :=
  repeat first
    [ solve [left; first [lia | done | eapply string_compare_trans; eassumption]]
    | (right; split; [first [lia | done] |]) ].

Lemma lex_list_eq cmp l1 :
  Forall (fun x => forall y, cmp x y = Eq -> x = y) l1 ->
  forall l2, lex_list cmp l1 l2 = Eq -> l1 = l2.
Proof.
  induction 1 as [|x l1 Hx _ IH]; intros [|y l2]; simpl; try done.
  destruct (cmp x y) eqn:E; try done. intros H. by rewrite (Hx _ E), (IH _ H).
Qed.

Lemma lex_dict_eq cmp d1 :
  Forall (fun kv => forall y, cmp kv.2 y = Eq -> kv.2 = y) d1 ->
  forall d2, lex_dict cmp d1 d2 = Eq -> d1 = d2.
Proof.
  induction 1 as [|[k1 x] d1 Hx _ IH]; intros [|[k2 y] d2]; simpl in *; try done.
  destruct (_ ?= _)%nat; try done. destruct (k1 ?= k2)%string eqn:Ek; try done.
  destruct (cmp x y) eqn:E; try done. intros H.
  apply string_compare_eq in Ek. by rewrite Ek, (Hx _ E), (IH _ H).
Qed.

Section Lex.
Context (cmp : pyval -> pyval -> comparison).
Hypothesis cmp_eq : forall x y, cmp x y = Eq <-> x = y.

Lemma lex_list_trans l1 :
  Forall (fun x => forall y z, cmp x y = Lt -> cmp y z = Lt -> cmp x z = Lt) l1 ->
  forall l2 l3, lex_list cmp l1 l2 = Lt -> lex_list cmp l2 l3 = Lt -> lex_list cmp l1 l3 = Lt.
Proof.
  induction 1 as [|x l1 Hx _ IH]; intros [|y l2] [|z l3]; simpl; try done.
  rewrite !chain_Lt, !cmp_eq. intros H1 H2.
  destruct H1 as [H1 | [-> H1]], H2 as [H2 | [-> H2]]; eauto.
Qed.

Lemma lex_dict_trans d1 :
  Forall (fun kv => forall y z, cmp kv.2 y = Lt -> cmp y z = Lt -> cmp kv.2 z = Lt) d1 ->
  forall d2 d3, lex_dict cmp d1 d2 = Lt -> lex_dict cmp d2 d3 = Lt -> lex_dict cmp d1 d3 = Lt.
Proof.
  induction 1 as [|[k1 x] d1 Hx _ IH]; intros [|[k2 y] d2] [|[k3 z] d3]; simpl in *; try done.
  rewrite !chain_Lt, !Nat.compare_lt_iff, !Nat.compare_eq_iff, !string_compare_eq, !cmp_eq.
  intros [Hr1|(Hr1 & [Hk1|(-> & [Hv1|(-> & Ht1)])])]
    [Hr2|(Hr2 & [Hk2|(-> & [Hv2|(-> & Ht2)])])]; lex_step; eauto.
Qed.

End Lex.

Lemma lex_list_antisym cmp l1 :
  Forall (fun x => forall y, cmp y x = CompOpp (cmp x y)) l1 ->
  forall l2, lex_list cmp l2 l1 = CompOpp (lex_list cmp l1 l2).
Proof.
  induction 1 as [|x l1 Hx _ IH]; intros [|y l2]; simpl; try done.
  rewrite Hx, IH. by destruct (cmp x y).
Qed.

Lemma lex_dict_antisym cmp d1 :
  Forall (fun kv => forall y, cmp y kv.2 = CompOpp (cmp kv.2 y)) d1 ->
  forall d2, lex_dict cmp d2 d1 = CompOpp (lex_dict cmp d1 d2).
Proof.
  induction 1 as [|[k1 x] d1 Hx _ IH]; intros [|[k2 y] d2]; simpl in *; try done.
  rewrite (Nat.compare_antisym (bson_rank x)), Hx, IH.
  pose proof (String.compare_antisym k1 k2) as Hk.
  by destruct (bson_rank x ?= bson_rank y)%nat, (k1 ?= k2)%string, (k2 ?= k1)%string, (cmp x y).
Qed.

Lemma bson_compare_antisym a b : bson_compare b a = CompOpp (bson_compare a b).
Proof.
  revert b. induction a as [| x | x | x | x | l IH | d IH] using pyval_ind';
    intros [| y | y | y | y | l2 | d2]; simpl; try reflexivity;
    try apply Z.compare_antisym; try apply String.compare_antisym.
  - by destruct x, y.
  - by apply lex_list_antisym.
  - by apply lex_dict_antisym.
Qed.

Lemma bson_compare_refl a : bson_compare a a = Eq.
Proof. pose proof (bson_compare_antisym a a). by destruct (bson_compare a a). Qed.

Lemma bson_compare_Gt a b : bson_compare a b = Gt <-> bson_compare b a = Lt.
Proof. rewrite (bson_compare_antisym a b). by destruct (bson_compare a b). Qed.

Lemma bson_compare_eq a b : bson_compare a b = Eq <-> a = b.
Proof.
  split; [|intros ->; apply bson_compare_refl]. revert b.
  induction a as [| x | x | x | x | l IH | d IH] using pyval_ind';
    intros [| y | y | y | l2 | d2 | y] H; simpl in H; try discriminate; f_equal.
  - by destruct x, y.
  - by apply Z.compare_eq.
  - by apply string_compare_eq.
  - by apply string_compare_eq.
  - exact (lex_list_eq bson_compare l IH l2 H).
  - exact (lex_dict_eq bson_compare d IH d2 H).
Qed.

Lemma bson_compare_trans a b c :
  bson_compare a b = Lt -> bson_compare b c = Lt -> bson_compare a c = Lt.
Proof.
  revert b c. induction a as [| x | x | x | x | l IH | d IH] using pyval_ind';
    intros b c; destruct b, c; intros H1 H2; simpl in *; try discriminate; try done;
    first [ rewrite Z.compare_lt_iff in *; lia
          | eapply string_compare_trans; eassumption
          | eapply lex_list_trans; [exact bson_compare_eq | exact IH | eassumption..]
          | eapply lex_dict_trans; [exact bson_compare_eq | exact IH | eassumption..]
          | repeat match goal with b : bool |- _ => destruct b end; done ].
Qed.

(** "Not above" (or "not below") is transitive. *)
Lemma bson_compare_not_trans o a b c :
  o <> Eq -> bson_compare a b <> o -> bson_compare b c <> o -> bson_compare a c <> o.
Proof.
  intros Ho H1 H2 H3.
  destruct (bson_compare a b) eqn:E1; [apply bson_compare_eq in E1; by subst|..];
    destruct (bson_compare b c) eqn:E2; try (apply bson_compare_eq in E2; by subst);
    destruct o; try congruence;
    first [ pose proof (bson_compare_trans _ _ _ E1 E2); congruence
          | apply bson_compare_Gt in E1, E2; apply bson_compare_Gt in H3;
            pose proof (bson_compare_trans _ _ _ E2 E1); congruence ].
Qed.

(** [extreme] picks an element of the array that no element is below
    ([desc = true]) or above ([desc = false]). *)
Lemma extreme_spec (desc : bool) (x : pyval) (l : list pyval) :
  let o := if desc then Gt else Lt in
  extreme desc x l ∈ x :: l /\ Forall (fun y => bson_compare (extreme desc x l) y <> CompOpp o) (x :: l).
Proof.
  intros o. assert (o <> CompOpp o /\ CompOpp o <> Eq) as [Ho Ho'] by (subst o; by destruct desc).
  revert x. induction l as [|y l IH]; intros x; cbn [extreme].
  { split; [set_solver|]. repeat constructor. by rewrite bson_compare_refl. }
  fold o. case_bool_decide as Hb; [destruct (IH y) as [Hin Hall] | destruct (IH x) as [Hin Hall]];
    rewrite Forall_cons in Hall; destruct Hall as [Hm Hl]; (split; [set_solver|]); rewrite !Forall_cons.
  - split; [|done]. apply (bson_compare_not_trans _ _ y); [done | done | by rewrite Hb].
  - split; [done|]. split; [|done]. apply (bson_compare_not_trans _ _ x); [done | done |].
    rewrite bson_compare_antisym. by intros ?%CompOpp_inj.
Qed.

Lemma key_compare_antisym k1 k2 : key_compare k2 k1 = CompOpp (key_compare k1 k2).
Proof. destruct k1, k2; simpl; [apply bson_compare_antisym | done..]. Qed.

Lemma sort_compare_antisym keys d1 d2 :
  sort_compare keys d2 d1 = CompOpp (sort_compare keys d1 d2).
Proof.
  induction keys as [|[k dir] keys IH]; simpl; [done|].
  rewrite key_compare_antisym.
  destruct (key_compare _ _), (dir <? 0)%Z; simpl; auto.
Qed.

Lemma key_compare_eq k1 k2 : key_compare k1 k2 = Eq <-> k1 = k2.
Proof. destruct k1, k2; simpl; rewrite ?bson_compare_eq; naive_solver. Qed.

Lemma key_compare_Gt k1 k2 : key_compare k1 k2 = Gt <-> key_compare k2 k1 = Lt.
Proof. rewrite (key_compare_antisym k1 k2). by destruct (key_compare k1 k2). Qed.

Lemma key_compare_trans k1 k2 k3 :
  key_compare k1 k2 = Lt -> key_compare k2 k3 = Lt -> key_compare k1 k3 = Lt.
Proof. destruct k1, k2, k3; simpl; try done. apply bson_compare_trans. Qed.

(** Documents whose sort keys all compare equal are interchangeable. *)
Lemma sort_compare_Eq keys d1 d2 :
  sort_compare keys d1 d2 = Eq -> forall d3, sort_compare keys d1 d3 = sort_compare keys d2 d3.
Proof.
  induction keys as [|[k dir] keys IH]; simpl; [done|]. intros H d3.
  destruct (key_compare _ _) eqn:E; destruct (dir <? 0)%Z; simpl in H; try discriminate;
    apply key_compare_eq in E; by rewrite E, (IH H d3).
Qed.

Lemma sort_compare_trans keys d1 d2 d3 :
  sort_compare keys d1 d2 = Lt -> sort_compare keys d2 d3 = Lt -> sort_compare keys d1 d3 = Lt.
Proof.
  induction keys as [|[k dir] keys IH]; simpl; [done|].
  destruct (dir <? 0)%Z; cbv iota; rewrite !chain_Lt_self, ?CompOpp_iff; simpl; rewrite ?key_compare_Gt, !key_compare_eq;
    intros [H1|[H1 H1']] [H2|[H2 H2']];
    first [ left; by eapply key_compare_trans | left; congruence | right; split; [congruence | eauto] ].
Qed.

Lemma sort_compare_le_trans keys d1 d2 d3 :
  sort_compare keys d1 d2 <> Gt -> sort_compare keys d2 d3 <> Gt -> sort_compare keys d1 d3 <> Gt.
Proof.
  intros H1 H2. destruct (sort_compare keys d1 d2) eqn:E1; [by rewrite (sort_compare_Eq _ _ _ E1) | | done].
  destruct (sort_compare keys d2 d3) eqn:E2; [| by rewrite (sort_compare_trans _ _ _ _ E1 E2) | done].
  rewrite (sort_compare_antisym keys d3 d1), <- (sort_compare_Eq _ _ _ E2 d1), sort_compare_antisym, E1.
  done.
Qed.

Lemma insert_by_perm {A} (cmp : A -> A -> comparison) x l :
  Permutation (insert_by cmp x l) (x :: l).
Proof.
  induction l as [|y l IH]; simpl; [done|].
  destruct (cmp x y); try done. rewrite IH. constructor.
Qed.

Lemma sort_by_perm {A} (cmp : A -> A -> comparison) l : Permutation (sort_by cmp l) l.
Proof.
  induction l as [|x l IH]; simpl; [done|]. by rewrite insert_by_perm, IH.
Qed.

Section Sorting.
Context {A : Type} (cmp : A -> A -> comparison).
Hypothesis cmp_antisym : forall a b, cmp b a = CompOpp (cmp a b).

Definition cmp_le (a b : A) : Prop := cmp a b <> Gt.

Lemma insert_by_sorted x l :
  Sorted cmp_le l -> Sorted cmp_le (insert_by cmp x l).
Proof.
  induction 1 as [|y l Hl IH Hhd]; simpl; [repeat constructor|].
  destruct (cmp x y) eqn:Hxy.
  - constructor; [by constructor|]. constructor. unfold cmp_le. by rewrite Hxy.
  - constructor; [by constructor|]. constructor. unfold cmp_le. by rewrite Hxy.
  - constructor; [done|].
    assert (Hyx : cmp_le y x) by (unfold cmp_le; rewrite cmp_antisym, Hxy; done).
    destruct l as [|z l]; simpl; [by constructor|].
    inversion Hhd as [|? ? Hyz]; subst.
    destruct (cmp x z); by constructor.
Qed.

Lemma sort_by_sorted l : Sorted cmp_le (sort_by cmp l).
Proof. induction l; simpl; [constructor | by apply insert_by_sorted]. Qed.

End Sorting.

Lemma find_one_cases db coll filter :
  (exists d, find_one db coll filter = PDict d /\
     List.find (doc_matches filter) (collection db coll) = Some d) \/
  (find_one db coll filter = PNone /\
     List.find (doc_matches filter) (collection db coll) = None).
Proof.
  unfold find_one. destruct (List.find _ _) eqn:E; [left; eauto | right; done].
Qed.

Lemma elem_of_find db coll filter keys d :
  d ∈ find db coll filter keys <-> d ∈ collection db coll /\ doc_matches filter d = true.
Proof.
  unfold find. rewrite (sort_by_perm _ _). rewrite !list_elem_of_In, filter_In. done.
Qed.

(** ** Properties of [find] *)

(** [coll.find(filter, sort=keys)] returns its documents in sort
    order for every list of sort keys, ascending or descending, over
    every BSON value (embedded documents and arrays included): no
    document of the result sorts after any document that follows it. *)
Lemma find_sorted (db : database) (coll : string) (filter : pydict) (keys : list (string * Z)) :
  StronglySorted (fun d1 d2 => sort_compare keys d1 d2 <> Gt) (find db coll filter keys).
Proof.
  apply Sorted_StronglySorted; [intros d1 d2 d3; apply sort_compare_le_trans|].
  exact (sort_by_sorted _ (sort_compare_antisym keys) _).
Qed.

(** An array used as a sort key sorts by one of its elements: a
    document whose key field is the array [x :: l] sorts like a document
    whose field holds only [m], an element of the array that no element
    is below in an ascending sort, and that no element is above in a
    descending one. *)
Lemma sort_compare_array_key (k : string) (dir : Z) (d1 d2 : pydict) (x : pyval) (l : list pyval) :
  sort_field d1 k = PList (x :: l) ->
  exists m, m ∈ x :: l /\
    Forall (fun y => bson_compare m y <> if (dir <? 0)%Z then Lt else Gt) (x :: l) /\
    sort_compare [(k, dir)] d1 d2 = sort_compare [(k, dir)] [(k, PList [m])] d2.
Proof.
  intros Hk. destruct (extreme_spec (dir <? 0)%Z x l) as [Hin Hall].
  exists (extreme (dir <? 0)%Z x l). split; [done|]. split; [by destruct (dir <? 0)%Z|].
  assert (Hm : forall v, sort_field [(k, v)] k = v) by (intros v; unfold sort_field; simpl; by case_decide).
  unfold sort_compare. by rewrite Hk, Hm.
Qed.

End Mongo.
