(* ===== verification/Json.v ===== *)
(** * Json: [json.dumps] and [bson.json_util.dumps]

    Two controllers serialise MongoDB documents themselves:
    [airplane_manufacturers_chart] with the standard library's
    [json.dumps] and [total_flights_json] with pymongo's
    [bson.json_util.dumps(..., ensure_ascii=False)].  This file models
    both on [pyval]: CPython's encoder with its default separators
    [", "] and [": "], its string escapes (with [ensure_ascii] every
    character outside [' '..'~'] is written [\uXXXX]; without it only
    control characters, quotes and backslashes are escaped), and the
    [TypeError] it raises on a value it cannot serialise, here a BSON
    ObjectId.  [json_util] first replaces every ObjectId [o] by
    [{"$oid": o}], which is why it never raises. *)

From Stdlib Require Import ZArith Ascii String Lia.
From stdpp Require Import base list strings.
From S2P Require Import Prelude PyValue.

Module Json.

Definition hex_digit (n : nat) : ascii :=
  match n with
  | 0 => "0" | 1 => "1" | 2 => "2" | 3 => "3" | 4 => "4" | 5 => "5" | 6 => "6" | 7 => "7"
  | 8 => "8" | 9 => "9" | 10 => "a" | 11 => "b" | 12 => "c" | 13 => "d" | 14 => "e" | _ => "f"
  end%char.

(** ["\\u{0:04x}".format(ord(c))] for a character below 256. *)
Definition unicode_escape (c : ascii) : list ascii :=
  let n := nat_of_ascii c in
  ["\"; "u"; "0"; "0"; hex_digit (n / 16); hex_digit (n mod 16)]%char.

Definition escape_char (ensure_ascii : bool) (c : ascii) : list ascii :=
  let n := nat_of_ascii c in
  if bool_decide (c = "034")%char then ["\"; "034"]%char
  else if bool_decide (c = "\")%char then ["\"; "\"]%char
  else if bool_decide (n = 10) then ["\"; "n"]%char
  else if bool_decide (n = 13) then ["\"; "r"]%char
  else if bool_decide (n = 9) then ["\"; "t"]%char
  else if bool_decide (n = 8) then ["\"; "b"]%char
  else if bool_decide (n = 12) then ["\"; "f"]%char
  else if bool_decide (n < 32) then unicode_escape c
  else if ensure_ascii && bool_decide (126 < n) then unicode_escape c
  else [c].

Definition json_string (ensure_ascii : bool) (s : string) : list ascii :=
  ["034"%char] ++ List.concat (map (escape_char ensure_ascii) (list_ascii_of_string s)) ++ ["034"%char].

(** An int is printed by [int.__repr__], as [str] prints it. *)
Definition json_int (z : Z) : list ascii := list_ascii_of_string (str_of_Z z).

Fixpoint join (sep : list ascii) (items : list (list ascii)) : list ascii :=
  match items with
  | [] => []
  | [x] => x
  | x :: items' => x ++ sep ++ join sep items'
  end.

Fixpoint json_encode (ensure_ascii : bool) (v : pyval) : pyres (list ascii) :=
  match v with
  | PNone => Ok (list_ascii_of_string "null")
  | PBool true => Ok (list_ascii_of_string "true")
  | PBool false => Ok (list_ascii_of_string "false")
  | PInt z => Ok (json_int z)
  | PStr s => Ok (json_string ensure_ascii s)
  | PObjectId _ => Raise (TypeError "Object of type ObjectId is not JSON serializable")
  | PList l =>
      items <- pymapM (fun x => json_encode ensure_ascii x) l ;;
      Ok (["["%char] ++ join [","; " "]%char items ++ ["]"%char])
  | PDict d =>
      items <- pymapM (fun '(k, x) =>
                 e <- json_encode ensure_ascii x ;;
                 Ok (json_string ensure_ascii k ++ [":"; " "]%char ++ e)) d ;;
      Ok (["{"%char] ++ join [","; " "]%char items ++ ["}"%char])
  end.

(** [json.dumps(v, ensure_ascii=...)] *)
Definition json_dumps (ensure_ascii : bool) (v : pyval) : pyres string :=
  s <- json_encode ensure_ascii v ;; Ok (string_of_list_ascii s).

(** [bson.json_util._json_convert]: ObjectIds become [{"$oid": ...}]. *)
Fixpoint bson_to_json (v : pyval) : pyval :=
  match v with
  | PObjectId o => PDict [("$oid", PStr o)]
  | PList l => PList (map bson_to_json l)
  | PDict d => PDict (map (fun kv => (kv.1, bson_to_json kv.2)) d)
  | _ => v
  end.

(** [bson.json_util.dumps(v, ensure_ascii=...)] *)
Definition json_util_dumps (ensure_ascii : bool) (v : pyval) : pyres string :=
  json_dumps ensure_ascii (bson_to_json v).

(** The values [json.dumps] cannot serialise: those with an ObjectId at
    some depth. *)
Fixpoint has_objectid (v : pyval) : bool :=
  match v with
  | PObjectId _ => true
  | PList l => existsb has_objectid l
  | PDict d => existsb (fun kv => has_objectid kv.2) d
  | _ => false
  end.

(** ** Lemmas *)

(** A document whose first field is an ObjectId cannot be serialised. *)
Lemma json_encode_objectid_first ensure_ascii k o d :
  json_encode ensure_ascii (PDict ((k, PObjectId o) :: d)) =
  Raise (TypeError "Object of type ObjectId is not JSON serializable").
Proof. reflexivity. Qed.

(** After [_json_convert] every value serialises. *)
Lemma json_encode_bson_to_json ensure_ascii v :
  exists s, json_encode ensure_ascii (bson_to_json v) = Ok s.
Proof.
  induction v as [| [] | z | str | o | l IH | d IH] using pyval_ind'; simpl; eauto;
    match goal with |- context [pymapM ?f ?l] => destruct (proj2 (pymapM_exists_iff f l)) as [items ->] end;
    simpl; eauto.
  - by apply Forall_map.
  - apply Forall_map. eapply Forall_impl; [exact IH|]. intros [k x] [e He]. simpl in *.
    rewrite He. simpl. eauto.
Qed.

Lemma json_encode_ok_iff ea v : (exists s, json_encode ea v = Ok s) <-> has_objectid v = false.
Proof.
  induction v as [| [] | z | str | o | l IH | d IH] using pyval_ind'; simpl;
    try (split; [done | eauto]).
  - split; [by intros [? ?] | done].
  - rewrite pybind_Ok_exists, pymapM_exists_iff, existsb_false_Forall. by apply Forall_iff_Forall.
  - rewrite pybind_Ok_exists, pymapM_exists_iff, existsb_false_Forall. apply Forall_iff_Forall.
    eapply Forall_impl; [exact IH|]. intros [k x] Hx. simpl. by rewrite pybind_Ok_exists.
Qed.

(** The one exception the encoder raises. *)
Lemma json_encode_Raise ea v e :
  json_encode ea v = Raise e -> e = TypeError "Object of type ObjectId is not JSON serializable".
Proof.
  revert e. induction v as [| [] | z | str | o | l IH | d IH] using pyval_ind'; intros e; simpl;
    try discriminate; [by intros [= <-]| |].
  - destruct (pymapM _ l) eqn:Hm; simpl; [done|]. intros [= <-].
    destruct (pymapM_Raise _ _ _ Hm) as (x & Hx & Hex). by eapply Forall_forall in IH; [apply IH|].
  - destruct (pymapM _ d) eqn:Hm; simpl; [done|]. intros [= <-].
    destruct (pymapM_Raise _ _ _ Hm) as ([k x] & Hx & Hex). simpl in Hex.
    destruct (json_encode ea x) eqn:He; simpl in Hex; [done|]. injection Hex as ->.
    by eapply Forall_forall in IH; [apply (IH e0) | exact Hx].
Qed.

(** ** Properties *)

(** [json.dumps] raises [TypeError] ("Object of type ObjectId is not
    JSON serializable") exactly when its argument holds an ObjectId at
    some depth, and returns otherwise. *)
Lemma json_dumps_raises_iff ea v :
  json_dumps ea v = Raise (TypeError "Object of type ObjectId is not JSON serializable") <->
  has_objectid v = true.
Proof.
  pose proof (json_encode_ok_iff ea v) as Hok. unfold json_dumps.
  destruct (json_encode ea v) as [e|e] eqn:He; simpl.
  - split; [done|]. intros Hv. enough (has_objectid v = false) by congruence. apply Hok. eauto.
  - rewrite (json_encode_Raise _ _ _ He). split; [|done]. intros _.
    destruct (has_objectid v) eqn:Hv; [done|]. by destruct (proj2 Hok eq_refl).
Qed.

End Json.
