(* ===== verification/JsonDecode.v ===== *)
(** * JsonDecode: reading back what the JSON encoder writes

    [total_flights_json] (src/ch06/web/report_flask.py, lines 101-106)
    answers the chart page's asynchronous request with
    [json_util.dumps(total_flights, ensure_ascii=False)]; the page reads
    the answer back with a JSON parser.  This file models that reader as
    CPython's [json.loads] ([json/decoder.py], strict mode) on the part of
    JSON the encoder of Json.v writes: whitespace, [null], [true],
    [false], integers (an optional ['-'], then ["0"] or digits without a
    leading zero; a fraction or exponent would make a float, which the
    model does not have and rejects), strings with their escapes
    (control characters must be escaped; a [\uXXXX] escape above 255 is
    outside the model's character set and rejected), arrays and objects.
    An object becomes a dict whose later duplicate keys overwrite earlier
    ones in place, as [dict(pairs)] does.  [None] is the
    [JSONDecodeError].

    The recursion of the parser is on fuel: each call consumes at least
    one character of the input, so [json_loads] gives it one more than
    the length of its input, and the round-trip theorems show that this
    is enough. *)

From Stdlib Require Import ZArith Ascii String Lia.
From stdpp Require Import base list strings.
From S2P Require Import Prelude PyValue UrlArgs Json.

Module JsonDecode.
Import UrlArgs Json.

(** [json.decoder.WHITESPACE]: space, tab, newline, carriage return. *)
Definition is_ws (c : ascii) : bool := bool_decide (c ∈ [" "; "009"; "010"; "013"]%char).

Fixpoint skip_ws (s : list ascii) : list ascii :=
  match s with
  | c :: s' => if is_ws c then skip_ws s' else s
  | [] => []
  end.

(** [s] without the prefix [w], if it starts with it. *)
Fixpoint strip_prefix (w s : list ascii) : option (list ascii) :=
  match w, s with
  | [], _ => Some s
  | c :: w', c' :: s' => if decide (c = c') then strip_prefix w' s' else None
  | _ :: _, [] => None
  end.

(** [json.decoder.BACKSLASH]: the one-character escapes. *)
Definition simple_escape (e : ascii) : option ascii :=
  if decide (e = "034"%char) then Some "034"%char
  else if decide (e = "\"%char) then Some "\"%char
  else if decide (e = "/"%char) then Some "/"%char
  else if decide (e = "b"%char) then Some "008"%char
  else if decide (e = "f"%char) then Some "012"%char
  else if decide (e = "n"%char) then Some "010"%char
  else if decide (e = "r"%char) then Some "013"%char
  else if decide (e = "t"%char) then Some "009"%char
  else None.

Definition hex4 (h1 h2 h3 h4 : ascii) : option nat :=
  match hex_value h1, hex_value h2, hex_value h3, hex_value h4 with
  | Some a, Some b, Some c, Some d => Some (4096 * a + 256 * b + 16 * c + d)
  | _, _, _, _ => None
  end.

Definition cons_char (c : ascii) (o : option (list ascii * list ascii)) :
    option (list ascii * list ascii) :=
  (fun p => (c :: p.1, p.2)) <$> o.

(** [py_scanstring]: the characters of a string up to its closing quote,
    and what follows the quote. *)
Fixpoint decode_chars (s : list ascii) : option (list ascii * list ascii) :=
  match s with
  | [] => None
  | c :: s' =>
      if decide (c = "034"%char) then Some ([], s')
      else if decide (c = "\"%char) then
        match s' with
        | "u"%char :: h1 :: h2 :: h3 :: h4 :: s'' =>
            match hex4 h1 h2 h3 h4 with
            | Some n => if bool_decide (n < 256) then cons_char (ascii_of_nat n) (decode_chars s'')
                        else None
            | None => None
            end
        | e :: s'' =>
            match simple_escape e with
            | Some c' => cons_char c' (decode_chars s'')
            | None => None
            end
        | [] => None
        end
      else if bool_decide (nat_of_ascii c < 32) then None
      else cons_char c (decode_chars s')
  end.

Fixpoint take_digits (s : list ascii) : list ascii * list ascii :=
  match s with
  | c :: s' =>
      match digit_value c with
      | Some _ => let '(ds, r) := take_digits s' in (c :: ds, r)
      | None => ([], s)
      end
  | [] => ([], [])
  end.

(** [json.scanner.NUMBER_RE] on integers: an optional minus sign, then
    ["0"] or a run of digits not starting with ["0"], not followed by a
    fraction or an exponent. *)
Definition decode_int (s : list ascii) : option (Z * list ascii) :=
  let '(sign, s1) :=
    match s with
    | c :: s' => if decide (c = "-"%char) then ((-1)%Z, s') else (1%Z, s)
    | [] => (1%Z, s)
    end in
  let '(ds, s2) :=
    match s1 with
    | c :: s' => if decide (c = "0"%char) then ([c], s') else take_digits s1
    | [] => ([], [])
    end in
  match parse_digits 0 false ds with
  | None => None
  | Some n =>
      match s2 with
      | c :: _ => if bool_decide (c ∈ ["."; "e"; "E"]%char) then None else Some ((sign * n)%Z, s2)
      | [] => Some ((sign * n)%Z, s2)
      end
  end.

(** [dict(pairs)]. *)
Definition dict_of_pairs (pairs : list (string * pyval)) : pydict :=
  foldl (fun d kv => dict_setitem kv.1 kv.2 d) [] pairs.

Fixpoint decode_value (fuel : nat) (s : list ascii) {struct fuel} : option (pyval * list ascii) :=
  match fuel with
  | O => None
  | S f =>
      match skip_ws s with
      | [] => None
      | c :: r =>
          if decide (c = "034"%char) then
            (fun p => (PStr (string_of_list_ascii p.1), p.2)) <$> decode_chars r
          else if decide (c = "["%char) then
            match skip_ws r with
            | c' :: r' =>
                if decide (c' = "]"%char) then Some (PList [], r')
                else (fun p => (PList p.1, p.2)) <$> decode_elems f r
            | [] => None
            end
          else if decide (c = "{"%char) then
            match skip_ws r with
            | c' :: r' =>
                if decide (c' = "}"%char) then Some (PDict [], r')
                else (fun p => (PDict (dict_of_pairs p.1), p.2)) <$> decode_members f r
            | [] => None
            end
          else if decide (c = "n"%char) then (fun r' => (PNone, r')) <$> strip_prefix ["u"; "l"; "l"]%char r
          else if decide (c = "t"%char) then (fun r' => (PBool true, r')) <$> strip_prefix ["r"; "u"; "e"]%char r
          else if decide (c = "f"%char) then
            (fun r' => (PBool false, r')) <$> strip_prefix ["a"; "l"; "s"; "e"]%char r
          else (fun p => (PInt p.1, p.2)) <$> decode_int (c :: r)
      end
  end
(** The elements of an array after its ['['], up to its [']']. *)
with decode_elems (fuel : nat) (s : list ascii) {struct fuel} : option (list pyval * list ascii) :=
  match fuel with
  | O => None
  | S f =>
      match decode_value f s with
      | None => None
      | Some (v, r) =>
          match skip_ws r with
          | c :: r' =>
              if decide (c = "]"%char) then Some ([v], r')
              else if decide (c = ","%char) then (fun p => (v :: p.1, p.2)) <$> decode_elems f r'
              else None
          | [] => None
          end
      end
  end
(** The members of an object after its ['{'], up to its ['}']. *)
with decode_members (fuel : nat) (s : list ascii) {struct fuel}
    : option (list (string * pyval) * list ascii) :=
  match fuel with
  | O => None
  | S f =>
      match skip_ws s with
      | c :: r =>
          if decide (c = "034"%char) then
            match decode_chars r with
            | None => None
            | Some (k, r1) =>
                match skip_ws r1 with
                | c1 :: r2 =>
                    if decide (c1 = ":"%char) then
                      match decode_value f r2 with
                      | None => None
                      | Some (v, r3) =>
                          match skip_ws r3 with
                          | c3 :: r4 =>
                              if decide (c3 = "}"%char) then Some ([(string_of_list_ascii k, v)], r4)
                              else if decide (c3 = ","%char) then
                                (fun p => ((string_of_list_ascii k, v) :: p.1, p.2)) <$> decode_members f r4
                              else None
                          | [] => None
                          end
                      end
                    else None
                | [] => None
                end
            end
          else None
      | [] => None
      end
  end.

(** [json.loads(s)]: one value, then only whitespace. *)
Definition json_loads (s : string) : option pyval :=
  let l := list_ascii_of_string s in
  match decode_value (S (length l)) l with
  | Some (v, r) => if bool_decide (skip_ws r = []) then Some v else None
  | None => None
  end.

(** Every dict of [v], at any depth, has distinct keys: the values
    [json.loads] can give back as they were. *)
Fixpoint keys_distinct (v : pyval) : bool :=
  match v with
  | PList l => forallb keys_distinct l
  | PDict d => bool_decide (NoDup (map fst d)) && forallb (fun kv => keys_distinct kv.2) d
  | _ => true
  end.

(** What follows a value in the encoder's output: the end, or the
    separator or bracket after an element or member. *)
Definition delim (rest : list ascii) : Prop :=
  match rest with [] => True | c :: _ => c ∈ [","; "]"; "}"]%char end.

(** The characters an encoding starts with. *)
Definition first_chars : list ascii := ["034"; "["; "{"; "n"; "t"; "f"]%char ++ dec_chars.

(** ** Lemmas *)

(** *** Strings *)

Lemma hex_value_hex_digit k : k < 16 -> hex_value (hex_digit k) = Some k.
Proof. intros Hk. do 16 (destruct k as [|k]; [reflexivity|]). lia. Qed.

Lemma decode_chars_u h1 h2 h3 h4 s :
  decode_chars ("\"%char :: "u"%char :: h1 :: h2 :: h3 :: h4 :: s) =
  match hex4 h1 h2 h3 h4 with
  | Some n => if bool_decide (n < 256) then cons_char (ascii_of_nat n) (decode_chars s) else None
  | None => None
  end.
Proof. reflexivity. Qed.

Lemma decode_chars_unicode c s :
  decode_chars (unicode_escape c ++ s) = cons_char c (decode_chars s).
Proof.
  pose proof (nat_ascii_bounded c) as Hc. unfold unicode_escape. cbn [app].
  rewrite decode_chars_u. unfold hex4.
  rewrite !hex_value_hex_digit by (apply Nat.mod_upper_bound || apply Nat.Div0.div_lt_upper_bound; lia).
  replace (hex_value "0"%char) with (Some 0) by reflexivity. cbv beta iota.
  rewrite bool_decide_eq_true_2.
  - do 2 f_equal. rewrite <- (ascii_nat_embedding c) at 3. f_equal.
    pose proof (Nat.div_mod_eq (nat_of_ascii c) 16). lia.
  - pose proof (Nat.div_mod_eq (nat_of_ascii c) 16). lia.
Qed.

Lemma decode_chars_plain c s :
  c <> "034"%char -> c <> "\"%char -> 32 <= nat_of_ascii c ->
  decode_chars (c :: s) = cons_char c (decode_chars s).
Proof.
  intros Hq Hb Hn. cbn [decode_chars]. rewrite !decide_False by done.
  rewrite bool_decide_eq_false_2 by lia. done.
Qed.

Lemma ascii_of_code c n : nat_of_ascii c = n -> c = ascii_of_nat n.
Proof. intros <-. by rewrite ascii_nat_embedding. Qed.

(** Each character the encoder escapes reads back as itself. *)
Lemma decode_chars_escape ea c s :
  decode_chars (escape_char ea c ++ s) = cons_char c (decode_chars s).
Proof.
  unfold escape_char.
  case_bool_decide as H1; [subst; reflexivity|].
  case_bool_decide as H2; [subst; reflexivity|].
  case_bool_decide as H3; [rewrite (ascii_of_code _ _ H3); reflexivity|].
  case_bool_decide as H4; [rewrite (ascii_of_code _ _ H4); reflexivity|].
  case_bool_decide as H5; [rewrite (ascii_of_code _ _ H5); reflexivity|].
  case_bool_decide as H6; [rewrite (ascii_of_code _ _ H6); reflexivity|].
  case_bool_decide as H7; [rewrite (ascii_of_code _ _ H7); reflexivity|].
  case_bool_decide as H8; [apply decode_chars_unicode|].
  destruct (ea && bool_decide (126 < nat_of_ascii c)); [apply decode_chars_unicode|].
  apply decode_chars_plain; [done | done | lia].
Qed.

Lemma decode_chars_string ea cs s :
  decode_chars (List.concat (map (escape_char ea) cs) ++ "034"%char :: s) = Some (cs, s).
Proof.
  induction cs as [|c cs IH]; [reflexivity|].
  simpl. rewrite <- app_assoc, decode_chars_escape, IH. reflexivity.
Qed.

(** *** Integers *)

Lemma delim_cases rest :
  delim rest -> rest = [] \/ exists c r, rest = c :: r /\ c ∈ [","; "]"; "}"]%char.
Proof. destruct rest as [|c r]; simpl; eauto. Qed.

Lemma take_digits_app ds rest :
  Forall (fun c => digit_value c <> None) ds -> delim rest -> take_digits (ds ++ rest) = (ds, rest).
Proof.
  intros Hds Hr. induction Hds as [|c ds Hc _ IH]; simpl.
  - destruct (delim_cases rest Hr) as [->|(c & r & -> & Hc)]; [done|].
    rewrite !elem_of_cons, elem_of_nil in Hc. destruct_or! Hc; subst; done.
  - destruct (digit_value c) eqn:?; [|done]. by rewrite IH.
Qed.

(** The end of [decode_int], after the digits. *)
Lemma decode_int_end (sign n : Z) rest :
  delim rest ->
  match rest with
  | c :: _ => if bool_decide (c ∈ ["."; "e"; "E"]%char) then None else Some ((sign * n)%Z, rest)
  | [] => Some ((sign * n)%Z, rest)
  end = Some ((sign * n)%Z, rest).
Proof.
  intros Hr. destruct (delim_cases rest Hr) as [->|(c & r & -> & Hc)]; [done|].
  rewrite !elem_of_cons, elem_of_nil in Hc. destruct_or! Hc; subst; done.
Qed.

Lemma str_digits_pos_parts m rest :
  (0 < m)%Z -> delim rest ->
  exists c, str_digits m ++ rest = c :: tail (str_digits m) ++ rest /\ c <> "0"%char /\ c <> "-"%char /\
    take_digits (str_digits m ++ rest) = (str_digits m, rest).
Proof.
  intros Hm Hr. destruct (str_digits_head_pos m Hm) as (d & l & Hs & Hd).
  exists (digit_char d). rewrite Hs. split; [done|].
  pose proof (digit_char_code d ltac:(lia)) as Hcode.
  assert (1 <= Z.to_nat d)%nat by (apply (Nat2Z.inj_le 1); rewrite Z2Nat.id; lia).
  split; [|split].
  { intros Hc. rewrite Hc in Hcode. change (nat_of_ascii "0") with 48 in Hcode. lia. }
  { intros Hc. rewrite Hc in Hcode. change (nat_of_ascii "-") with 45 in Hcode. lia. }
  rewrite <- Hs. apply take_digits_app; [|done].
  eapply Forall_impl; [apply digits_fuel_chars; [lia | constructor]|].
  intros c Hc. exact (proj1 (Forall_forall _ _) digits_are_digits c Hc).
Qed.

Lemma decode_int_json_int z rest : delim rest -> decode_int (json_int z ++ rest) = Some (z, rest).
Proof.
  intros Hr. unfold json_int, str_of_Z. rewrite list_ascii_of_string_of_list_ascii.
  destruct (Z.ltb_spec z 0) as [Hz|Hz].
  - destruct (str_digits_pos_parts (- z) rest ltac:(lia) Hr) as (c & Hs & H0 & _ & Ht).
    unfold decode_int. cbn [app]. rewrite decide_True by done. rewrite Hs, decide_False by done.
    rewrite <- Hs, Ht, str_digits_parse by lia.
    transitivity (Some ((-1 * - z)%Z, rest)); [by apply decode_int_end | do 2 f_equal; lia].
  - destruct (Z.eq_dec z 0%Z) as [->|Hz0].
    + rewrite str_digits_0. unfold decode_int. cbn [app]. by apply (decode_int_end 1 0%Z).
    + destruct (str_digits_pos_parts z rest ltac:(lia) Hr) as (c & Hs & H0 & Hminus & Ht).
      unfold decode_int. rewrite Hs, !decide_False by done. rewrite <- Hs, Ht, str_digits_parse by lia.
      transitivity (Some ((1 * z)%Z, rest)); [by apply decode_int_end | do 2 f_equal; lia].
Qed.

(** *** Whitespace, literals and the first character of a value *)

Lemma decode_value_space f s : decode_value f (" "%char :: s) = decode_value f s.
Proof. by destruct f. Qed.

Lemma decode_elems_space f s : decode_elems f (" "%char :: s) = decode_elems f s.
Proof. destruct f; [done|]. simpl. by rewrite decode_value_space. Qed.

Lemma decode_members_space f s : decode_members f (" "%char :: s) = decode_members f s.
Proof. by destruct f. Qed.

Lemma decode_value_dec_char f c r :
  c ∈ dec_chars -> decode_value (S f) (c :: r) = (fun p => (PInt p.1, p.2)) <$> decode_int (c :: r).
Proof.
  intros Hc. cbv [dec_chars] in Hc. rewrite !elem_of_cons, elem_of_nil in Hc.
  destruct_or! Hc; subst; reflexivity.
Qed.

Lemma json_int_head z : exists c e', json_int z = c :: e' /\ c ∈ dec_chars.
Proof.
  unfold json_int. pose proof (str_of_Z_chars z) as Hc. pose proof (str_of_Z_neq_empty z) as Hn.
  destruct (list_ascii_of_string (str_of_Z z)) as [|c e'] eqn:Hz.
  - by destruct (str_of_Z z).
  - exists c, e'. split; [done|]. by inversion Hc.
Qed.

Lemma first_chars_ok c : c ∈ first_chars -> is_ws c = false /\ c <> "]"%char /\ c <> "}"%char.
Proof.
  intros Hc. cbv [first_chars dec_chars app] in Hc. rewrite !elem_of_cons, elem_of_nil in Hc.
  destruct_or! Hc; subst; done.
Qed.

Lemma json_encode_head ea v e :
  json_encode ea v = Ok e -> exists c e', e = c :: e' /\ c ∈ first_chars.
Proof.
  intros He. destruct v as [| [] | z | str | l | d | o]; simpl in He; simplify_eq;
    try (eexists _, _; split; [reflexivity | vm_decide]).
  - destruct (json_int_head z) as (c & e' & -> & Hc). exists c, e'. split; [done|].
    unfold first_chars. rewrite elem_of_app. by right.
  - destruct (pymapM _ l); simplify_eq/=. eexists _, _. split; [reflexivity | vm_decide].
  - destruct (pymapM _ d); simplify_eq/=. eexists _, _. split; [reflexivity | vm_decide].
Qed.

(** *** Arrays and objects *)

Lemma skip_ws_nonws c s : is_ws c = false -> skip_ws (c :: s) = c :: s.
Proof. intros Hc. simpl. by rewrite Hc. Qed.

Lemma decode_elems_S f s :
  decode_elems (S f) s =
  match decode_value f s with
  | None => None
  | Some (v, r) =>
      match skip_ws r with
      | c :: r' =>
          if decide (c = "]"%char) then Some ([v], r')
          else if decide (c = ","%char) then (fun p => (v :: p.1, p.2)) <$> decode_elems f r'
          else None
      | [] => None
      end
  end.
Proof. reflexivity. Qed.

Lemma decode_value_open f r :
  decode_value (S f) ("["%char :: r) =
  match skip_ws r with
  | c' :: r' =>
      if decide (c' = "]"%char) then Some (PList [], r')
      else (fun p => (PList p.1, p.2)) <$> decode_elems f r
  | [] => None
  end.
Proof. reflexivity. Qed.

Lemma decode_value_brace f r :
  decode_value (S f) ("{"%char :: r) =
  match skip_ws r with
  | c' :: r' =>
      if decide (c' = "}"%char) then Some (PDict [], r')
      else (fun p => (PDict (dict_of_pairs p.1), p.2)) <$> decode_members f r
  | [] => None
  end.
Proof. reflexivity. Qed.

Lemma join_cons2 (sep x y : list ascii) l : join sep (x :: y :: l) = x ++ sep ++ join sep (y :: l).
Proof. reflexivity. Qed.

Lemma join_cons_app (sep e : list ascii) es : exists t, join sep (e :: es) = e ++ t.
Proof. destruct es as [|e' es]; [exists []; by rewrite app_nil_r | by eexists]. Qed.

Lemma decode_elems_join (xs : list pyval) (es : list (list ascii)) f rest :
  Forall2 (fun x e => forall f rest, length e < f -> delim rest ->
             decode_value f (e ++ rest) = Some (x, rest)) xs es ->
  xs <> [] -> S (length (join [","; " "]%char es)) < f ->
  decode_elems f (join [","; " "]%char es ++ "]"%char :: rest) = Some (xs, rest).
Proof.
  intros Hxs. revert f. induction Hxs as [|x e xs es Hx Hxs IH]; intros f Hne Hf; [done|].
  destruct f as [|f]; [lia|]. rewrite decode_elems_S. destruct Hxs as [|x' e' xs' es' Hx' Hxs'].
  - simpl in Hf |- *. rewrite Hx by (lia || vm_decide). reflexivity.
  - rewrite join_cons2 in Hf |- *. rewrite <- !app_assoc. cbn [app].
    rewrite !length_app in Hf. cbn [length] in Hf.
    rewrite Hx by (lia || vm_decide). rewrite skip_ws_nonws by reflexivity.
    rewrite decide_False, decide_True by done. rewrite decode_elems_space, IH by (done || lia).
    reflexivity.
Qed.

Lemma decode_members_S f s :
  decode_members (S f) s =
  match skip_ws s with
  | c :: r =>
      if decide (c = "034"%char) then
        match decode_chars r with
        | None => None
        | Some (k, r1) =>
            match skip_ws r1 with
            | c1 :: r2 =>
                if decide (c1 = ":"%char) then
                  match decode_value f r2 with
                  | None => None
                  | Some (v, r3) =>
                      match skip_ws r3 with
                      | c3 :: r4 =>
                          if decide (c3 = "}"%char) then Some ([(string_of_list_ascii k, v)], r4)
                          else if decide (c3 = ","%char) then
                            (fun p => ((string_of_list_ascii k, v) :: p.1, p.2)) <$> decode_members f r4
                          else None
                      | [] => None
                      end
                  end
                else None
            | [] => None
            end
        end
      else None
  | [] => None
  end.
Proof. reflexivity. Qed.

(** A member [json_string k ++ ": " ++ e], followed by [t], reads back as
    the key [k], the value [e] encodes, and [t]. *)
Lemma decode_member ea k e v f t :
  (forall f rest, length e < f -> delim rest -> decode_value f (e ++ rest) = Some (v, rest)) ->
  length e < f -> delim t ->
  decode_members (S f) ((json_string ea k ++ [":"; " "]%char ++ e) ++ t) =
  match skip_ws t with
  | c3 :: r4 =>
      if decide (c3 = "}"%char) then Some ([(k, v)], r4)
      else if decide (c3 = ","%char) then (fun p => ((k, v) :: p.1, p.2)) <$> decode_members f r4
      else None
  | [] => None
  end.
Proof.
  intros Hv He Ht. rewrite decode_members_S. unfold json_string. rewrite <- !app_assoc. cbn [app].
  rewrite skip_ws_nonws, decide_True, decode_chars_string by done.
  rewrite skip_ws_nonws, decide_True, decode_value_space, Hv by done.
  by rewrite string_of_list_ascii_of_string.
Qed.

Lemma decode_members_join ea (d : list (string * pyval)) items f rest :
  Forall2 (fun kv item => exists e, item = json_string ea kv.1 ++ [":"; " "]%char ++ e /\
             forall f rest, length e < f -> delim rest ->
               decode_value f (e ++ rest) = Some (kv.2, rest)) d items ->
  d <> [] -> S (length (join [","; " "]%char items)) < f ->
  decode_members f (join [","; " "]%char items ++ "}"%char :: rest) = Some (d, rest).
Proof.
  intros Hd. revert f. induction Hd as [|[k v] item d items [e [-> Hv]] Hd IH]; intros f Hne Hf; [done|].
  destruct f as [|f]; [lia|]. cbn [fst snd] in *. destruct Hd as [|kv' item' d' items' Hkv' Hd'].
  - cbn [join] in Hf |- *. rewrite !length_app in Hf.
    rewrite (decode_member ea k e v) by (done || lia || vm_decide). reflexivity.
  - rewrite join_cons2 in Hf |- *. rewrite !length_app in Hf. cbn [length] in Hf.
    rewrite <- app_assoc. cbn [app].
    rewrite (decode_member ea k e v) by (done || lia || vm_decide). rewrite skip_ws_nonws by reflexivity.
    rewrite decide_False, decide_True by done. rewrite decode_members_space, IH by (done || lia).
    reflexivity.
Qed.

Lemma decode_value_open_elems f r c r' :
  skip_ws r = c :: r' -> c <> "]"%char ->
  decode_value (S f) ("["%char :: r) = (fun p => (PList p.1, p.2)) <$> decode_elems f r.
Proof. intros Hr Hc. rewrite decode_value_open, Hr. by rewrite decide_False. Qed.

Lemma decode_value_open_members f r c r' :
  skip_ws r = c :: r' -> c <> "}"%char ->
  decode_value (S f) ("{"%char :: r) = (fun p => (PDict (dict_of_pairs p.1), p.2)) <$> decode_members f r.
Proof. intros Hr Hc. rewrite decode_value_brace, Hr. by rewrite decide_False. Qed.

(** The items of a non-empty array or object start like their first item. *)
Lemma skip_ws_join (e : list ascii) es t :
  (exists c e', e = c :: e' /\ c ∈ first_chars) ->
  exists c r, skip_ws (join [","; " "]%char (e :: es) ++ t) = c :: r /\ c <> "]"%char /\ c <> "}"%char.
Proof.
  intros (c & e' & -> & Hc). destruct (join_cons_app [","; " "]%char (c :: e') es) as [u ->].
  destruct (first_chars_ok c Hc) as (Hws & H1 & H2). exists c. eexists.
  rewrite <- app_assoc. cbn [app]. by rewrite skip_ws_nonws.
Qed.

Lemma foldl_setitem_distinct (acc d : pydict) :
  NoDup (map fst (acc ++ d)) -> foldl (fun d kv => dict_setitem kv.1 kv.2 d) acc d = acc ++ d.
Proof.
  revert acc. induction d as [|[k v] d IH]; intros acc Hnd; simpl; [by rewrite app_nil_r|].
  rewrite dict_setitem_new.
  - rewrite IH; [by rewrite <- app_assoc|]. by rewrite <- app_assoc.
  - rewrite map_app in Hnd. apply NoDup_app in Hnd as (_ & Hdis & _).
    intros Hk. apply (Hdis k Hk). simpl. apply list_elem_of_here.
Qed.

Lemma dict_of_pairs_distinct d : NoDup (map fst d) -> dict_of_pairs d = d.
Proof. intros Hnd. apply (foldl_setitem_distinct []), Hnd. Qed.

Lemma decode_value_quote f r :
  decode_value (S f) ("034"%char :: r) = (fun p => (PStr (string_of_list_ascii p.1), p.2)) <$> decode_chars r.
Proof. reflexivity. Qed.

(** The encoding of every value with distinct keys, followed by what may
    follow a value, reads back as the value, with fuel one more than the
    length of the encoding. *)
Lemma decode_encode ea v :
  forall e, json_encode ea v = Ok e -> keys_distinct v = true ->
  forall f rest, length e < f -> delim rest -> decode_value f (e ++ rest) = Some (v, rest).
Proof.
  induction v as [| [] | z | str | o | l IH | d IH] using pyval_ind';
    intros e He Hk f rest Hf Hr; simpl in He; simplify_eq;
    (destruct f as [|f]; [simpl in Hf; lia|]).
  - reflexivity.
  - reflexivity.
  - reflexivity.
  - destruct (json_int_head z) as (c & e' & Hz & Hc). rewrite Hz. cbn [app].
    rewrite decode_value_dec_char by done. change (c :: e' ++ rest) with ((c :: e') ++ rest).
    by rewrite <- Hz, decode_int_json_int.
  - unfold json_string. rewrite <- !app_assoc. cbn [app].
    rewrite decode_value_quote, decode_chars_string. simpl. by rewrite string_of_list_ascii_of_string.
  - destruct (pymapM _ l) as [items|] eqn:Hm; simpl in He; simplify_eq. apply pymapM_Ok_iff in Hm.
    apply forallb_Forall in Hk. cbn [length] in Hf. rewrite !length_app in Hf. cbn [length] in Hf.
    pose proof (Forall2_Forall_and _ _ _ _ (proj2 (Forall_and _ _) (conj IH Hk)) Hm) as H2.
    destruct Hm as [|x e1 l' items' Hx Hm']; [reflexivity|].
    destruct (skip_ws_join e1 items' ("]"%char :: rest)) as (c & r & Hs & Hc1 & _);
      [by eapply json_encode_head|].
    cbn [app]. rewrite <- !app_assoc. cbn [app]. rewrite (decode_value_open_elems _ _ c r) by done.
    rewrite (decode_elems_join (x :: l')); [done | | done | lia].
    eapply Forall2_impl; [exact H2|]. intros x' e' [[IHx Hkx] Hex] f' rest' Hf' Hr'. by apply IHx.
  - destruct (pymapM _ d) as [items|] eqn:Hm; simpl in He; simplify_eq. apply pymapM_Ok_iff in Hm.
    apply andb_prop in Hk as [Hnd Hk]. apply bool_decide_eq_true in Hnd. apply forallb_Forall in Hk.
    cbn [length] in Hf. rewrite !length_app in Hf. cbn [length] in Hf.
    pose proof (Forall2_Forall_and _ _ _ _ (proj2 (Forall_and _ _) (conj IH Hk)) Hm) as H2.
    destruct Hm as [|[k x] item d' items' Hx Hm']; [reflexivity|].
    destruct (skip_ws_join item items' ("}"%char :: rest)) as (c & r & Hs & _ & Hc1).
    { simpl in Hx. destruct (json_encode ea x); simplify_eq/=.
      eexists _, _. split; [reflexivity | vm_decide]. }
    cbn [app]. rewrite <- !app_assoc. cbn [app]. rewrite (decode_value_open_members _ _ c r) by done.
    rewrite (decode_members_join ea ((k, x) :: d')); [| | done | lia].
    + simpl. by rewrite dict_of_pairs_distinct.
    + eapply Forall2_impl; [exact H2|]. intros [k' x'] item'' [[IHx Hkx] Hex]. simpl in Hex.
      destruct (json_encode ea x') as [e'|] eqn:He'; simplify_eq/=.
      exists e'. split; [done|]. intros. by apply IHx.
Qed.

(** *** [json_util]'s conversion *)

Lemma bson_to_json_keys v : keys_distinct (bson_to_json v) = keys_distinct v.
Proof.
  induction v as [| | | | o | l IH | d IH] using pyval_ind'; simpl; try done.
  - induction IH as [|x l Hx _ IHl]; simpl; [done|]. by rewrite Hx, IHl.
  - f_equal.
    + by rewrite map_map.
    + induction IH as [|[k x] d Hx _ IHd]; simpl in *; [done|]. by rewrite Hx, IHd.
Qed.

Lemma bson_to_json_no_objectid v : has_objectid (bson_to_json v) = false.
Proof.
  induction v as [| | | | o | l IH | d IH] using pyval_ind'; simpl; try done.
  - induction IH as [|x l Hx _ IHl]; simpl; [done|]. by rewrite Hx, IHl.
  - induction IH as [|[k x] d Hx _ IHd]; simpl in *; [done|]. by rewrite Hx, IHd.
Qed.

(** *** Round trips *)

Lemma json_loads_encode ea v e :
  json_encode ea v = Ok e -> keys_distinct v = true -> json_loads (string_of_list_ascii e) = Some v.
Proof.
  intros He Hk. unfold json_loads. rewrite list_ascii_of_string_of_list_ascii.
  pose proof (decode_encode ea v e He Hk (S (length e)) [] ltac:(lia) I) as Hd.
  rewrite app_nil_r in Hd. by rewrite Hd.
Qed.

Lemma json_util_loads ea v s :
  json_util_dumps ea v = Ok s -> keys_distinct v = true -> json_loads s = Some (bson_to_json v).
Proof.
  unfold json_util_dumps, json_dumps. intros Hs Hk.
  destruct (json_encode ea (bson_to_json v)) eqn:He; simpl in Hs; simplify_eq.
  apply (json_loads_encode ea); [done|]. by rewrite bson_to_json_keys.
Qed.

(** ** Properties *)

(** [json_util]'s conversion gives a value [json.dumps] accepts (no
    ObjectId at any depth) and keeps the keys of every dict, so a
    document with distinct keys stays one. *)
Lemma bson_to_json_typed v :
  has_objectid (bson_to_json v) = false /\ keys_distinct (bson_to_json v) = keys_distinct v.
Proof. split; [apply bson_to_json_no_objectid | apply bson_to_json_keys]. Qed.

(** Round trip: what [json.dumps] writes, [json.loads] reads back as
    the same value, for every value whose dicts have distinct keys, with
    or without [ensure_ascii]. *)
Lemma json_dumps_roundtrip ea v s :
  json_dumps ea v = Ok s -> keys_distinct v = true -> json_loads s = Some v.
Proof.
  unfold json_dumps. intros Hs Hk.
  destruct (json_encode ea v) eqn:He; simpl in Hs; simplify_eq. by apply (json_loads_encode ea).
Qed.

End JsonDecode.
