(* ===== verification/MongoHandlers.v ===== *)
(** * MongoHandlers: the controllers that only read MongoDB

    Models the remaining controllers of src/ch06/web/report_flask.py
    ([on_time_performance], [list_flights], [total_flights],
    [total_flights_json], [total_flights_chart],
    [airplane_manufacturers_chart], [flights_per_airplane], [airline],
    [airport], [airline2], [airlines]) and the two MongoDB apps of
    src/ch02/web ([executive] of test_flask_bootstrap.py and of
    test_flask_pymongo.py) with the echo app of test_flask.py.  Each reads
    the database of Mongo.v, which is a parameter of the section: the
    controllers never write.  Route parameters are strings; query
    parameters are read with [request.args.get] and may be [None].
    [print(flights)] in [flights_per_airplane] writes to the server's
    standard output and has no effect on the response. *)

From Stdlib Require Import ZArith Ascii String Lia Sorted Permutation.
From stdpp Require Import base list strings.
From S2P Require Import Prelude PyValue Handlers Mongo Json JsonDecode.

Module MongoHandlers.
Import Handlers Mongo Json JsonDecode.

Section Controllers.
Variable db : database.

(** [GET /on_time_performance?Carrier=..&FlightDate=..&FlightNum=..] *)
Definition flight_filter (a : multidict) : pydict :=
  [("Carrier", args_get a "Carrier"); ("FlightDate", args_get a "FlightDate");
   ("FlightNum", args_get a "FlightNum")].

Definition on_time_performance (req : request) : pyres response :=
  let flight := find_one db "on_time_performance" (flight_filter (args req)) in
  Ok (Render "flight.html" [("flight", flight)]).

(** [GET /flights/<origin>/<dest>/<flight_date>] *)
Definition list_flights (origin dest flight_date : string) : pyres response :=
  let flights := find db "on_time_performance"
                   [("Origin", PStr origin); ("Dest", PStr dest); ("FlightDate", PStr flight_date)]
                   [("DepTime", 1%Z); ("ArrTime", 1%Z)] in
  let flight_count := length flights in
  Ok (Render "flights.html"
        [("flights", PList (map PDict flights)); ("flight_date", PStr flight_date);
         ("flight_count", PInt (Z.of_nat flight_count))]).

Definition flights_by_month : list pydict :=
  find db "flights_by_month" [] [("Year", 1%Z); ("Month", 1%Z)].

(** [GET /total_flights] *)
Definition total_flights : pyres response :=
  Ok (Render "total_flights.html" [("total_flights", PList (map PDict flights_by_month))]).

(** [GET /total_flights.json] *)
Definition total_flights_json : pyres response :=
  s <- json_util_dumps false (PList (map PDict flights_by_month)) ;;
  Ok (Text s).

(** [GET /total_flights_chart] *)
Definition total_flights_chart : pyres response :=
  Ok (Render "total_flights_chart.html" [("total_flights", PList (map PDict flights_by_month))]).

(** [GET /airplanes/chart/manufacturers.json] *)
Definition airplane_manufacturers_chart : pyres response :=
  let mfr_chart := find_one db "airplane_manufacturer_totals" [] in
  s <- json_dumps true mfr_chart ;;
  Ok (Text s).

(** [GET /airplane/<tail_number>] and [/airplane/flights/<tail_number>] *)
Definition flights_per_airplane (tail_number : string) : pyres response :=
  let flights := find_one db "flights_per_airplane" [("TailNum", PStr tail_number)] in
  Ok (Render "flights_per_airplane.html" [("flights", flights); ("tail_number", PStr tail_number)]).

(** [GET /airlines/<carrier_code>] *)
Definition airline (carrier_code : string) : pyres response :=
  let airline_airplanes := find_one db "airplanes_per_carrier" [("Carrier", PStr carrier_code)] in
  let airline_airports := find_one db "airports_per_carrier" [("Carrier", PStr carrier_code)] in
  Ok (Render "airlines.html"
        [("airline_airplanes", airline_airplanes); ("carrier_code", PStr carrier_code);
         ("airline_airports", airline_airports)]).

(** [GET /airport/<airport_code>] *)
Definition airport (airport_code : string) : pyres response :=
  let carriers_per_airport := find_one db "carriers_per_airport" [("Airport", PStr airport_code)] in
  let airport_metadata := find_one db "airport_metadata" [("AirportCode", PStr airport_code)] in
  Ok (Render "airport.html"
        [("airport_code", PStr airport_code); ("carriers_per_airport", carriers_per_airport);
         ("airport_metadata", airport_metadata)]).

(** [GET /airlines2/<carrier_code>] *)
Definition airline2 (carrier_code : string) : pyres response :=
  let airline_summary := find_one db "airlines" [("CarrierCode", PStr carrier_code)] in
  let airline_airplanes := find_one db "airplanes_per_carrier" [("Carrier", PStr carrier_code)] in
  let airline_airports := find_one db "airports_per_carrier" [("Carrier", PStr carrier_code)] in
  Ok (Render "airlines2.html"
        [("airline_summary", airline_summary); ("airline_airplanes", airline_airplanes);
         ("airline_airports", airline_airports); ("carrier_code", PStr carrier_code)]).

(** [GET /], [/airlines], [/airlines/] *)
Definition airlines : pyres response :=
  let airlines := find db "airplanes_per_carrier" [] [] in
  Ok (Render "all_airlines.html" [("airlines", PList (map PDict airlines))]).

(** src/ch02/web/test_flask_bootstrap.py, [GET /executive/<name>] *)
Definition executive (name : string) : pyres response :=
  let executives := find db "executives" [("name", PStr name)] [] in
  Ok (Render "table.html" [("executives", PList (map PDict executives))]).

(** src/ch02/web/test_flask_pymongo.py, [GET /executive/<name>] *)
Definition executive_dumps (name : string) : pyres response :=
  let executive := find db "executives" [("name", PStr name)] [] in
  s <- json_util_dumps true (PList (map PDict executive)) ;;
  Ok (Text s).

End Controllers.

(** src/ch02/web/test_flask.py, [GET /<input>] *)
Definition hello (input : string) : pyres response := Ok (Text input).

(** A small database for the witnesses. *)
Definition flight_doc (oid carrier num origin dest dep arr : string) : pydict :=
  [("_id", PObjectId oid); ("Carrier", PStr carrier); ("FlightDate", PStr "2015-01-01");
   ("FlightNum", PStr num); ("Origin", PStr origin); ("Dest", PStr dest);
   ("DepTime", PStr dep); ("ArrTime", PStr arr)].

Definition example_db : database :=
  [("on_time_performance",
      [flight_doc "5f0000000000000000000001" "AA" "1519" "ATL" "SFO" "1850" "2130";
       flight_doc "5f0000000000000000000002" "DL" "2001" "ATL" "SFO" "0705" "0925";
       flight_doc "5f0000000000000000000003" "AA" "0100" "JFK" "LAX" "1200" "1500"]);
   ("airplane_manufacturer_totals",
      [[("_id", PObjectId "5f00000000000000000000aa");
        ("data", PList [PDict [("Manufacturer", PStr "BOEING"); ("Total", PInt 3000)]])]]);
   ("flights_by_month",
      [[("_id", PObjectId "5f00000000000000000000b2"); ("Year", PInt 2015); ("Month", PInt 2);
        ("total_flights", PInt 407663)];
       [("_id", PObjectId "5f00000000000000000000b1"); ("Year", PInt 2015); ("Month", PInt 1);
        ("total_flights", PInt 469968)]]);
   ("executives",
      [[("_id", PObjectId "5f00000000000000000000c1"); ("name", PStr "Jeff Skilling");
        ("title", PStr "CEO")];
       [("_id", PObjectId "5f00000000000000000000c2"); ("name", PStr "Ken Lay");
        ("title", PStr "Chairman")]])].

(** The reference reading of [coll.find_one({field: v})]: the first
    document, in natural order, whose [field] is the string [v] (or an
    array holding it), or [None]. *)
Definition first_with (db : database) (coll field v : string) : pyval :=
  match List.find (fun d => value_matches (dict_lookup field d) (PStr v)) (collection db coll) with
  | Some d => PDict d
  | None => PNone
  end.

(** The reference reading of [coll.find({field: v})]: the matching
    documents in natural order. *)
Definition all_with (db : database) (coll field v : string) : list pydict :=
  List.filter (fun d => value_matches (dict_lookup field d) (PStr v)) (collection db coll).

(** ** Lemmas *)

Lemma find_None_iff {A} (f : A -> bool) (l : list A) :
  List.find f l = None <-> forall x, x ∈ l -> f x = false.
Proof.
  split.
  - intros H x Hx%list_elem_of_In. by eapply find_none.
  - induction l as [|y l IH]; intros H; simpl; [done|].
    rewrite (H y) by by left. apply IH. intros x Hx. apply H. by right.
Qed.

Lemma find_one_Some db coll filter d :
  find_one db coll filter = PDict d ->
  d ∈ collection db coll /\ doc_matches filter d = true.
Proof.
  destruct (find_one_cases db coll filter) as [(d' & -> & Hf) | (-> & _)]; [|done].
  intros [= <-]. apply find_some in Hf as [Hin Hm]. by rewrite list_elem_of_In.
Qed.

Lemma find_one_PNone_iff db coll filter :
  find_one db coll filter = PNone <->
  forall d, d ∈ collection db coll -> doc_matches filter d = false.
Proof.
  rewrite <- find_None_iff.
  destruct (find_one_cases db coll filter) as [(d & -> & Hf) | (-> & Hf)]; rewrite Hf;
    split; done.
Qed.

Lemma example_db_wf : db_wf example_db.
Proof.
  intros name d. simpl. repeat case_decide; simpl; intros Hd;
    repeat (apply elem_of_cons in Hd as [->|Hd]; [unfold flight_doc; by eexists _, _|]);
    by apply elem_of_nil in Hd.
Qed.

Lemma find_pointwise {A} (f g : A -> bool) (l : list A) :
  (forall x, f x = g x) -> List.find f l = List.find g l.
Proof. intros Hfg. induction l as [|x l IH]; simpl; [done|]. by rewrite Hfg, IH. Qed.

Lemma doc_matches_single field v d :
  doc_matches [(field, v)] d = value_matches (dict_lookup field d) v.
Proof. unfold doc_matches. simpl. apply andb_true_r. Qed.

(** [find_one({field: v})] is the reference [first_with]. *)
Lemma find_one_single db coll field v :
  find_one db coll [(field, PStr v)] = first_with db coll field v.
Proof.
  unfold find_one, first_with. rewrite (find_pointwise _ (fun d => value_matches (dict_lookup field d) (PStr v))).
  - done.
  - intros d. apply doc_matches_single.
Qed.

Lemma filter_single l field v :
  List.filter (doc_matches [(field, PStr v)]) l =
  List.filter (fun d => value_matches (dict_lookup field d) (PStr v)) l.
Proof. apply filter_ext. intros d. apply doc_matches_single. Qed.

Lemma filter_no_filter (l : list pydict) : List.filter (doc_matches []) l = l.
Proof. induction l as [|d l IH]; simpl; [done|]. by rewrite IH. Qed.

(** Without sort keys every comparison is [Eq]: [find] keeps natural order. *)
Lemma sort_by_no_keys (l : list pydict) : sort_by (sort_compare []) l = l.
Proof. induction l as [|x l IH]; cbn [sort_by]; [done|]. rewrite IH. by destruct l. Qed.

Lemma find_no_sort db coll filter :
  find db coll filter [] = List.filter (doc_matches filter) (collection db coll).
Proof. unfold find. apply sort_by_no_keys. Qed.

(** [on_time_performance]'s filter reads the three request parameters. *)
Lemma flight_filter_matches a d :
  doc_matches (flight_filter a) d = true <->
  value_matches (dict_lookup "Carrier" d) (args_get a "Carrier") = true /\
  value_matches (dict_lookup "FlightDate" d) (args_get a "FlightDate") = true /\
  value_matches (dict_lookup "FlightNum" d) (args_get a "FlightNum") = true.
Proof. unfold doc_matches, flight_filter. simpl. rewrite !andb_true_iff. tauto. Qed.

(** [json_util.dumps] of documents with distinct keys reads back. *)
Lemma json_util_dumps_docs ea (ds : list pydict) :
  (forall d, d ∈ ds -> keys_distinct (PDict d) = true) ->
  exists s, json_util_dumps ea (PList (map PDict ds)) = Ok s /\
    json_loads s = Some (bson_to_json (PList (map PDict ds))).
Proof.
  intros Hk. destruct (json_util_dumps ea (PList (map PDict ds))) as [s|e] eqn:Hs.
  - exists s. split; [done|]. apply (json_util_loads ea); [done|].
    simpl. apply forallb_forall. intros x (d & <- & Hd)%in_map_iff. apply Hk. by apply list_elem_of_In.
  - exfalso. destruct (json_encode_bson_to_json ea (PList (map PDict ds))) as [s' Hs'].
    unfold json_util_dumps, json_dumps in Hs. by rewrite Hs' in Hs.
Qed.

(** ** Properties *)

(** C18. A flight that [on_time_performance] renders is a document of the
    on_time_performance collection whose Carrier, FlightDate and
    FlightNum fields match the request's [Carrier], [FlightDate] and
    [FlightNum] parameters (a parameter the request omits is [None],
    which matches a document that lacks the field). *)
Theorem on_time_performance_sound (db : database) (req : request) (d : pydict) :
  on_time_performance db req = Ok (Render "flight.html" [("flight", PDict d)]) ->
  d ∈ collection db "on_time_performance" /\
  value_matches (dict_lookup "Carrier" d) (args_get (args req) "Carrier") = true /\
  value_matches (dict_lookup "FlightDate" d) (args_get (args req) "FlightDate") = true /\
  value_matches (dict_lookup "FlightNum" d) (args_get (args req) "FlightNum") = true.
Proof.
  unfold on_time_performance. intros [= Hd]. apply find_one_Some in Hd as [Hin Hm].
  split; [done|]. by apply flight_filter_matches.
Qed.

Theorem on_time_performance_sound_witness :
  on_time_performance example_db
    (mk_request [("Carrier", "AA"); ("FlightDate", "2015-01-01"); ("FlightNum", "1519")]
                "http://localhost:5000/on_time_performance?Carrier=AA&FlightDate=2015-01-01&FlightNum=1519") =
  Ok (Render "flight.html"
        [("flight", PDict (flight_doc "5f0000000000000000000001" "AA" "1519" "ATL" "SFO" "1850" "2130"))]) /\
  flight_doc "5f0000000000000000000001" "AA" "1519" "ATL" "SFO" "1850" "2130"
    ∈ collection example_db "on_time_performance" /\
  value_matches (Some (PStr "AA")) (PStr "AA") = true /\
  value_matches (Some (PStr "2015-01-01")) (PStr "2015-01-01") = true /\
  value_matches (Some (PStr "1519")) (PStr "1519") = true.
Proof.
  split; [vm_compute; reflexivity|].
  apply (on_time_performance_sound example_db
    (mk_request [("Carrier", "AA"); ("FlightDate", "2015-01-01"); ("FlightNum", "1519")]
                "http://localhost:5000/on_time_performance?Carrier=AA&FlightDate=2015-01-01&FlightNum=1519")).
  vm_compute. reflexivity.
Defined.

(** C19. [on_time_performance] renders [None] exactly when no document of
    the collection matches all three of the request's [Carrier],
    [FlightDate] and [FlightNum] parameters. *)
Theorem on_time_performance_not_found (db : database) (req : request) :
  on_time_performance db req = Ok (Render "flight.html" [("flight", PNone)]) <->
  forall d, d ∈ collection db "on_time_performance" ->
    ~ (value_matches (dict_lookup "Carrier" d) (args_get (args req) "Carrier") = true /\
       value_matches (dict_lookup "FlightDate" d) (args_get (args req) "FlightDate") = true /\
       value_matches (dict_lookup "FlightNum" d) (args_get (args req) "FlightNum") = true).
Proof.
  unfold on_time_performance.
  transitivity (find_one db "on_time_performance" (flight_filter (args req)) = PNone);
    [split; [intros [= ->] | intros ->]; done|].
  rewrite find_one_PNone_iff. split; intros H d Hd; specialize (H d Hd).
  - rewrite <- flight_filter_matches. by rewrite H.
  - rewrite <- flight_filter_matches in H. by apply not_true_is_false.
Qed.

(** C20. [list_flights] renders exactly the flights of the route's origin,
    destination and date (with multiplicity), sorted by departure then
    arrival time, and their number. *)
Theorem list_flights_sorted (db : database) (origin dest flight_date : string) :
  exists fs,
    list_flights db origin dest flight_date =
      Ok (Render "flights.html"
            [("flights", PList (map PDict fs)); ("flight_date", PStr flight_date);
             ("flight_count", PInt (Z.of_nat (length fs)))]) /\
    Sorted (cmp_le (sort_compare [("DepTime", 1%Z); ("ArrTime", 1%Z)])) fs /\
    Permutation fs
      (List.filter (doc_matches [("Origin", PStr origin); ("Dest", PStr dest);
                                 ("FlightDate", PStr flight_date)])
                   (collection db "on_time_performance")).
Proof.
  eexists. split; [reflexivity|]. split.
  - apply sort_by_sorted, sort_compare_antisym.
  - apply sort_by_perm.
Qed.

(** C21. On a database whose documents carry their ObjectId [_id] (every
    MongoDB document does), [airplane_manufacturers_chart] raises
    [TypeError] whenever the collection has a document: [json.dumps]
    cannot serialise the ObjectId.  Only an empty collection gets an
    answer ("null"). *)
Theorem airplane_manufacturers_chart_crash (db : database) :
  db_wf db -> collection db "airplane_manufacturer_totals" <> [] ->
  airplane_manufacturers_chart db =
  Raise (TypeError "Object of type ObjectId is not JSON serializable").
Proof.
  intros Hwf Hne. unfold airplane_manufacturers_chart, find_one.
  destruct (collection db "airplane_manufacturer_totals") as [|d ds] eqn:Hc; [done|].
  simpl. destruct (Hwf "airplane_manufacturer_totals" d) as (oid & d' & ->).
  { rewrite Hc. by left. }
  unfold json_dumps. by rewrite json_encode_objectid_first.
Qed.

Theorem airplane_manufacturers_chart_crash_witness :
  airplane_manufacturers_chart example_db =
  Raise (TypeError "Object of type ObjectId is not JSON serializable").
Proof. apply airplane_manufacturers_chart_crash; [apply example_db_wf | vm_compute; discriminate]. Defined.

(** C22. [total_flights_json] never raises: [json_util] serialises the
    ObjectIds that make C21's [json.dumps] fail. *)
Theorem total_flights_json_ok (db : database) :
  exists s, total_flights_json db = Ok (Text s).
Proof.
  unfold total_flights_json, json_util_dumps, json_dumps.
  destruct (json_encode_bson_to_json false (PList (map PDict (flights_by_month db))))
    as [s ->].
  simpl. eauto.
Qed.

(** C31. Round trip of [total_flights_json]: when the documents of
    [flights_by_month] have distinct keys, the text it answers reads back
    with [json.loads] as the documents [find] returns, sorted by year and
    month, each ObjectId written as [{"$oid": ...}]: what the chart page
    receives is the data of the table page. *)
Theorem total_flights_json_roundtrip (db : database) :
  (forall d, d ∈ collection db "flights_by_month" -> keys_distinct (PDict d) = true) ->
  exists s, total_flights_json db = Ok (Text s) /\
    json_loads s = Some (bson_to_json (PList (map PDict (flights_by_month db)))).
Proof.
  intros Hk. unfold total_flights_json.
  destruct (json_util_dumps false (PList (map PDict (flights_by_month db)))) as [s|e] eqn:Hs.
  - exists s. split; [done|]. apply (json_util_loads false); [done|].
    simpl. apply forallb_forall. intros x (d & <- & Hd)%in_map_iff.
    apply Hk. apply list_elem_of_In, elem_of_find in Hd. apply Hd.
  - exfalso. destruct (json_encode_bson_to_json false (PList (map PDict (flights_by_month db)))) as [s' Hs'].
    unfold json_util_dumps, json_dumps in Hs. by rewrite Hs' in Hs.
Qed.

Theorem total_flights_json_roundtrip_witness :
  exists s, total_flights_json example_db = Ok (Text s) /\
    json_loads s = Some (bson_to_json (PList (map PDict (flights_by_month example_db)))).
Proof.
  apply total_flights_json_roundtrip. intros d Hd. simpl in Hd.
  repeat (apply elem_of_cons in Hd as [->|Hd]; [reflexivity|]). by apply elem_of_nil in Hd.
Defined.

(** C28. [airplane_manufacturers_chart] raises [TypeError] exactly when
    the first document of airplane_manufacturer_totals (the one
    [find_one()] with no filter returns) holds an ObjectId at some depth,
    because it serialises it with [json.dumps]; an empty collection and
    documents without ObjectIds get an answer. *)
Theorem airplane_manufacturers_chart_raises_iff (db : database) :
  airplane_manufacturers_chart db =
    Raise (TypeError "Object of type ObjectId is not JSON serializable") <->
  match collection db "airplane_manufacturer_totals" with
  | [] => False
  | d :: _ => has_objectid (PDict d) = true
  end.
Proof.
  unfold airplane_manufacturers_chart, find_one.
  destruct (collection db "airplane_manufacturer_totals") as [|d ds].
  - simpl. split; [discriminate | done].
  - change (List.find (doc_matches []) (d :: ds)) with (Some d). cbv iota.
    rewrite <- (json_dumps_raises_iff true).
    destruct (json_dumps true (PDict d)); cbn [pybind]; split; congruence.
Qed.

(** C29. The ch02 [executive] of test_flask_pymongo answers a text that
    [json.loads] reads back as the executives named [name], in natural
    order, with [{"$oid": ...}] for their ObjectIds, whenever the
    documents have distinct keys. *)
Theorem executive_dumps_roundtrip (db : database) (name : string) :
  (forall d, d ∈ collection db "executives" -> keys_distinct (PDict d) = true) ->
  exists s, executive_dumps db name = Ok (Text s) /\
    json_loads s = Some (bson_to_json (PList (map PDict (all_with db "executives" "name" name)))).
Proof.
  intros Hk. unfold executive_dumps, all_with. rewrite find_no_sort, filter_single.
  destruct (json_util_dumps_docs true
    (List.filter (fun d => value_matches (dict_lookup "name" d) (PStr name)) (collection db "executives")))
    as (s & -> & Hs).
  - intros d Hd. apply list_elem_of_In, filter_In in Hd as [Hd _]. apply Hk. by apply list_elem_of_In.
  - by exists s.
Qed.

Theorem executive_dumps_roundtrip_witness :
  exists s, executive_dumps example_db "Ken Lay" = Ok (Text s) /\
    json_loads s = Some (bson_to_json (PList (map PDict (all_with example_db "executives" "name" "Ken Lay")))).
Proof.
  apply executive_dumps_roundtrip. intros d Hd. simpl in Hd.
  repeat (apply elem_of_cons in Hd as [->|Hd]; [reflexivity|]). by apply elem_of_nil in Hd.
Defined.


(** C33. [total_flights] and [total_flights_chart] render the same list:
    every document of flights_by_month exactly once, sorted by year and
    then month, with no document after one that sorts below it. *)
Theorem total_flights_sorted (db : database) :
  exists fs,
    total_flights db = Ok (Render "total_flights.html" [("total_flights", PList (map PDict fs))]) /\
    total_flights_chart db = Ok (Render "total_flights_chart.html" [("total_flights", PList (map PDict fs))]) /\
    Permutation fs (collection db "flights_by_month") /\
    StronglySorted (fun d1 d2 => sort_compare [("Year", 1%Z); ("Month", 1%Z)] d1 d2 <> Gt) fs.
Proof.
  eexists. split; [reflexivity|]. split; [reflexivity|]. split.
  - unfold flights_by_month, find. by rewrite sort_by_perm, filter_no_filter.
  - apply find_sorted.
Qed.


End MongoHandlers.
