(* ===== verification/Routing.v ===== *)
(** * Routing: the [@app.route] decorators and Flask's dispatch

    Every controller of src/ch06/web/report_flask.py is registered with
    one or more [@app.route(rule)] decorators; stacked decorators apply
    bottom-up, so the lower rule is registered first.  Flask (werkzeug)
    answers a request by matching the path of its URL against the rules:
    a rule is split at ['/'], a literal segment must be equal, and a
    [<name>] segment (the default [string] converter) takes any non-empty
    text without ['/'], passed to the view as the keyword argument
    [name].  The path is percent-decoded before it is split (the WSGI
    server decodes [PATH_INFO]).  A path no rule matches is answered
    404 Not Found; a view that raises is answered 500.

    [dispatch] tries the rules in registration order.  werkzeug orders
    candidates differently (literal segments before converters), but the
    url map of report_flask.py is unambiguous ([url_map_unambiguous]): all
    rules matching a path name the same view with the same arguments, so
    the order does not matter.  werkzeug's redirect of a path without its
    trailing slash to a rule with one never arises either: every rule
    ending in ['/'] has its twin without it ([url_map_slash_twins]).

    The ch02 apps each register one rule ([test_flask_app],
    [bootstrap_app], [pymongo_app]). *)

From Stdlib Require Import ZArith Ascii String Lia.
From stdpp Require Import base list strings sets.
From S2P Require Import Prelude PyValue UrlArgs Handlers Mongo MongoHandlers.

Module Routing.
Import UrlArgs Handlers Mongo MongoHandlers.

(** ** Rules and paths *)

(** A segment of a rule: a literal, or a [<name>] variable. *)
Inductive segment : Type :=
| Lit (s : list ascii)
| Var (name : string).

#[export] Instance segment_eq_dec : EqDecision segment.
Proof. solve_decision. Defined.

Definition parse_segment (f : list ascii) : segment :=
  match f with
  | "<"%char :: rest =>
      match rev rest with
      | ">"%char :: rname => Var (string_of_list_ascii (rev rname))
      | _ => Lit f
      end
  | _ => Lit f
  end.

(** The segments after the leading ['/']: ["/a/<b>/"] is
    [[Lit "a"; Var "b"; Lit ""]], ["/"] is [[Lit ""]]. *)
Definition path_split (p : list ascii) : list (list ascii) :=
  match p with
  | "/"%char :: p' => split_on "/" p'
  | _ => split_on "/" p
  end.

Definition parse_rule (rule : string) : list segment :=
  map parse_segment (path_split (list_ascii_of_string rule)).

(** The path of a URL [scheme://host/path?query#fragment]. *)
Definition url_path (u : string) : list ascii :=
  let l := (split_first "#" (split_first "?" (list_ascii_of_string u)).1).1 in
  match split_first "/" l with
  | (_, Some r1) =>
      match split_first "/" r1 with
      | (_, Some r2) =>
          match split_first "/" r2 with
          | (_, Some p) => "/"%char :: p
          | (_, None) => ["/"%char]
          end
      | (_, None) => ["/"%char]
      end
  | (_, None) => ["/"%char]
  end.

(** Percent-decoding of the path ([+] stays a plus in a path). *)
Fixpoint unquote_path (l : list ascii) : list ascii :=
  match l with
  | [] => []
  | x :: l' =>
      if decide (x = "%"%char) then
        match l' with
        | h1 :: h2 :: l'' =>
            match hex_value h1, hex_value h2 with
            | Some a, Some b => ascii_of_nat (16 * a + b) :: unquote_path l''
            | _, _ => x :: unquote_path l'
            end
        | _ => x :: unquote_path l'
        end
      else x :: unquote_path l'
  end.

Definition request_segments (req : request) : list (list ascii) :=
  path_split (unquote_path (url_path (url req))).

(** ** Matching *)

(** The keyword arguments of a match, in the order of the rule. *)
Fixpoint match_segments (rs : list segment) (ps : list (list ascii)) : option (list (string * string)) :=
  match rs, ps with
  | [], [] => Some []
  | Lit s :: rs', p :: ps' => if decide (s = p) then match_segments rs' ps' else None
  | Var x :: rs', p :: ps' =>
      if decide (p = []) then None
      else vs ← match_segments rs' ps'; Some ((x, string_of_list_ascii p) :: vs)
  | _, _ => None
  end.

Section Dispatch.
Context {E : Type}.

(** The first rule of the map that matches, with its view and arguments. *)
Fixpoint dispatch (rules : list (string * E)) (ps : list (list ascii)) : option (E * list (string * string)) :=
  match rules with
  | [] => None
  | (rule, e) :: rules' =>
      match match_segments (parse_rule rule) ps with
      | Some vs => Some (e, vs)
      | None => dispatch rules' ps
      end
  end.

End Dispatch.

(** Two rules can match a common path. *)
Fixpoint overlap (r1 r2 : list segment) : bool :=
  match r1, r2 with
  | [], [] => true
  | Lit a :: r1', Lit b :: r2' => bool_decide (a = b) && overlap r1' r2'
  | Lit a :: r1', Var _ :: r2' => bool_decide (a <> []) && overlap r1' r2'
  | Var _ :: r1', Lit b :: r2' => bool_decide (b <> []) && overlap r1' r2'
  | Var _ :: r1', Var _ :: r2' => overlap r1' r2'
  | _, _ => false
  end.

(** A map is unambiguous when rules that overlap are the same rule of
    the same view. *)
Definition unambiguous_b {E} `{EqDecision E} (rules : list (string * E)) : bool :=
  forallb (fun r1 => forallb (fun r2 =>
      negb (overlap (parse_rule r1.1) (parse_rule r2.1)) ||
      (bool_decide (r1.2 = r2.2) && bool_decide (parse_rule r1.1 = parse_rule r2.1))) rules) rules.

(** ** The url map of report_flask.py *)

(** The views of report_flask.py, by function name. *)
Inductive endpoint : Type :=
| ep_on_time_performance | ep_list_flights | ep_total_flights | ep_total_flights_json
| ep_total_flights_chart | ep_search_airplanes | ep_airplane_manufacturers_chart
| ep_flights_per_airplane | ep_airline | ep_airport | ep_airline2 | ep_airlines
| ep_search_flights.

#[export] Instance endpoint_eq_dec : EqDecision endpoint.
Proof. solve_decision. Defined.

Definition route_on_time_performance : list (string * endpoint) :=
  [("/on_time_performance", ep_on_time_performance)].
Definition route_list_flights : list (string * endpoint) :=
  [("/flights/<origin>/<dest>/<flight_date>", ep_list_flights)].
Definition route_total_flights : list (string * endpoint) :=
  [("/total_flights", ep_total_flights)].
Definition route_total_flights_json : list (string * endpoint) :=
  [("/total_flights.json", ep_total_flights_json)].
Definition route_total_flights_chart : list (string * endpoint) :=
  [("/total_flights_chart", ep_total_flights_chart)].
Definition route_search_airplanes : list (string * endpoint) :=
  [("/airplanes/", ep_search_airplanes); ("/airplanes", ep_search_airplanes)].
(** The same decorator twice: the rule is registered twice. *)
Definition route_airplane_manufacturers_chart : list (string * endpoint) :=
  [("/airplanes/chart/manufacturers.json", ep_airplane_manufacturers_chart);
   ("/airplanes/chart/manufacturers.json", ep_airplane_manufacturers_chart)].
Definition route_flights_per_airplane : list (string * endpoint) :=
  [("/airplane/flights/<tail_number>", ep_flights_per_airplane);
   ("/airplane/<tail_number>", ep_flights_per_airplane)].
Definition route_airline : list (string * endpoint) :=
  [("/airlines/<carrier_code>", ep_airline)].
Definition route_airport : list (string * endpoint) :=
  [("/airport/<airport_code>", ep_airport)].
Definition route_airline2 : list (string * endpoint) :=
  [("/airlines2/<carrier_code>", ep_airline2)].
Definition route_airlines : list (string * endpoint) :=
  [("/airlines/", ep_airlines); ("/airlines", ep_airlines); ("/", ep_airlines)].
Definition route_search_flights : list (string * endpoint) :=
  [("/flights/search/", ep_search_flights); ("/flights/search", ep_search_flights)].

(** The rules in the order the module registers them. *)
Definition url_map : list (string * endpoint) :=
  route_on_time_performance ++ route_list_flights ++ route_total_flights ++
  route_total_flights_json ++ route_total_flights_chart ++ route_search_airplanes ++
  route_airplane_manufacturers_chart ++ route_flights_per_airplane ++ route_airline ++
  route_airport ++ route_airline2 ++ route_airlines ++ route_search_flights.

(** ** Calling a view *)

(** [values[k]] for the dict of a match. *)
Fixpoint kw_lookup (k : string) (values : list (string * string)) : option string :=
  match values with
  | [] => None
  | (k', v) :: values' => if decide (k = k') then Some v else kw_lookup k values'
  end.

(** Calling [view_func] with the keyword arguments [values]: the arguments in the order of the function's
    parameters; an unknown keyword or a missing parameter raises
    [TypeError] as CPython does. *)
Definition bind_kwargs (fname : string) (params : list string)
    (values : list (string * string)) : pyres (list string) :=
  match List.find (fun kv => negb (bool_decide (kv.1 ∈ params))) values with
  | Some (k, _) => Raise (TypeError (fname +:+ "() got an unexpected keyword argument '" +:+ k +:+ "'"))
  | None =>
      pymapM (fun p =>
        match kw_lookup p values with
        | Some v => Ok v
        | None => Raise (TypeError (fname +:+ "() missing 1 required positional argument: '" +:+ p +:+ "'"))
        end) params
  end.

(** The answer of the app: 404 when no rule matches, else what the view
    returns or raises. *)
Inductive outcome : Type :=
| NotFound
| Handled (r : pyres response).

Section App.
Context `{Config} `{Elastic} (db : database).

Definition view (ep : endpoint) (values : list (string * string)) (req : request) : pyres response :=
  match ep with
  | ep_on_time_performance =>
      _ <- bind_kwargs "on_time_performance" [] values ;; on_time_performance db req
  | ep_list_flights =>
      args <- bind_kwargs "list_flights" ["origin"; "dest"; "flight_date"] values ;;
      match args with
      | [origin; dest; flight_date] => list_flights db origin dest flight_date
      | _ => Raise (TypeError "list_flights")
      end
  | ep_total_flights => _ <- bind_kwargs "total_flights" [] values ;; total_flights db
  | ep_total_flights_json => _ <- bind_kwargs "total_flights_json" [] values ;; total_flights_json db
  | ep_total_flights_chart => _ <- bind_kwargs "total_flights_chart" [] values ;; total_flights_chart db
  | ep_search_airplanes =>
      _ <- bind_kwargs "search_airplanes" [] values ;; search_airplanes req
  | ep_airplane_manufacturers_chart =>
      _ <- bind_kwargs "airplane_manufacturers_chart" [] values ;; airplane_manufacturers_chart db
  | ep_flights_per_airplane =>
      args <- bind_kwargs "flights_per_airplane" ["tail_number"] values ;;
      match args with [tail_number] => flights_per_airplane db tail_number | _ => Raise (TypeError "flights_per_airplane") end
  | ep_airline =>
      args <- bind_kwargs "airline" ["carrier_code"] values ;;
      match args with [carrier_code] => airline db carrier_code | _ => Raise (TypeError "airline") end
  | ep_airport =>
      args <- bind_kwargs "airport" ["airport_code"] values ;;
      match args with [airport_code] => airport db airport_code | _ => Raise (TypeError "airport") end
  | ep_airline2 =>
      args <- bind_kwargs "airline2" ["carrier_code"] values ;;
      match args with [carrier_code] => airline2 db carrier_code | _ => Raise (TypeError "airline2") end
  | ep_airlines => _ <- bind_kwargs "airlines" [] values ;; airlines db
  | ep_search_flights =>
      _ <- bind_kwargs "search_flights" [] values ;; @search_flights _ _ report_flask_helpers req
  end.

(** [app = Flask(__name__)] with the controllers registered, [client]
    reading [db] and [elastic] the search client. *)
Definition report_flask_app (req : request) : outcome :=
  match dispatch url_map (request_segments req) with
  | Some (ep, values) => Handled (view ep values req)
  | None => NotFound
  end.

End App.

(** The ch02 apps: one rule each. *)
Definition one_rule_app (rule param : string) (f : string -> pyres response) (req : request) : outcome :=
  match dispatch [(rule, tt)] (request_segments req) with
  | Some (_, values) =>
      Handled (args <- bind_kwargs "view" [param] values ;;
               match args with [x] => f x | _ => Raise (TypeError "view") end)
  | None => NotFound
  end.

Definition test_flask_app (req : request) : outcome := one_rule_app "/<input>" "input" hello req.
Definition bootstrap_app (db : database) (req : request) : outcome :=
  one_rule_app "/executive/<name>" "name" (executive db) req.
Definition pymongo_app (db : database) (req : request) : outcome :=
  one_rule_app "/executive/<name>" "name" (executive_dumps db) req.

(** The path of a URL made only of safe segments. *)
Definition segment_safe (s : string) : bool :=
  bool_decide (s <> ""%string) &&
  forallb (fun c => negb (bool_decide (c ∈ ["/"; "%"; "?"; "#"]%char))) (list_ascii_of_string s).

(** ** Lemmas *)

Lemma match_overlap r1 r2 ps v1 v2 :
  match_segments r1 ps = Some v1 -> match_segments r2 ps = Some v2 -> overlap r1 r2 = true.
Proof.
  revert r2 ps v1 v2.
  induction r1 as [|s1 r1 IH]; intros [|s2 r2] [|p ps] v1 v2; cbn [match_segments overlap];
    try (by intros); try (destruct s1; by intros); try (destruct s2; by intros).
  destruct s1 as [a|x], s2 as [b|y]; repeat case_decide; try done; subst;
    destruct (match_segments r1 ps) as [m1|] eqn:E1; try done;
    destruct (match_segments r2 ps) as [m2|] eqn:E2; try done;
    intros _ _; rewrite ?bool_decide_eq_true_2 by done; eauto.
Qed.

Lemma unambiguous_sound {E} `{EqDecision E} (rules : list (string * E)) r1 r2 ps v1 v2 :
  unambiguous_b rules = true -> r1 ∈ rules -> r2 ∈ rules ->
  match_segments (parse_rule r1.1) ps = Some v1 -> match_segments (parse_rule r2.1) ps = Some v2 ->
  r1.2 = r2.2 /\ v1 = v2.
Proof.
  intros Hu H1 H2 Hm1 Hm2. unfold unambiguous_b in Hu.
  rewrite forallb_forall in Hu. apply list_elem_of_In in H1, H2.
  specialize (Hu r1 H1). rewrite forallb_forall in Hu. specialize (Hu r2 H2).
  rewrite (match_overlap _ _ _ _ _ Hm1 Hm2) in Hu. simpl in Hu.
  apply andb_true_iff in Hu as [He Hp]. apply bool_decide_eq_true in He, Hp.
  rewrite Hp in Hm1. split; congruence.
Qed.

Lemma dispatch_Some {E} (rules : list (string * E)) ps e vs :
  dispatch rules ps = Some (e, vs) -> exists rule, (rule, e) ∈ rules /\ match_segments (parse_rule rule) ps = Some vs.
Proof.
  induction rules as [|[rule e'] rules IH]; simpl; [done|].
  destruct (match_segments _ ps) eqn:Hm.
  - intros [= -> ->]. exists rule. split; [apply list_elem_of_here | done].
  - intros (r & Hr & Hm')%IH. exists r. split; [by apply list_elem_of_further | done].
Qed.

Lemma dispatch_None {E} (rules : list (string * E)) ps rule e :
  dispatch rules ps = None -> (rule, e) ∈ rules -> match_segments (parse_rule rule) ps = None.
Proof.
  induction rules as [|[rule' e'] rules IH]; simpl; [set_solver|].
  destruct (match_segments (parse_rule rule') ps) eqn:Hm; [done|].
  intros Hd [[= -> ->] | Hin]%elem_of_cons; [done | by apply IH].
Qed.

(** In an unambiguous map, any matching rule determines the dispatch. *)
Lemma dispatch_complete {E} `{EqDecision E} (rules : list (string * E)) ps rule e vs :
  unambiguous_b rules = true -> (rule, e) ∈ rules ->
  match_segments (parse_rule rule) ps = Some vs -> dispatch rules ps = Some (e, vs).
Proof.
  intros Hu Hin Hm. destruct (dispatch rules ps) as [[e' vs']|] eqn:Hd.
  - apply dispatch_Some in Hd as (rule' & Hin' & Hm').
    destruct (unambiguous_sound rules (rule', e') (rule, e) ps vs' vs) as [He ->]; try done.
    simpl in He. by subst.
  - by rewrite (dispatch_None rules ps rule e) in Hm.
Qed.

Lemma url_map_unambiguous_b : unambiguous_b url_map = true.
Proof. vm_compute. reflexivity. Qed.

(** Every rule ending in ['/'] has its twin without it, for the same view. *)
Lemma url_map_slash_twins rule ep :
  (rule, ep) ∈ url_map -> rule <> "/"%string -> last (list_ascii_of_string rule) = Some "/"%char ->
  (string_of_list_ascii (removelast (list_ascii_of_string rule)), ep) ∈ url_map.
Proof.
  intros Hin. apply list_elem_of_In in Hin.
  repeat (destruct Hin as [Hin|Hin];
    [injection Hin as <- <-; intros H1 H2; vm_compute in H1, H2; first [discriminate | by destruct H1 | vm_decide]|]).
  done.
Qed.

(** Every view of report_flask.py has a rule. *)
Lemma url_map_total ep : exists rule, (rule, ep) ∈ url_map.
Proof. destruct ep; eexists; apply list_elem_of_In; cbn; repeat first [left; reflexivity | right]. Qed.

Lemma unquote_path_id l : "%"%char ∉ l -> unquote_path l = l.
Proof.
  induction l as [|x l IH]; intros Hp; [done|]. rewrite elem_of_cons in Hp.
  simpl. rewrite decide_False by naive_solver. f_equal. naive_solver.
Qed.

Lemma segment_safe_spec s :
  segment_safe s = true <->
  s <> ""%string /\ Forall (fun c => c ∉ ["/"; "%"; "?"; "#"]%char) (list_ascii_of_string s).
Proof.
  unfold segment_safe. rewrite andb_true_iff, bool_decide_eq_true, forallb_forall, Forall_forall.
  apply and_iff_compat_l. setoid_rewrite negb_true_iff. setoid_rewrite bool_decide_eq_false.
  setoid_rewrite list_elem_of_In. done.
Qed.

Lemma concat_chars c segs :
  c ∈ list_ascii_of_string (String.concat "/" segs) ->
  c = "/"%char \/ Exists (fun s => c ∈ list_ascii_of_string s) segs.
Proof.
  induction segs as [|s segs IH]; [simpl; set_solver|].
  destruct segs as [|s' segs']; [intros; right; by constructor|].
  change (String.concat "/" (s :: s' :: segs')) with (s +:+ "/" +:+ String.concat "/" (s' :: segs')).
  rewrite !list_ascii_of_string_append. cbn [list_ascii_of_string app]. rewrite elem_of_app, elem_of_cons.
  intros [H|[->|H]]; [right; by constructor | by left |].
  destruct (IH H) as [->|Hex]; [by left | right; by constructor].
Qed.

Lemma split_on_concat segs :
  segs <> [] -> Forall (fun s => "/"%char ∉ list_ascii_of_string s) segs ->
  split_on "/" (list_ascii_of_string (String.concat "/" segs)) = map list_ascii_of_string segs.
Proof.
  induction segs as [|s segs IH]; [done|]. intros _ Hf. rewrite Forall_cons in Hf.
  destruct segs as [|s' segs']; [simpl; by rewrite split_on_none by apply Hf|].
  change (String.concat "/" (s :: s' :: segs')) with (s +:+ "/" +:+ String.concat "/" (s' :: segs')).
  rewrite !list_ascii_of_string_append. cbn [list_ascii_of_string app].
  rewrite split_on_app, split_on_none, IH by (done || apply Hf). done.
Qed.

Lemma safe_not_in s c : segment_safe s = true -> c ∈ ["/"; "%"; "?"; "#"]%char -> c ∉ list_ascii_of_string s.
Proof.
  intros [_ Hf]%segment_safe_spec Hc Hin.
  exact (proj1 (Forall_forall _ _) Hf c Hin Hc).
Qed.

(** The segments of [http://localhost:5000/s1/.../sn] are [s1 ... sn]. *)
Lemma request_segments_local a segs :
  segs <> [] -> Forall (fun s => segment_safe s = true) segs ->
  request_segments (mk_request a ("http://localhost:5000/" +:+ String.concat "/" segs)) =
    map list_ascii_of_string segs.
Proof.
  intros Hne Hsafe.
  assert (Hno : forall c, c ∈ ["/"; "%"; "?"; "#"]%char -> c <> "/"%char ->
            c ∉ list_ascii_of_string (String.concat "/" segs)).
  { intros c Hc Hs Hin. destruct (concat_chars c segs Hin) as [->|Hex]; [done|].
    apply Exists_exists in Hex as (s & Hs' & Hcs).
    exact (safe_not_in s c (proj1 (Forall_forall _ _) Hsafe s Hs') Hc Hcs). }
  unfold request_segments, url_path; simpl url.
  rewrite list_ascii_of_string_append.
  rewrite (split_first_none "?"%char) by (rewrite not_elem_of_app; split; [vm_decide | apply Hno; set_solver]).
  cbn [fst]. rewrite (split_first_none "#"%char) by (rewrite not_elem_of_app; split; [vm_decide | apply Hno; set_solver]).
  simpl. rewrite unquote_path_id.
  - simpl. apply split_on_concat; [done|]. eapply Forall_impl; [exact Hsafe|].
    intros s Hs. apply safe_not_in; [done | set_solver].
  - apply Hno; [set_solver | done].
Qed.

(** The keyword arguments of [list_flights]. *)
(** Matching a rule of literals and variables against concrete literals
    and non-empty variable segments. *)
Ltac solve_match :=
  cbn [match_segments];
  repeat first [ rewrite decide_True by done
               | rewrite decide_False by (by intros ?%list_ascii_of_string_neq_nil) ];
  simpl; by rewrite ?string_of_list_ascii_of_string.

Lemma match_list_flights o d f :
  o <> ""%string -> d <> ""%string -> f <> ""%string ->
  match_segments (parse_rule "/flights/<origin>/<dest>/<flight_date>")
    (map list_ascii_of_string ["flights"; o; d; f]) =
  Some [("origin", o); ("dest", d); ("flight_date", f)].
Proof.
  intros Ho Hd Hf. cbn [map]. change (parse_rule _) with [Lit (list_ascii_of_string "flights"); Var "origin"; Var "dest"; Var "flight_date"].
  solve_match.
Qed.

Lemma match_airplane t :
  t <> ""%string ->
  match_segments (parse_rule "/airplane/<tail_number>") (map list_ascii_of_string ["airplane"; t]) =
  Some [("tail_number", t)].
Proof.
  intros Ht. cbn [map]. change (parse_rule _) with [Lit (list_ascii_of_string "airplane"); Var "tail_number"].
  solve_match.
Qed.

Lemma match_airplane_flights t :
  t <> ""%string ->
  match_segments (parse_rule "/airplane/flights/<tail_number>")
    (map list_ascii_of_string ["airplane"; "flights"; t]) =
  Some [("tail_number", t)].
Proof.
  intros Ht. cbn [map].
  change (parse_rule _) with [Lit (list_ascii_of_string "airplane"); Lit (list_ascii_of_string "flights"); Var "tail_number"].
  solve_match.
Qed.

(** ** Properties of the app *)

(** C35. The url map of report_flask.py is unambiguous: any two rules
    that match the same path name the same view and give it the same
    keyword arguments, so Flask's choice among matching rules never
    matters. *)
Theorem url_map_unambiguous (ps : list (list ascii)) (r1 r2 : string * endpoint) (v1 v2 : list (string * string)) :
  r1 ∈ url_map -> r2 ∈ url_map ->
  match_segments (parse_rule r1.1) ps = Some v1 -> match_segments (parse_rule r2.1) ps = Some v2 ->
  r1.2 = r2.2 /\ v1 = v2.
Proof. apply unambiguous_sound, url_map_unambiguous_b. Qed.

Section AppProperties.
Context `{Config} `{Elastic} (db : database).

Lemma report_flask_app_route req rule ep vs :
  (rule, ep) ∈ url_map -> match_segments (parse_rule rule) (request_segments req) = Some vs ->
  report_flask_app db req = Handled (view db ep vs req).
Proof.
  intros Hin Hm. unfold report_flask_app.
  by rewrite (dispatch_complete url_map _ rule ep vs url_map_unambiguous_b Hin Hm).
Qed.

(** The same for a local URL [http://localhost:5000/s1/.../sn] of safe segments. *)
Lemma report_flask_app_local a segs rule ep vs :
  segs <> [] -> Forall (fun s => segment_safe s = true) segs -> (rule, ep) ∈ url_map ->
  match_segments (parse_rule rule) (map list_ascii_of_string segs) = Some vs ->
  report_flask_app db (mk_request a ("http://localhost:5000/" +:+ String.concat "/" segs)) =
    Handled (view db ep vs (mk_request a ("http://localhost:5000/" +:+ String.concat "/" segs))).
Proof.
  intros Hne Hs Hin Hm. apply report_flask_app_route with rule; [done|].
  by rewrite request_segments_local.
Qed.

(** C36. A request whose path matches a rule of the url map is answered
    by that rule's view, called with the arguments the rule extracts. *)
Theorem report_flask_app_dispatch (req : request) (rule : string) (ep : endpoint) (vs : list (string * string)) :
  (rule, ep) ∈ url_map -> match_segments (parse_rule rule) (request_segments req) = Some vs ->
  report_flask_app db req = Handled (view db ep vs req).
Proof. apply report_flask_app_route. Qed.

(** C37. [GET /flights/<origin>/<dest>/<flight_date>] runs
    [list_flights(origin, dest, flight_date)] with the three segments of
    the path, for any segments free of ['/'], ['%'], ['?'] and ['#']. *)
Theorem list_flights_url (a : multidict) (o d f : string) :
  segment_safe o = true -> segment_safe d = true -> segment_safe f = true ->
  report_flask_app db (mk_request a ("http://localhost:5000/flights/" +:+ o +:+ "/" +:+ d +:+ "/" +:+ f)) =
    Handled (list_flights db o d f).
Proof.
  intros Ho Hd Hf.
  change ("http://localhost:5000/flights/" +:+ o +:+ "/" +:+ d +:+ "/" +:+ f)%string
    with ("http://localhost:5000/" +:+ String.concat "/" ["flights"; o; d; f])%string.
  rewrite (report_flask_app_local _ _ "/flights/<origin>/<dest>/<flight_date>" ep_list_flights
             [("origin", o); ("dest", d); ("flight_date", f)]);
    [reflexivity | done | repeat constructor; done | vm_decide |].
  apply match_list_flights; by apply segment_safe_spec.
Qed.

(** C38. Both rules of [flights_per_airplane] serve every tail number:
    [GET /airplane/t] and [GET /airplane/flights/t] run
    [flights_per_airplane(t)] for any segment [t] free of ['/'], ['%'],
    ['?'] and ['#'].  In particular [/airplane/flights], the second route
    without its tail number, is not a 404: the first rule takes it and
    looks up the tail number ["flights"]. *)
Theorem flights_per_airplane_routes (a : multidict) (t : string) :
  segment_safe t = true ->
  report_flask_app db (mk_request a ("http://localhost:5000/airplane/" +:+ t)) =
    Handled (flights_per_airplane db t) /\
  report_flask_app db (mk_request a ("http://localhost:5000/airplane/flights/" +:+ t)) =
    Handled (flights_per_airplane db t).
Proof.
  intros Ht. pose proof (proj1 (proj1 (segment_safe_spec t) Ht)) as Hne. split.
  - change ("http://localhost:5000/airplane/" +:+ t)%string
      with ("http://localhost:5000/" +:+ String.concat "/" ["airplane"; t])%string.
    rewrite (report_flask_app_local _ _ "/airplane/<tail_number>" ep_flights_per_airplane [("tail_number", t)]);
      [reflexivity | done | repeat constructor; done | vm_decide | by apply match_airplane].
  - change ("http://localhost:5000/airplane/flights/" +:+ t)%string
      with ("http://localhost:5000/" +:+ String.concat "/" ["airplane"; "flights"; t])%string.
    rewrite (report_flask_app_local _ _ "/airplane/flights/<tail_number>" ep_flights_per_airplane [("tail_number", t)]);
      [reflexivity | done | repeat constructor; done | vm_decide | by apply match_airplane_flights].
Qed.

End AppProperties.

(** C39. The ch02 app [test_flask] echoes the one path segment it is
    given, and answers 404 on the bare root, which its only rule
    [/<input>] does not match. *)
Theorem test_flask_echo (a : multidict) (s : string) :
  segment_safe s = true ->
  test_flask_app (mk_request a ("http://localhost:5000/" +:+ s)) = Handled (Ok (Text s)) /\
  test_flask_app (mk_request a "http://localhost:5000/") = NotFound.
Proof.
  intros Hs. split; [|vm_compute; reflexivity].
  change ("http://localhost:5000/" +:+ s)%string with ("http://localhost:5000/" +:+ String.concat "/" [s])%string.
  unfold test_flask_app, one_rule_app.
  rewrite request_segments_local; [| done | by constructor].
  apply segment_safe_spec in Hs as [Hs _]. cbn [dispatch map].
  change (parse_rule "/<input>") with [Var "input"]. cbn [match_segments].
  rewrite decide_False by (by intros ?%list_ascii_of_string_neq_nil).
  simpl. by rewrite string_of_list_ascii_of_string.
Qed.

(** ** Witnesses *)

Lemma url_map_unambiguous_witness :
  ("/airplanes/chart/manufacturers.json", ep_airplane_manufacturers_chart).2 =
    ("/airplanes/chart/manufacturers.json", ep_airplane_manufacturers_chart).2 /\
  ([] : list (string * string)) = [].
Proof.
  apply (url_map_unambiguous (map list_ascii_of_string ["airplanes"; "chart"; "manufacturers.json"])
           ("/airplanes/chart/manufacturers.json", ep_airplane_manufacturers_chart)
           ("/airplanes/chart/manufacturers.json", ep_airplane_manufacturers_chart) [] []);
    [vm_decide | vm_decide | vm_compute; reflexivity | vm_compute; reflexivity].
Defined.

Lemma report_flask_app_dispatch_witness :
  @report_flask_app example_config (es_returning (PDict [])) example_db
    (mk_request [] "http://localhost:5000/airport/ATL") =
  Handled (@view example_config (es_returning (PDict [])) example_db ep_airport [("airport_code", "ATL")]
             (mk_request [] "http://localhost:5000/airport/ATL")).
Proof.
  apply (@report_flask_app_dispatch example_config (es_returning (PDict [])) example_db
           (mk_request [] "http://localhost:5000/airport/ATL") "/airport/<airport_code>" ep_airport
           [("airport_code", "ATL")]); [vm_decide | vm_compute; reflexivity].
Defined.

Lemma list_flights_url_witness :
  @report_flask_app example_config (es_returning (PDict [])) example_db
    (mk_request [] ("http://localhost:5000/flights/" +:+ "ATL" +:+ "/" +:+ "SFO" +:+ "/" +:+ "2015-01-01")) =
  Handled (list_flights example_db "ATL" "SFO" "2015-01-01").
Proof.
  apply (@list_flights_url example_config (es_returning (PDict [])) example_db [] "ATL" "SFO" "2015-01-01");
    vm_compute; reflexivity.
Defined.

Lemma flights_per_airplane_routes_witness :
  @report_flask_app example_config (es_returning (PDict [])) example_db
    (mk_request [] ("http://localhost:5000/airplane/" +:+ "flights")) =
    Handled (flights_per_airplane example_db "flights") /\
  @report_flask_app example_config (es_returning (PDict [])) example_db
    (mk_request [] ("http://localhost:5000/airplane/flights/" +:+ "flights")) =
    Handled (flights_per_airplane example_db "flights").
Proof.
  apply (@flights_per_airplane_routes example_config (es_returning (PDict [])) example_db [] "flights").
  vm_compute. reflexivity.
Defined.

Lemma test_flask_echo_witness :
  test_flask_app (mk_request [] ("http://localhost:5000/" +:+ "hello")) = Handled (Ok (Text "hello")) /\
  test_flask_app (mk_request [] "http://localhost:5000/") = NotFound.
Proof. apply (test_flask_echo [] "hello"). vm_compute. reflexivity. Defined.

End Routing.
